(** * Lead scoring agent: scoring, explanation, next action and persistence

    A shallow embedding of the decision logic of the backend
    ([app/engines/scoring_engine.py], [app/engines/explanation_engine.py],
    [app/engines/next_action_engine.py], [app/services/lead_service.py]).

    Conventions of the embedding.
    - Python numbers (the [int] and [float] values read from the YAML
      document and computed from them) are exact rationals, [Q]; numeric
      equality is [Qeq].  Rounding error of binary floating point is outside
      the model.
    - A Python [dict] is an insertion-ordered association list.
    - A [datetime] is a number of microseconds, naive or aware of a time zone;
      a [timedelta]'s [days] attribute is the floor of the difference divided
      by one day.
    - [datetime.utcnow()] is an explicit argument [now], a naive reading.
    - A Python exception is the [Raise] branch of [result]. *)

From Stdlib Require Import ZArith QArith Qminmax Qround Lqa Lia.
From Stdlib Require Import List String Ascii Bool.
From Stdlib Require Import Sorting.Sorted Sorting.Permutation.
Import ListNotations.

Open Scope string_scope.
Open Scope list_scope.
Open Scope Q_scope.

(** ** The fragment of the Python runtime the code relies on *)

Module Py.

Inductive exn : Type :=
| FileNotFoundError
| YAMLError
| AttributeError
| ZeroDivisionError
| TypeError.

Inductive result (A : Type) : Type :=
| Ok (a : A)
| Raise (e : exn).
Arguments Ok {A} a.
Arguments Raise {A} e.

Definition bind {A B : Type} (m : result A) (k : A -> result B) : result B :=
  match m with
  | Ok a => k a
  | Raise e => Raise e
  end.

(** [x > y] and [x >= y] on numbers. *)
Definition gt (x y : Q) : bool := negb (Qle_bool x y).
Definition ge (x y : Q) : bool := Qle_bool y x.

(** True division: [x / y] raises [ZeroDivisionError] on a zero divisor. *)
Definition truediv (x y : Q) : result Q :=
  if Qeq_bool y 0 then Raise ZeroDivisionError else Ok (x / y).

(** [round(x, 1)]: to one decimal, ties to the even neighbour. *)
Definition round_half_even (x : Q) : Z :=
  let f := Qfloor x in
  let r := x - inject_Z f in
  if gt (1 # 2) r then f
  else if gt r (1 # 2) then (f + 1)%Z
  else if Z.even f then f else (f + 1)%Z.

Definition round1 (x : Q) : Q := inject_Z (round_half_even (x * 10)) / 10.

(** [round(x, 2)] *)
Definition round2 (x : Q) : Q := inject_Z (round_half_even (x * 100)) / 100.

(** A reading of [datetime.utcnow()]: naive, in microseconds. *)
Definition utc : Type := Z.

(** A [datetime] with or without [tzinfo]. *)
Inductive datetime : Type :=
| Naive (t : Z)
| Aware (t : Z).

Definition microseconds_per_day : Z := 86400000000.

(** [(a - b).days] *)
Definition days_between (a b : Z) : Z := ((a - b) / microseconds_per_day)%Z.

(** [(datetime.utcnow() - d).days]: a naive and an aware datetime cannot be
    subtracted. *)
Definition days_since_utc (now : utc) (d : datetime) : result Z :=
  match d with
  | Naive t => Ok (days_between now t)
  | Aware _ => Raise TypeError
  end.

(** The values a lead dictionary holds: [None], [bool], [str], [datetime]. *)
Inductive value : Type :=
| VNone
| VBool (b : bool)
| VStr (s : string)
| VDatetime (d : datetime).

(** Truth value testing ([if v:]). *)
Definition truthy (v : value) : bool :=
  match v with
  | VNone => false
  | VBool b => b
  | VStr s => negb (s =? "")%string
  | VDatetime _ => true
  end.

(** Dictionaries keep insertion order; keys are unique. *)
Definition dict (V : Type) : Type := list (string * V).

Fixpoint dict_get {V : Type} (d : dict V) (k : string) : option V :=
  match d with
  | [] => None
  | (k', v) :: d' => if (k' =? k)%string then Some v else dict_get d' k
  end.

(** [d.get(k, dflt)] *)
Definition get_default {V : Type} (d : dict V) (k : string) (dflt : V) : V :=
  match dict_get d k with
  | Some v => v
  | None => dflt
  end.

(** [d[k] = v]: an existing key keeps its position, a new key goes last. *)
Fixpoint dict_set {V : Type} (d : dict V) (k : string) (v : V) : dict V :=
  match d with
  | [] => [(k, v)]
  | (k', v') :: d' =>
      if (k' =? k)%string then (k', v) :: d' else (k', v') :: dict_set d' k v
  end.

Definition dict_items {V : Type} (d : dict V) : list (string * V) := d.
Definition dict_values {V : Type} (d : dict V) : list V := map snd d.
Definition dict_keys {V : Type} (d : dict V) : list string := map fst d.
Definition len {V : Type} (d : dict V) : nat := List.length d.

(** [o.get(field, dflt)] on an optional field of a mapping read from YAML. *)
Definition get_or {A : Type} (o : option A) (dflt : A) : A :=
  match o with
  | Some a => a
  | None => dflt
  end.

End Py.

Import Py.

Notation "x <- m ;; k" := (Py.bind m (fun x => k))
  (at level 61, m at next level, right associativity).

(** ** The configuration document ([config/scoring_weights.yaml]) *)

Module Config.

(** An entry of [weights]: [{weight, description}]. *)
Record weight_config : Type := {
  weight : option Q;
  weight_description : option string
}.

(** [recency]: [{days_decay, max_score, description}]. *)
Record recency : Type := {
  days_decay : option Q;
  max_score : option Q;
  recency_description : option string
}.

(** [intent_thresholds]: [{high, medium}]. *)
Record thresholds : Type := {
  high : option Q;
  medium : option Q
}.

(** An entry of [confidence_factors]. *)
Record factor : Type := {
  factor_weight : option Q
}.

(** An entry of [recommended_actions]. *)
Record action_config : Type := {
  action : option string;
  urgency : option string;
  probability_label : option string
}.

(** An entry of [conversion_probabilities]. *)
Record probability_config : Type := {
  probability : option Q
}.

(** The top-level mapping; [None] is an absent section. *)
Record t : Type := {
  weights : option (dict weight_config);
  recency_section : option recency;
  intent_thresholds : option thresholds;
  confidence_factors : option (list factor);
  recommended_actions : option (dict action_config);
  conversion_probabilities : option (dict probability_config)
}.

Definition empty_weight_config : weight_config :=
  {| weight := None; weight_description := None |}.

Definition empty_recency : recency :=
  {| days_decay := None; max_score := None; recency_description := None |}.

Definition empty_thresholds : thresholds := {| high := None; medium := None |}.

Definition empty_action_config : action_config :=
  {| action := None; urgency := None; probability_label := None |}.

Definition empty_probability_config : probability_config :=
  {| probability := None |}.

(** What [yaml.safe_load] returns for a well-formed stream. *)
Inductive document : Type :=
| Null
| Scalar (s : string)
| Sequence (l : list string)
| Mapping (c : t).

(** What opening and parsing the file at a path yields. *)
Inductive outcome : Type :=
| Missing
| Malformed
| Parsed (d : document).

(** The files of the host, read through [open] and [yaml.safe_load]. *)
Definition files : Type := string -> outcome.

(** [app.core.config.Settings] *)
Record Settings : Type := { config_path : string }.

Definition settings : Settings :=
  {| config_path := "./config/scoring_weights.yaml" |}.

End Config.

(** ** Request schema ([app/models/schemas.py], [LeadInput]) *)

Module LeadInput.

Record t : Type := {
  email : string;
  name : string;
  company : option string;
  demo_requested : bool;
  registration : bool;
  enquiry_call_whatsapp : bool;
  enquiry_date : option datetime;
  pricing_compared : bool;
  lead_through_events : bool;
  lead_through_call : bool;
  lead_through_referral : bool
}.

Definition optional {A : Type} (inj : A -> value) (o : option A) : value :=
  match o with
  | Some a => inj a
  | None => VNone
  end.

(** [lead_data.model_dump()]: one key per field, in declaration order. *)
Definition model_dump (p : t) : dict value :=
  [ ("email", VStr (email p));
    ("name", VStr (name p));
    ("company", optional VStr (company p));
    ("demo_requested", VBool (demo_requested p));
    ("registration", VBool (registration p));
    ("enquiry_call_whatsapp", VBool (enquiry_call_whatsapp p));
    ("enquiry_date", optional VDatetime (enquiry_date p));
    ("pricing_compared", VBool (pricing_compared p));
    ("lead_through_events", VBool (lead_through_events p));
    ("lead_through_call", VBool (lead_through_call p));
    ("lead_through_referral", VBool (lead_through_referral p)) ].

End LeadInput.

(** An entry of the contribution list: [{'feature', 'impact', 'reason'}]. *)
Module Contribution.

Record t : Type := {
  feature : string;
  impact : Q;
  reason : string
}.

End Contribution.

(** The dictionary [score] returns. *)
Module ScoringResult.

Record t : Type := {
  score : Q;
  contributions : list Contribution.t;
  raw_scores : dict Q;
  recency_score : Q
}.

End ScoringResult.

(** ** [app/engines/scoring_engine.py], class [ConfigDrivenScoringEngine] *)

Module ConfigDrivenScoringEngine.

Record t : Type := {
  config : Config.t;
  weights : dict Config.weight_config;
  recency_config : Config.recency
}.

Definition _load_config (fs : Config.files) (config_path : string)
  : result Config.document :=
  match fs config_path with
  | Config.Missing => Raise FileNotFoundError
  | Config.Malformed => Raise YAMLError
  | Config.Parsed d => Ok d
  end.

Definition __init__ (fs : Config.files) (config_path : option string) : result t :=
  let config_path :=
    match config_path with
    | None => Config.config_path Config.settings
    | Some p => p
    end in
  config <- _load_config fs config_path ;;
  match config with
  | Config.Mapping c =>
      Ok {| config := c;
            weights := get_or (Config.weights c) [];
            recency_config := get_or (Config.recency_section c) Config.empty_recency |}
  | _ => Raise AttributeError
  end.

Definition _calculate_recency_score (self : t) (now : utc) (enquiry_date : value)
  : result Q :=
  match enquiry_date with
  | VNone => Ok 0
  | VDatetime d =>
      days <- days_since_utc now d ;;
      let days_since := inject_Z days in
      let days_decay := get_or (Config.days_decay (recency_config self)) 15 in
      let max_score := get_or (Config.max_score (recency_config self)) 10 in
      ratio <- truediv (days_decay - days_since) days_decay ;;
      Ok (Qmax 0 (ratio * max_score))
  | _ => Raise TypeError
  end.

(** The state of the first loop of [score]:
    [(raw_scores, total_raw_score, total_weight)]. *)
Definition accumulator : Type := (dict Q * Q * Q)%type.

(** One iteration of [for feature, weight_config in self.weights.items()]. *)
Definition weigh_feature (lead_data : dict value) (acc : accumulator)
    (item : string * Config.weight_config) : accumulator :=
  let '(raw_scores, total_raw_score, total_weight) := acc in
  let '(feature, weight_config) := item in
  let weight := get_or (Config.weight weight_config) 0 in
  let '(raw_scores, total_raw_score) :=
    if truthy (get_default lead_data feature (VBool false))
    then (dict_set raw_scores feature weight, total_raw_score + weight)
    else (dict_set raw_scores feature 0, total_raw_score) in
  (raw_scores, total_raw_score, total_weight + weight).

Definition weigh_features (self : t) (lead_data : dict value) : accumulator :=
  fold_left (weigh_feature lead_data) (dict_items (weights self)) ([], 0, 0).

(** [for feature, raw_score in raw_scores.items()]: the entries appended to
    [contributions_detail], in order. *)
Fixpoint feature_contributions (self : t) (total_weight : Q)
    (raw_items : list (string * Q)) : result (list Contribution.t) :=
  match raw_items with
  | [] => Ok []
  | (feature, raw_score) :: rest =>
      if gt raw_score 0 then
        ratio <- truediv raw_score total_weight ;;
        let contribution_pct := ratio * 100 in
        let weight_config := get_default (weights self) feature Config.empty_weight_config in
        rest' <- feature_contributions self total_weight rest ;;
        Ok ({| Contribution.feature := feature;
               Contribution.impact := contribution_pct;
               Contribution.reason := get_or (Config.weight_description weight_config) "" |}
            :: rest')
      else feature_contributions self total_weight rest
  end.

(** [if recency_score > 0: contributions_detail.append(...)] *)
Definition recency_contribution (self : t) (total_weight recency_score : Q)
  : result (list Contribution.t) :=
  if gt recency_score 0 then
    ratio <- truediv recency_score total_weight ;;
    let recency_pct := ratio * 100 in
    Ok [ {| Contribution.feature := "recency";
            Contribution.impact := recency_pct;
            Contribution.reason :=
              get_or (Config.recency_description (recency_config self)) "" |} ]
  else Ok [].

(** [list.sort(key=lambda x: x['impact'], reverse=True)] is a stable sort:
    the result is in descending order of impact and entries of equal impact
    keep their order.  Insertion from the right computes that list. *)
Fixpoint insert_by_impact (c : Contribution.t) (l : list Contribution.t)
  : list Contribution.t :=
  match l with
  | [] => [c]
  | c' :: l' =>
      if gt (Contribution.impact c') (Contribution.impact c)
      then c' :: insert_by_impact c l'
      else c :: c' :: l'
  end.

Definition sort_by_impact_desc (l : list Contribution.t) : list Contribution.t :=
  fold_right insert_by_impact [] l.

(** [contributions_detail] just before it is sorted. *)
Definition contributions_detail (self : t) (raw_scores : dict Q)
    (total_weight recency_score : Q) : result (list Contribution.t) :=
  from_features <- feature_contributions self total_weight (dict_items raw_scores) ;;
  from_recency <- recency_contribution self total_weight recency_score ;;
  Ok (from_features ++ from_recency).

Definition score (self : t) (now : utc) (lead_data : dict value)
  : result ScoringResult.t :=
  let '(raw_scores, total_raw_score, total_weight) := weigh_features self lead_data in
  recency_score <-
    _calculate_recency_score self now (get_default lead_data "enquiry_date" VNone) ;;
  let total_raw_score := total_raw_score + recency_score in
  let total_weight := total_weight + get_or (Config.max_score (recency_config self)) 10 in
  let normalized_score :=
    if gt total_weight 0
    then Qmin 100 (total_raw_score / total_weight * 100)
    else 0 in
  detail <- contributions_detail self raw_scores total_weight recency_score ;;
  Ok {| ScoringResult.score := normalized_score;
        ScoringResult.contributions := sort_by_impact_desc detail;
        ScoringResult.raw_scores := raw_scores;
        ScoringResult.recency_score := recency_score |}.

(** [get_scoring_engine]: the module keeps the first engine it builds in the
    global [_scoring_engine], given and returned here. *)
Definition get_scoring_engine (fs : Config.files) (_scoring_engine : option t)
  : result t * option t :=
  match _scoring_engine with
  | None =>
      match __init__ fs None with
      | Ok engine => (Ok engine, Some engine)
      | Raise e => (Raise e, None)
      end
  | Some engine => (Ok engine, Some engine)
  end.


End ConfigDrivenScoringEngine.

(** An entry of the [score_colors] section, [{min, max, color, label}], and
    the [{'color', 'label'}] dictionary shown for a score.  A band holds its
    four keys. *)
Module ScoreColor.

Record band : Type := {
  min : Q;
  max : Q;
  color : string;
  label : string
}.

Record t : Type := {
  shown_color : string;
  shown_label : string
}.

Definition unknown : t := {| shown_color := "#6b7280"; shown_label := "Unknown" |}.

End ScoreColor.

(** The dictionary [explain_score] returns.  Its ['color'] and ['summary']
    entries are display text that no stored field is computed from; they are
    left out. *)
Module Explanation.

Record t : Type := {
  score : Q;
  intent_level : string;
  feature_contributions : list Contribution.t;
  confidence : Q
}.

End Explanation.

(** ** [app/engines/explanation_engine.py], class [ExplanationEngine] *)

Module ExplanationEngine.

Record t : Type := {
  config : Config.t;
  intent_thresholds : Config.thresholds
}.

Definition __init__ (fs : Config.files) (config_path : option string) : result t :=
  let config_path :=
    match config_path with
    | None => Config.config_path Config.settings
    | Some p => p
    end in
  match fs config_path with
  | Config.Missing => Raise FileNotFoundError
  | Config.Malformed => Raise YAMLError
  | Config.Parsed (Config.Mapping c) =>
      Ok {| config := c;
            intent_thresholds :=
              get_or (Config.intent_thresholds c) Config.empty_thresholds |}
  | Config.Parsed _ => Raise AttributeError
  end.

Definition _determine_intent_level (self : t) (score : Q) : string :=
  let high_threshold := get_or (Config.high (intent_thresholds self)) 80 in
  let medium_threshold := get_or (Config.medium (intent_thresholds self)) 60 in
  if ge score high_threshold then "High"
  else if ge score medium_threshold then "Medium"
  else "Low".

(** [sum(...)] over numbers. *)
Definition sum (l : list Q) : Q := fold_left Qplus l 0.

(** [if lead_data:] on an optional dictionary. *)
Definition given (lead_data : option (dict value)) : bool :=
  match lead_data with
  | Some (_ :: _) => true
  | _ => false
  end.

(** [sum(1 for v in lead_data.values() if v)] *)
Definition filled_fields (d : dict value) : nat :=
  List.length (filter truthy (dict_values d)).

Definition of_nat (n : nat) : Q := inject_Z (Z.of_nat n).

Definition _calculate_confidence (self : t) (now : utc) (score : Q)
    (contributions : list Contribution.t) (lead_data : option (dict value))
  : result Q :=
  let confidence_factors := get_or (Config.confidence_factors (config self)) [] in
  let total_weight :=
    sum (map (fun f => get_or (Config.factor_weight f) 0) confidence_factors) in
  let data_completeness :=
    match lead_data with
    | Some d =>
        if given lead_data then
          let filled_fields := filled_fields d in
          let total_fields := len d in
          if (0 <? total_fields)%nat
          then of_nat filled_fields / of_nat total_fields
          else 6 # 10
        else 6 # 10
    | None => 6 # 10
    end in
  signal_recency <-
    match lead_data with
    | Some d =>
        if given lead_data then
          match dict_get d "enquiry_date" with
          | Some v =>
              if truthy v then
                match v with
                | VDatetime enquiry_date =>
                    days <- days_since_utc now enquiry_date ;;
                    let days_since := inject_Z days in
                    Ok (Qmax 0 (1 - days_since / 30))
                | _ => Raise TypeError
                end
              else Ok (8 # 10)
          | None => Ok (8 # 10)
          end
        else Ok (8 # 10)
    | None => Ok (8 # 10)
    end ;;
  let signal_diversity := Qmin 1 (of_nat (List.length contributions) / 5) in
  let confidence :=
    data_completeness * (3 # 10) + signal_recency * (4 # 10) + signal_diversity * (3 # 10) in
  Ok (Qmax 0 (Qmin 100 (confidence * 100))).

Definition explain_score (self : t) (now : utc) (score : Q)
    (contributions : list Contribution.t) (lead_data : option (dict value))
  : result Explanation.t :=
  let intent_level := _determine_intent_level self score in
  confidence <- _calculate_confidence self now score contributions lead_data ;;
  let formatted_contributions :=
    map (fun c => {| Contribution.feature := Contribution.feature c;
                     Contribution.impact := round1 (Contribution.impact c);
                     Contribution.reason := Contribution.reason c |})
        (firstn 5 contributions) in
  Ok {| Explanation.score := round1 score;
        Explanation.intent_level := intent_level;
        Explanation.feature_contributions := formatted_contributions;
        Explanation.confidence := round1 confidence |}.

(** [_get_score_color], with [self.score_colors] as an argument: the first
    band, in the order of the section, whose range holds the score. *)
Fixpoint _get_score_color (score_colors : dict ScoreColor.band) (score : Q)
  : ScoreColor.t :=
  match score_colors with
  | [] => ScoreColor.unknown
  | (intent_type, config) :: rest =>
      if Py.ge score (ScoreColor.min config) && Py.ge (ScoreColor.max config) score
      then {| ScoreColor.shown_color := ScoreColor.color config;
              ScoreColor.shown_label := ScoreColor.label config |}
      else _get_score_color rest score
  end.

(** [get_explanation_engine]: a new engine at every call. *)
Definition get_explanation_engine (fs : Config.files) : result t := __init__ fs None.


End ExplanationEngine.

(** The dictionary [get_action] returns, without its ['rationale'] text. *)
Module Recommendation.

Record t : Type := {
  action : string;
  urgency : string;
  probability_label : string;
  probability : Q;
  score_bracket : string
}.

End Recommendation.

(** ** [app/engines/next_action_engine.py], class [NextActionEngine] *)

Module NextActionEngine.

Record t : Type := {
  config : Config.t;
  actions : dict Config.action_config;
  probabilities : dict Config.probability_config
}.

Definition __init__ (fs : Config.files) (config_path : option string) : result t :=
  let config_path :=
    match config_path with
    | None => Config.config_path Config.settings
    | Some p => p
    end in
  match fs config_path with
  | Config.Missing => Raise FileNotFoundError
  | Config.Malformed => Raise YAMLError
  | Config.Parsed (Config.Mapping c) =>
      Ok {| config := c;
            actions := get_or (Config.recommended_actions c) [];
            probabilities := get_or (Config.conversion_probabilities c) [] |}
  | Config.Parsed _ => Raise AttributeError
  end.

Definition _get_action_key (score : Q) : string :=
  if ge score 80 then "score_80_100"
  else if ge score 60 then "score_60_79"
  else if ge score 40 then "score_40_59"
  else "score_below_40".

Definition get_action (self : t) (score : Q) : Recommendation.t :=
  let action_key := _get_action_key score in
  let action_config := get_default (actions self) action_key Config.empty_action_config in
  let prob_config :=
    get_default (probabilities self) action_key Config.empty_probability_config in
  {| Recommendation.action := get_or (Config.action action_config) "No action";
     Recommendation.urgency := get_or (Config.urgency action_config) "Low";
     Recommendation.probability_label :=
       get_or (Config.probability_label action_config) "<20%";
     Recommendation.probability := get_or (Config.probability prob_config) 0;
     Recommendation.score_bracket := action_key |}.

(** [get_bulk_actions]: [result[lead_id] = self.get_action(score)] for every
    item of [leads_scores], in order. *)
Definition get_bulk_actions (self : t) (leads_scores : dict Q) : dict Recommendation.t :=
  fold_left (fun result '(lead_id, score) => dict_set result lead_id (get_action self score))
            (dict_items leads_scores) [].

(** [get_action_engine]: a new engine at every call. *)
Definition get_action_engine (fs : Config.files) : result t := __init__ fs None.


End NextActionEngine.

(** ** [app/models/lead.py], class [Lead]

    An input column holds the Python value assigned to it. *)

Module Lead.

Record t : Type := {
  id : Z;
  email : value;
  name : value;
  company : value;
  demo_requested : value;
  registration : value;
  enquiry_call_whatsapp : value;
  enquiry_date : value;
  pricing_compared : value;
  lead_through_events : value;
  lead_through_call : value;
  lead_through_referral : value;
  score : Q;
  intent_level : string;
  confidence : Q;
  recommended_action : string;
  feature_contributions : string;
  created_at : utc;
  updated_at : utc
}.

(** [setattr(lead, key, value)] for the keys of a dumped [LeadInput]. *)
Definition setattr (lead : t) (key : string) (v : value) : t :=
  let put (column : string) (old : value) : value :=
    if (key =? column)%string then v else old in
  {| id := id lead;
     email := put "email" (email lead);
     name := put "name" (name lead);
     company := put "company" (company lead);
     demo_requested := put "demo_requested" (demo_requested lead);
     registration := put "registration" (registration lead);
     enquiry_call_whatsapp := put "enquiry_call_whatsapp" (enquiry_call_whatsapp lead);
     enquiry_date := put "enquiry_date" (enquiry_date lead);
     pricing_compared := put "pricing_compared" (pricing_compared lead);
     lead_through_events := put "lead_through_events" (lead_through_events lead);
     lead_through_call := put "lead_through_call" (lead_through_call lead);
     lead_through_referral := put "lead_through_referral" (lead_through_referral lead);
     score := score lead;
     intent_level := intent_level lead;
     confidence := confidence lead;
     recommended_action := recommended_action lead;
     feature_contributions := feature_contributions lead;
     created_at := created_at lead;
     updated_at := updated_at lead |}.

(** The five assignments of the scoring columns and of [updated_at]. *)
Definition set_scoring (lead : t) (score' : Q) (intent_level' : string)
    (confidence' : Q) (recommended_action' feature_contributions' : string)
    (updated_at' : utc) : t :=
  {| id := id lead;
     email := email lead;
     name := name lead;
     company := company lead;
     demo_requested := demo_requested lead;
     registration := registration lead;
     enquiry_call_whatsapp := enquiry_call_whatsapp lead;
     enquiry_date := enquiry_date lead;
     pricing_compared := pricing_compared lead;
     lead_through_events := lead_through_events lead;
     lead_through_call := lead_through_call lead;
     lead_through_referral := lead_through_referral lead;
     score := score';
     intent_level := intent_level';
     confidence := confidence';
     recommended_action := recommended_action';
     feature_contributions := feature_contributions';
     created_at := created_at lead;
     updated_at := updated_at' |}.

(** [Lead.email == e] *)
Definition has_email (e : string) (lead : t) : bool :=
  match email lead with
  | VStr s => (s =? e)%string
  | _ => false
  end.

End Lead.

(** The [leads] table behind the session: its rows and the next primary key. *)
Module Session.

Record t : Type := {
  rows : list Lead.t;
  next_id : Z
}.

Definition empty : t := {| rows := []; next_id := 1 |}.

(** [db.query(Lead).filter(Lead.email == e).first()] *)
Definition first_by_email (db : t) (e : string) : option Lead.t :=
  find (Lead.has_email e) (rows db).

(** Flushing the modified object: the row that [first_by_email] returned is
    rewritten where it stands. *)
Fixpoint rewrite_first (e : string) (lead : Lead.t) (l : list Lead.t) : list Lead.t :=
  match l with
  | [] => []
  | r :: l' => if Lead.has_email e r then lead :: l' else r :: rewrite_first e lead l'
  end.

Definition update (db : t) (e : string) (lead : Lead.t) : t :=
  {| rows := rewrite_first e lead (rows db); next_id := next_id db |}.

(** [db.add(lead)] and the flush: the row is appended. *)
Definition add (db : t) (lead : Lead.t) : t :=
  {| rows := rows db ++ [lead]; next_id := (next_id db + 1)%Z |}.

End Session.

(** ** Response schemas ([app/models/schemas.py])

    A constructor returns [None] where pydantic raises [ValidationError]. *)

Module Schemas.

(** [Field(..., ge=0, le=100)] *)
Definition percent (x : Q) : bool := Py.ge x 0 && Py.ge 100 x.

(** [FeatureContribution(feature=..., impact=..., reason=...)] *)
Definition FeatureContribution (feature : string) (impact : Q) (reason : string)
  : option Contribution.t :=
  if percent impact
  then Some {| Contribution.feature := feature;
               Contribution.impact := impact;
               Contribution.reason := reason |}
  else None.

Record ScoreExplanation : Type := {
  score : Q;
  intent_level : string;
  feature_contributions : list Contribution.t;
  confidence : Q;
  recommended_action : string
}.

(** [ScoreExplanation(score=..., ...)] *)
Definition new_ScoreExplanation (score : Q) (intent_level : string)
    (feature_contributions : list Contribution.t) (confidence : Q)
    (recommended_action : string) : option ScoreExplanation :=
  if percent score && percent confidence
  then Some {| score := score;
               intent_level := intent_level;
               feature_contributions := feature_contributions;
               confidence := confidence;
               recommended_action := recommended_action |}
  else None.

End Schemas.

(** What a call of [score_lead] ends in: the response dictionary (the columns
    of the refreshed row, the explanation and the action), an exception of an
    engine, or the [ValidationError] of a response schema. *)
Module Response.

Record t : Type := {
  lead : Lead.t;
  explanation : Schemas.ScoreExplanation;
  action : Recommendation.t
}.

Inductive outcome : Type :=
| Responded (r : t)
| Failed (e : exn)
| Invalid.

End Response.

(** The dictionaries of [get_lead], [list_leads] and [get_analytics]. *)
Module LeadDetail.

Record t : Type := {
  id : Z;
  email : value;
  name : value;
  company : value;
  score : Q;
  intent_level : string;
  confidence : Q;
  recommended_action : string;
  created_at : utc;
  updated_at : utc;
  feature_contributions : list Contribution.t
}.

End LeadDetail.

Module LeadListItem.

Record t : Type := {
  id : Z;
  email : value;
  name : value;
  company : value;
  score : Q;
  intent_level : string;
  confidence : Q;
  recommended_action : string;
  created_at : utc
}.

End LeadListItem.

Module Analytics.

Record t : Type := {
  total_leads : nat;
  average_score : Q;
  high_intent_count : nat;
  high_intent_percentage : Q;
  medium_intent_count : nat;
  medium_intent_percentage : Q;
  low_intent_count : nat;
  low_intent_percentage : Q;
  average_confidence : Q;
  conversion_forecast : Q;
  source_breakdown : dict nat
}.

End Analytics.

(** The readings of [datetime.utcnow()] during one call of [score_lead]:
    in the scoring engine, in the explanation engine, and when the row is
    written. *)
Module Clock.

Record t : Type := {
  scoring : utc;
  explaining : utc;
  writing : utc
}.

End Clock.

(** ** [app/services/lead_service.py], class [LeadService] *)

Module LeadService.

Record t : Type := {
  scoring_engine : ConfigDrivenScoringEngine.t;
  explanation_engine : ExplanationEngine.t;
  action_engine : NextActionEngine.t
}.

Section Pipeline.

(** [json.dumps] on a contribution list. *)
Variable json_dumps : list Contribution.t -> string.

(** [score_lead] up to [db.refresh(lead_model)]: the outcome and the
    session after it.  An exception of an engine leaves the session as it
    was.  The response built afterwards is read from the refreshed row,
    the explanation and the action. *)
Definition score_lead (self : t) (clock : Clock.t) (db : Session.t)
    (lead_data : LeadInput.t) : result Lead.t * Session.t :=
  let lead_dict := LeadInput.model_dump lead_data in
  match ConfigDrivenScoringEngine.score
          (scoring_engine self) (Clock.scoring clock) lead_dict with
  | Raise e => (Raise e, db)
  | Ok scoring_result =>
      let score := ScoringResult.score scoring_result in
      let contributions := ScoringResult.contributions scoring_result in
      match ExplanationEngine.explain_score
              (explanation_engine self) (Clock.explaining clock)
              score contributions (Some lead_dict) with
      | Raise e => (Raise e, db)
      | Ok explanation =>
          let action := NextActionEngine.get_action (action_engine self) score in
          match Session.first_by_email db (LeadInput.email lead_data) with
          | Some existing_lead =>
              let existing_lead :=
                fold_left (fun lead '(key, v) => Lead.setattr lead key v)
                          (dict_items lead_dict) existing_lead in
              let lead_model :=
                Lead.set_scoring existing_lead
                  score
                  (Explanation.intent_level explanation)
                  (Explanation.confidence explanation)
                  (Recommendation.action action)
                  (json_dumps contributions)
                  (Clock.writing clock) in
              (Ok lead_model,
               Session.update db (LeadInput.email lead_data) lead_model)
          | None =>
              let lead_model :=
                {| Lead.id := Session.next_id db;
                   Lead.email := VStr (LeadInput.email lead_data);
                   Lead.name := VStr (LeadInput.name lead_data);
                   Lead.company :=
                     LeadInput.optional VStr (LeadInput.company lead_data);
                   Lead.demo_requested := VBool (LeadInput.demo_requested lead_data);
                   Lead.registration := VBool (LeadInput.registration lead_data);
                   Lead.enquiry_call_whatsapp :=
                     VBool (LeadInput.enquiry_call_whatsapp lead_data);
                   Lead.enquiry_date :=
                     LeadInput.optional VDatetime (LeadInput.enquiry_date lead_data);
                   Lead.pricing_compared := VBool (LeadInput.pricing_compared lead_data);
                   Lead.lead_through_events :=
                     VBool (LeadInput.lead_through_events lead_data);
                   Lead.lead_through_call :=
                     VBool (LeadInput.lead_through_call lead_data);
                   Lead.lead_through_referral :=
                     VBool (LeadInput.lead_through_referral lead_data);
                   Lead.score := score;
                   Lead.intent_level := Explanation.intent_level explanation;
                   Lead.confidence := Explanation.confidence explanation;
                   Lead.recommended_action := Recommendation.action action;
                   Lead.feature_contributions := json_dumps contributions;
                   Lead.created_at := Clock.writing clock;
                   Lead.updated_at := Clock.writing clock |} in
              (Ok lead_model, Session.add db lead_model)
          end
      end
  end.

End Pipeline.

(** [LeadService.__init__]: the scoring engine is the module's singleton, the
    other two engines are built anew. *)
Definition __init__ (fs : Config.files)
    (_scoring_engine : option ConfigDrivenScoringEngine.t)
  : result t * option ConfigDrivenScoringEngine.t :=
  match ConfigDrivenScoringEngine.get_scoring_engine fs _scoring_engine with
  | (Raise e, _scoring_engine) => (Raise e, _scoring_engine)
  | (Ok scoring, _scoring_engine) =>
      match ExplanationEngine.get_explanation_engine fs with
      | Raise e => (Raise e, _scoring_engine)
      | Ok explanation =>
          match NextActionEngine.get_action_engine fs with
          | Raise e => (Raise e, _scoring_engine)
          | Ok action =>
              (Ok {| scoring_engine := scoring;
                     explanation_engine := explanation;
                     action_engine := action |},
               _scoring_engine)
          end
      end
  end.

Section Responses.

Variable json_dumps : list Contribution.t -> string.

(** [[FeatureContribution(...) for c in explanation['feature_contributions']]] *)
Fixpoint validated (l : list Contribution.t) : option (list Contribution.t) :=
  match l with
  | [] => Some []
  | c :: l' =>
      match Schemas.FeatureContribution
              (Contribution.feature c) (Contribution.impact c) (Contribution.reason c) with
      | Some c' =>
          match validated l' with
          | Some l'' => Some (c' :: l'')
          | None => None
          end
      | None => None
      end
  end.

(** The [response] dictionary of [score_lead]. *)
Definition build_response (lead_model : Lead.t) (explanation : Explanation.t)
    (action : Recommendation.t) : option Response.t :=
  match validated (Explanation.feature_contributions explanation) with
  | Some feature_contributions =>
      match Schemas.new_ScoreExplanation
              (Explanation.score explanation)
              (Explanation.intent_level explanation)
              feature_contributions
              (Explanation.confidence explanation)
              (Recommendation.action action) with
      | Some score_explanation =>
          Some {| Response.lead := lead_model;
                  Response.explanation := score_explanation;
                  Response.action := action |}
      | None => None
      end
  | None => None
  end.

(** The whole of [score_lead]: [score_lead] above is the function up to
    [db.refresh(lead_model)]; the response is then built from the refreshed
    row, the explanation and the action. *)
Definition score_lead_response (self : t) (clock : Clock.t) (db : Session.t)
    (lead_data : LeadInput.t) : Response.outcome * Session.t :=
  let lead_dict := LeadInput.model_dump lead_data in
  match ConfigDrivenScoringEngine.score
          (scoring_engine self) (Clock.scoring clock) lead_dict with
  | Raise e => (Response.Failed e, db)
  | Ok scoring_result =>
      let score := ScoringResult.score scoring_result in
      let contributions := ScoringResult.contributions scoring_result in
      match ExplanationEngine.explain_score
              (explanation_engine self) (Clock.explaining clock)
              score contributions (Some lead_dict) with
      | Raise e => (Response.Failed e, db)
      | Ok explanation =>
          let action := NextActionEngine.get_action (action_engine self) score in
          match score_lead json_dumps self clock db lead_data with
          | (Raise e, db') => (Response.Failed e, db')
          | (Ok lead_model, db') =>
              match build_response lead_model explanation action with
              | Some response => (Response.Responded response, db')
              | None => (Response.Invalid, db')
              end
          end
      end
  end.

End Responses.

Section Reads.

(** [json.loads], on the texts [json.dumps] writes. *)
Variable json_loads : string -> list Contribution.t.

(** [query.order_by(desc(column))]: the rows in descending order of the
    column; the order among equal values is the database's. *)
Variable order_by_desc : (Lead.t -> Q) -> list Lead.t -> list Lead.t.

Definition get_lead (db : Session.t) (lead_id : Z) : option LeadDetail.t :=
  match find (fun lead => (Lead.id lead =? lead_id)%Z) (Session.rows db) with
  | None => None
  | Some lead =>
      let contributions :=
        if (Lead.feature_contributions lead =? "")%string
        then []
        else json_loads (Lead.feature_contributions lead) in
      Some {| LeadDetail.id := Lead.id lead;
              LeadDetail.email := Lead.email lead;
              LeadDetail.name := Lead.name lead;
              LeadDetail.company := Lead.company lead;
              LeadDetail.score := Lead.score lead;
              LeadDetail.intent_level := Lead.intent_level lead;
              LeadDetail.confidence := Lead.confidence lead;
              LeadDetail.recommended_action := Lead.recommended_action lead;
              LeadDetail.created_at := Lead.created_at lead;
              LeadDetail.updated_at := Lead.updated_at lead;
              LeadDetail.feature_contributions := contributions |}
  end.

Definition list_item (lead : Lead.t) : LeadListItem.t :=
  {| LeadListItem.id := Lead.id lead;
     LeadListItem.email := Lead.email lead;
     LeadListItem.name := Lead.name lead;
     LeadListItem.company := Lead.company lead;
     LeadListItem.score := Lead.score lead;
     LeadListItem.intent_level := Lead.intent_level lead;
     LeadListItem.confidence := Lead.confidence lead;
     LeadListItem.recommended_action := Lead.recommended_action lead;
     LeadListItem.created_at := Lead.created_at lead |}.

(** [query.filter(Lead.intent_level == intent_filter)] *)
Definition with_intent (intent : string) (rows : list Lead.t) : list Lead.t :=
  filter (fun lead => (Lead.intent_level lead =? intent)%string) rows.

Definition list_leads (db : Session.t) (skip limit : nat) (sort_by : string)
    (intent_filter : option string) : list LeadListItem.t * nat :=
  let query := Session.rows db in
  let query :=
    match intent_filter with
    | Some intent => if (intent =? "")%string then query else with_intent intent query
    | None => query
    end in
  let total := List.length query in
  let query :=
    if (sort_by =? "score")%string then order_by_desc Lead.score query
    else if (sort_by =? "created_at")%string
         then order_by_desc (fun lead => inject_Z (Lead.created_at lead)) query
         else query in
  let leads := firstn limit (skipn skip query) in
  (map list_item leads, total).

(** [func.count(Lead.id)] under [filter(column == True)] *)
Definition count_true (column : Lead.t -> value) (rows : list Lead.t) : nat :=
  List.length
    (filter (fun lead => match column lead with VBool true => true | _ => false end) rows).

(** [func.avg(column)] over at least one row. *)
Definition avg (column : Lead.t -> Q) (rows : list Lead.t) : Q :=
  fold_right (fun lead total => column lead + total) 0 rows
  / inject_Z (Z.of_nat (List.length rows)).

Definition get_analytics (db : Session.t) : Analytics.t :=
  let rows := Session.rows db in
  let total := List.length rows in
  if (total =? 0)%nat then
    {| Analytics.total_leads := 0;
       Analytics.average_score := 0;
       Analytics.high_intent_count := 0;
       Analytics.high_intent_percentage := 0;
       Analytics.medium_intent_count := 0;
       Analytics.medium_intent_percentage := 0;
       Analytics.low_intent_count := 0;
       Analytics.low_intent_percentage := 0;
       Analytics.average_confidence := 0;
       Analytics.conversion_forecast := 0;
       Analytics.source_breakdown := [] |}
  else
    let of_nat (n : nat) : Q := inject_Z (Z.of_nat n) in
    let avg_score := avg Lead.score rows in
    let avg_confidence := avg Lead.confidence rows in
    let high_intent := List.length (with_intent "High" rows) in
    let medium_intent := List.length (with_intent "Medium" rows) in
    let low_intent := List.length (with_intent "Low" rows) in
    let demo_source := count_true Lead.demo_requested rows in
    let registration_source := count_true Lead.registration rows in
    let referral_source := count_true Lead.lead_through_referral rows in
    let high_prob := (75 # 100) * of_nat high_intent in
    let medium_prob := (55 # 100) * of_nat medium_intent in
    let low_prob := (30 # 100) * of_nat low_intent in
    let conversion_forecast := (high_prob + medium_prob + low_prob) / of_nat total in
    {| Analytics.total_leads := total;
       Analytics.average_score := round2 avg_score;
       Analytics.high_intent_count := high_intent;
       Analytics.high_intent_percentage := round1 (of_nat high_intent / of_nat total * 100);
       Analytics.medium_intent_count := medium_intent;
       Analytics.medium_intent_percentage :=
         round1 (of_nat medium_intent / of_nat total * 100);
       Analytics.low_intent_count := low_intent;
       Analytics.low_intent_percentage := round1 (of_nat low_intent / of_nat total * 100);
       Analytics.average_confidence := round2 avg_confidence;
       Analytics.conversion_forecast := round2 conversion_forecast;
       Analytics.source_breakdown :=
         [ ("demo_requested", demo_source);
           ("registration", registration_source);
           ("referral", referral_source) ] |}.

End Reads.

End LeadService.

(** ** Quantities the properties are stated with *)

Module Spec.

Import ConfigDrivenScoringEngine.

(** The weight a configured feature carries ([weight_config.get('weight', 0)]). *)
Definition weight_of (weight_config : Config.weight_config) : Q :=
  get_or (Config.weight weight_config) 0.

(** The recency budget ([recency_config.get('max_score', 10)]) and the decay
    horizon ([recency_config.get('days_decay', 15)]). *)
Definition max_score (self : t) : Q :=
  get_or (Config.max_score (recency_config self)) 10.

Definition days_decay (self : t) : Q :=
  get_or (Config.days_decay (recency_config self)) 15.

(** The sum of all configured weights. *)
Fixpoint sum_of_weights (ws : dict Config.weight_config) : Q :=
  match ws with
  | [] => 0
  | (_, wc) :: ws' => weight_of wc + sum_of_weights ws'
  end.

(** Whether the lead dictionary holds a true value for a feature. *)
Definition present (lead_data : dict value) (feature : string) : bool :=
  truthy (get_default lead_data feature (VBool false)).

(** The sum of the weights of the features the lead has. *)
Fixpoint matched_weights (lead_data : dict value) (ws : dict Config.weight_config) : Q :=
  match ws with
  | [] => 0
  | (feature, wc) :: ws' =>
      (if present lead_data feature then weight_of wc else 0)
      + matched_weights lead_data ws'
  end.

(** The normalization denominator: all weights and the recency budget. *)
Definition denominator (self : t) : Q :=
  sum_of_weights (weights self) + max_score self.

(** The local [total_weight] of [score] as the normalization reads it. *)
Definition total_weight (self : t) (lead_data : dict value) : Q :=
  let '(_, _, total_weight) := weigh_features self lead_data in
  total_weight + get_or (Config.max_score (recency_config self)) 10.

(** The accumulators of the first loop of [score] when it ends. *)
Definition loop_raw_scores (self : t) (lead_data : dict value) : dict Q :=
  let '(raw_scores, _, _) := weigh_features self lead_data in raw_scores.

Definition loop_raw_score (self : t) (lead_data : dict value) : Q :=
  let '(_, total_raw_score, _) := weigh_features self lead_data in total_raw_score.

(** What a configured feature adds to the raw score of a lead. *)
Definition points (lead_data : dict value) (item : string * Config.weight_config) : Q :=
  if present lead_data (fst item) then weight_of (snd item) else 0.

(** The normalized score for a raw total and a denominator. *)
Definition normalized (total_raw_score total_weight : Q) : Q :=
  if gt total_weight 0
  then Qmin 100 (total_raw_score / total_weight * 100)
  else 0.

Definition nonneg_weights (self : t) : Prop :=
  Forall (fun item => 0 <= weight_of (snd item)) (weights self).

Definition nonneg_max_score (self : t) : Prop := 0 <= max_score self.



(** The sum of the impact values of a contribution list. *)
Fixpoint total_impact (l : list Contribution.t) : Q :=
  match l with
  | [] => 0
  | c :: l' => Contribution.impact c + total_impact l'
  end.

(** Descending order of impact. *)
Definition impact_ge (a b : Contribution.t) : Prop :=
  Contribution.impact b <= Contribution.impact a.

(** The entries of a list whose impact is [v], in the order of the list. *)
Definition with_impact (v : Q) (l : list Contribution.t) : list Contribution.t :=
  filter (fun c => Qeq_bool (Contribution.impact c) v) l.

(** The order High > Medium > Low of the intent tiers. *)
Definition tier_rank (intent_level : string) : nat :=
  if (intent_level =? "High")%string then 2
  else if (intent_level =? "Medium")%string then 1
  else 0.

(** The three sub-scores of the confidence, as the specification words them. *)
Definition data_completeness (lead_data : option (dict value)) : Q :=
  match lead_data with
  | Some (item :: d) =>
      ExplanationEngine.of_nat (List.length (filter truthy (dict_values (item :: d))))
      / ExplanationEngine.of_nat (List.length (item :: d))
  | _ => 6 # 10
  end.

(** The enquiry timestamp of a lead dictionary, when it holds a true one. *)
Definition enquiry_timestamp (lead_data : option (dict value)) : option value :=
  match lead_data with
  | Some d =>
      match dict_get d "enquiry_date" with
      | Some v => if truthy v then Some v else None
      | None => None
      end
  | None => None
  end.

Definition signal_recency (now : utc) (lead_data : option (dict value)) : Q :=
  match enquiry_timestamp lead_data with
  | Some (VDatetime (Naive t)) => Qmax 0 (1 - inject_Z (days_between now t) / 30)
  | _ => 8 # 10
  end.

Definition signal_diversity (contributions : list Contribution.t) : Q :=
  Qmin 1 (ExplanationEngine.of_nat (List.length contributions) / 5).

(** An explanation engine whose configuration has another
    [confidence_factors] section and is otherwise the same. *)
Definition with_confidence_factors (factors : option (list Config.factor))
    (self : ExplanationEngine.t) : ExplanationEngine.t :=
  let c := ExplanationEngine.config self in
  {| ExplanationEngine.config :=
       {| Config.weights := Config.weights c;
          Config.recency_section := Config.recency_section c;
          Config.intent_thresholds := Config.intent_thresholds c;
          Config.confidence_factors := factors;
          Config.recommended_actions := Config.recommended_actions c;
          Config.conversion_probabilities := Config.conversion_probabilities c |};
     ExplanationEngine.intent_thresholds := ExplanationEngine.intent_thresholds self |}.

(** The feature columns and the scoring columns of two rows agree. *)
Definition same_stored_fields (a b : Lead.t) : Prop :=
  Lead.email a = Lead.email b
  /\ Lead.name a = Lead.name b
  /\ Lead.company a = Lead.company b
  /\ Lead.demo_requested a = Lead.demo_requested b
  /\ Lead.registration a = Lead.registration b
  /\ Lead.enquiry_call_whatsapp a = Lead.enquiry_call_whatsapp b
  /\ Lead.enquiry_date a = Lead.enquiry_date b
  /\ Lead.pricing_compared a = Lead.pricing_compared b
  /\ Lead.lead_through_events a = Lead.lead_through_events b
  /\ Lead.lead_through_call a = Lead.lead_through_call b
  /\ Lead.lead_through_referral a = Lead.lead_through_referral b
  /\ Lead.score a = Lead.score b
  /\ Lead.intent_level a = Lead.intent_level b
  /\ Lead.confidence a = Lead.confidence b
  /\ Lead.recommended_action a = Lead.recommended_action b
  /\ Lead.feature_contributions a = Lead.feature_contributions b.

(** The entries the first loop of [score] writes for the items [ws] when
    their keys are distinct. *)
Definition scored (lead_data : dict value) (ws : dict Config.weight_config) : dict Q :=
  map (fun item => (fst item, points lead_data item)) ws.

(** Whether the range of a colour band holds a score. *)
Definition in_band (score : Q) (band : ScoreColor.band) : Prop :=
  ScoreColor.min band <= score <= ScoreColor.max band.

(** A rounded value is within a twentieth of the value it shows. *)
Definition shows (exact shown : Q) : Prop :=
  exact - (1 # 20) <= shown <= exact + (1 # 20).

(** The table holds at most one row per email. *)
Definition unique_emails (db : Session.t) : Prop :=
  NoDup (map Lead.email (Session.rows db)).

(** Primary keys are distinct and below the next key to be given. *)
Definition fresh_ids (db : Session.t) : Prop :=
  NoDup (map Lead.id (Session.rows db))
  /\ Forall (fun lead => (Lead.id lead < Session.next_id db)%Z) (Session.rows db).

(** The rows of the other emails, in table order. *)
Definition others (e : string) (rows : list Lead.t) : list Lead.t :=
  filter (fun lead => negb (Lead.has_email e lead)) rows.

(** Descending order of a numeric column. *)
Definition descending {A : Type} (column : A -> Q) (a b : A) : Prop :=
  column b <= column a.

(** The rows a listing counts: all of them, or those of the intent asked for. *)
Definition matching (intent_filter : option string) (rows : list Lead.t) : list Lead.t :=
  match intent_filter with
  | Some intent =>
      if (intent =? "")%string then rows
      else filter (fun lead => (Lead.intent_level lead =? intent)%string) rows
  | None => rows
  end.

(** The three tiers the explanation engine gives. *)
Definition tiered (lead : Lead.t) : Prop :=
  Lead.intent_level lead = "High"
  \/ Lead.intent_level lead = "Medium"
  \/ Lead.intent_level lead = "Low".

End Spec.

(** ** Sample data: the worked example of the specification *)

Module Sample.

Definition feature (w : Q) (text : string) : Config.weight_config :=
  {| Config.weight := Some w; Config.weight_description := Some text |}.

Definition config : Config.t :=
  {| Config.weights :=
       Some [ ("demo_requested", feature 30 "Requested a demo");
              ("registration", feature 20 "Completed registration");
              ("pricing_compared", feature 15 "Compared pricing") ];
     Config.recency_section :=
       Some {| Config.days_decay := Some 15;
               Config.max_score := Some 10;
               Config.recency_description := Some "Recent enquiry" |};
     Config.intent_thresholds := Some {| Config.high := Some 80; Config.medium := Some 60 |};
     Config.confidence_factors := None;
     Config.recommended_actions :=
       Some [ ("score_80_100",
               {| Config.action := Some "Immediate sales call";
                  Config.urgency := Some "Immediate";
                  Config.probability_label := Some ">70%" |});
              ("score_60_79",
               {| Config.action := Some "Pricing + Follow-up";
                  Config.urgency := Some "High";
                  Config.probability_label := Some "50-70%" |}) ];
     Config.conversion_probabilities := None |}.

Definition files : Config.files := fun _ => Config.Parsed (Config.Mapping config).

Definition engine : ConfigDrivenScoringEngine.t :=
  {| ConfigDrivenScoringEngine.config := config;
     ConfigDrivenScoringEngine.weights := get_or (Config.weights config) [];
     ConfigDrivenScoringEngine.recency_config :=
       get_or (Config.recency_section config) Config.empty_recency |}.

Definition explainer : ExplanationEngine.t :=
  {| ExplanationEngine.config := config;
     ExplanationEngine.intent_thresholds :=
       get_or (Config.intent_thresholds config) Config.empty_thresholds |}.

Definition recommender : NextActionEngine.t :=
  {| NextActionEngine.config := config;
     NextActionEngine.actions := get_or (Config.recommended_actions config) [];
     NextActionEngine.probabilities := get_or (Config.conversion_probabilities config) [] |}.

Definition service : LeadService.t :=
  {| LeadService.scoring_engine := engine;
     LeadService.explanation_engine := explainer;
     LeadService.action_engine := recommender |}.

Definition day : Z := microseconds_per_day.

(** The instant of the calls: day 100. *)
Definition now : utc := (100 * day)%Z.

Definition clock : Clock.t :=
  {| Clock.scoring := now; Clock.explaining := now; Clock.writing := now |}.

Definition lead (enquiry_date : option datetime) : LeadInput.t :=
  {| LeadInput.email := "ada@example.com";
     LeadInput.name := "Ada";
     LeadInput.company := None;
     LeadInput.demo_requested := true;
     LeadInput.registration := false;
     LeadInput.enquiry_call_whatsapp := false;
     LeadInput.enquiry_date := enquiry_date;
     LeadInput.pricing_compared := true;
     LeadInput.lead_through_events := false;
     LeadInput.lead_through_call := false;
     LeadInput.lead_through_referral := false |}.

(** Enquiry five days ago, no enquiry, enquiry one day ahead of the clock. *)
Definition five_days_ago : LeadInput.t := lead (Some (Naive (95 * day))).
Definition no_enquiry : LeadInput.t := lead None.
Definition tomorrow : LeadInput.t := lead (Some (Naive (101 * day))).

(** Every feature of the sample configuration set, enquiry one day ahead. *)
Definition eager : LeadInput.t :=
  {| LeadInput.email := "eve@example.com";
     LeadInput.name := "Eve";
     LeadInput.company := Some "Acme";
     LeadInput.demo_requested := true;
     LeadInput.registration := true;
     LeadInput.enquiry_call_whatsapp := false;
     LeadInput.enquiry_date := Some (Naive (101 * day));
     LeadInput.pricing_compared := true;
     LeadInput.lead_through_events := false;
     LeadInput.lead_through_call := false;
     LeadInput.lead_through_referral := false |}.

(** Two features of equal weight around a heavier one, all set, no enquiry. *)
Definition tied_engine : ConfigDrivenScoringEngine.t :=
  {| ConfigDrivenScoringEngine.config := config;
     ConfigDrivenScoringEngine.weights :=
       [ ("registration", feature 20 "Completed registration");
         ("demo_requested", feature 30 "Requested a demo");
         ("pricing_compared", feature 20 "Compared pricing") ];
     ConfigDrivenScoringEngine.recency_config :=
       get_or (Config.recency_section config) Config.empty_recency |}.

Definition keen : LeadInput.t :=
  {| LeadInput.email := "kim@example.com";
     LeadInput.name := "Kim";
     LeadInput.company := None;
     LeadInput.demo_requested := true;
     LeadInput.registration := true;
     LeadInput.enquiry_call_whatsapp := false;
     LeadInput.enquiry_date := None;
     LeadInput.pricing_compared := true;
     LeadInput.lead_through_events := false;
     LeadInput.lead_through_call := false;
     LeadInput.lead_through_referral := false |}.

(** A document that is an empty mapping. *)
Definition empty_config : Config.t :=
  {| Config.weights := None;
     Config.recency_section := None;
     Config.intent_thresholds := None;
     Config.confidence_factors := None;
     Config.recommended_actions := None;
     Config.conversion_probabilities := None |}.

Definition empty_files : Config.files :=
  fun _ => Config.Parsed (Config.Mapping empty_config).

(** A serializer for the examples: the feature names, separated by commas. *)
Definition feature_names (l : list Contribution.t) : string :=
  String.concat "," (map Contribution.feature l).


(** Six contributions, already in descending order of impact. *)
Definition six : list Contribution.t :=
  map (fun '(feature, impact) =>
         {| Contribution.feature := feature;
            Contribution.impact := impact;
            Contribution.reason := "" |})
      [ ("demo_requested", 2512 # 100); ("registration", 20); ("pricing_compared", 1505 # 100);
        ("lead_through_call", 10); ("lead_through_referral", 8); ("recency", 333 # 100) ].

(** Scores by lead identifier. *)
Definition leads_scores : dict Q :=
  [ ("lead-1", 85); ("lead-2", 6889 # 100); ("lead-3", 12) ].

(** An enquiry 3000 days ahead of the clock. *)
Definition far_ahead : LeadInput.t := lead (Some (Naive (3100 * day))).

(** A decoder for the examples: the feature names back, without impacts. *)
Definition named (text : string) : list Contribution.t := [].

(** A database order for the examples: insertion from the right. *)
Fixpoint insert_desc (column : Lead.t -> Q) (lead : Lead.t) (l : list Lead.t)
  : list Lead.t :=
  match l with
  | [] => [lead]
  | lead' :: l' =>
      if Py.gt (column lead') (column lead)
      then lead' :: insert_desc column lead l'
      else lead :: lead' :: l'
  end.

Definition sort_desc (column : Lead.t -> Q) (l : list Lead.t) : list Lead.t :=
  fold_right (insert_desc column) [] l.

(** The table after [five_days_ago] and [keen] were scored. *)
Definition two_leads : Session.t :=
  snd (LeadService.score_lead feature_names service clock
         (snd (LeadService.score_lead feature_names service clock
                 Session.empty five_days_ago))
         keen).

End Sample.

(** ** Properties *)

Import ConfigDrivenScoringEngine Spec.

(** *** Comparisons and division *)

Section Comparisons.

Lemma gt_true (x y : Q) : gt x y = true <-> y < x.
Proof.
  unfold gt. rewrite negb_true_iff. split; intro H.
  - apply Qnot_le_lt. intro Hle. apply Qle_bool_iff in Hle. congruence.
  - destruct (Qle_bool x y) eqn:E; [|reflexivity].
    apply Qle_bool_iff in E. exfalso. apply (Qlt_not_le _ _ H E).
Qed.

Lemma gt_false (x y : Q) : gt x y = false <-> x <= y.
Proof.
  unfold gt. rewrite negb_false_iff. apply Qle_bool_iff.
Qed.

Lemma ge_true (x y : Q) : ge x y = true <-> y <= x.
Proof. unfold ge. apply Qle_bool_iff. Qed.

Lemma ge_false (x y : Q) : ge x y = false <-> x < y.
Proof.
  unfold ge. split; intro H.
  - apply Qnot_le_lt. intro Hle. apply Qle_bool_iff in Hle. congruence.
  - destruct (Qle_bool y x) eqn:E; [|reflexivity].
    apply Qle_bool_iff in E. exfalso. apply (Qlt_not_le _ _ H E).
Qed.

Lemma truediv_ok (x y : Q) : ~ y == 0 -> truediv x y = Ok (x / y).
Proof.
  intro H. unfold truediv. destruct (Qeq_bool y 0) eqn:E; [|reflexivity].
  apply Qeq_bool_iff in E. contradiction.
Qed.

Lemma truediv_inv (x y q : Q) : truediv x y = Ok q -> ~ y == 0 /\ q = x / y.
Proof.
  unfold truediv. destruct (Qeq_bool y 0) eqn:E; [discriminate|].
  intro H. inversion H. split; [|reflexivity].
  intro Hy. apply Qeq_bool_iff in Hy. congruence.
Qed.

Lemma truediv_raise (x y : Q) (e : exn) :
  truediv x y = Raise e -> y == 0 /\ e = ZeroDivisionError.
Proof.
  unfold truediv. destruct (Qeq_bool y 0) eqn:E; [|discriminate].
  intro H. inversion H. split; [apply Qeq_bool_iff; exact E | reflexivity].
Qed.

End Comparisons.

(** *** The first loop of [score] *)

Section WeighFeatures.

Variable lead_data : dict value.

Lemma weigh_feature_step (rs : dict Q) (raw tw : Q) (item : string * Config.weight_config) :
  exists raw',
    weigh_feature lead_data (rs, raw, tw) item
    = (dict_set rs (fst item) (points lead_data item), raw', tw + weight_of (snd item))
    /\ raw' == raw + points lead_data item.
Proof.
  destruct item as [feature wc]. unfold weigh_feature, points, present. simpl.
  fold (weight_of wc).
  destruct (truthy (get_default lead_data feature (VBool false))).
  - eexists. split; [reflexivity | reflexivity].
  - eexists. split; [reflexivity | ring].
Qed.

Lemma dict_set_values {V : Type} (P : V -> Prop) (d : dict V) (k : string) (v : V) :
  Forall (fun kv => P (snd kv)) d -> P v -> Forall (fun kv => P (snd kv)) (dict_set d k v).
Proof.
  intros Hd Hv. induction d as [|[k' v'] d IH]; simpl.
  - constructor; [exact Hv | constructor].
  - inversion Hd; subst. destruct (k' =? k)%string.
    + constructor; assumption.
    + constructor; [assumption | apply IH; assumption].
Qed.

Lemma weigh_fold (P : Q -> Prop) (ws : dict Config.weight_config) :
  P 0 ->
  Forall (fun item => P (weight_of (snd item))) ws ->
  forall (rs : dict Q) (raw tw : Q),
    Forall (fun kv => P (snd kv)) rs ->
    exists rs' raw' tw',
      fold_left (weigh_feature lead_data) ws (rs, raw, tw) = (rs', raw', tw')
      /\ raw' == raw + matched_weights lead_data ws
      /\ tw' == tw + sum_of_weights ws
      /\ Forall (fun kv => P (snd kv)) rs'.
Proof.
  intros P0 Hws. induction Hws as [|item ws Hitem Hws IH]; intros rs raw tw Hrs.
  - exists rs, raw, tw. simpl. repeat split; try ring. exact Hrs.
  - cbn [fold_left].
    destruct (weigh_feature_step rs raw tw item) as (raw1 & -> & Hraw1).
    destruct (IH (dict_set rs (fst item) (points lead_data item)) raw1 (tw + weight_of (snd item)))
      as (rs' & raw' & tw' & Hfold & Hraw & Htw & Hrs').
    { apply dict_set_values; [exact Hrs|]. unfold points.
      destruct (present lead_data (fst item)); assumption. }
    exists rs', raw', tw'. split; [exact Hfold|].
    destruct item as [feature wc]. simpl in *. unfold points in Hraw1. simpl in Hraw1.
    repeat split.
    + rewrite Hraw, Hraw1. ring.
    + rewrite Htw. ring.
    + exact Hrs'.
Qed.

End WeighFeatures.

Section Score.

Variable self : ConfigDrivenScoringEngine.t.

(** The accumulator after the first loop, for a predicate [P] that holds
    of [0] and of every configured weight. *)
Lemma weigh_features_totals (P : Q -> Prop) (lead_data : dict value) :
  P 0 ->
  Forall (fun item => P (weight_of (snd item))) (weights self) ->
  exists rs raw tw,
    weigh_features self lead_data = (rs, raw, tw)
    /\ raw == matched_weights lead_data (weights self)
    /\ tw == sum_of_weights (weights self)
    /\ Forall (fun kv => P (snd kv)) rs.
Proof.
  intros P0 HP.
  destruct (weigh_fold lead_data P (weights self) P0 HP [] 0 0 (Forall_nil _))
    as (rs & raw & tw & Hfold & Hraw & Htw & Hrs).
  exists rs, raw, tw. unfold weigh_features, dict_items. split; [exact Hfold|].
  repeat split; [rewrite Hraw; ring | rewrite Htw; ring | exact Hrs].
Qed.

Lemma total_weight_denominator (lead_data : dict value) :
  total_weight self lead_data == denominator self.
Proof.
  unfold total_weight, denominator, max_score.
  destruct (weigh_features_totals (fun _ => True) lead_data I) as (rs & raw & tw & -> & _ & Htw & _).
  { apply Forall_forall. intros; exact I. }
  rewrite Htw. reflexivity.
Qed.

End Score.

(** *** The shape of a scoring result *)

Section ScoreShape.

Variable self : ConfigDrivenScoringEngine.t.
Variable now : utc.

Lemma recency_none : _calculate_recency_score self now VNone = Ok 0.
Proof. reflexivity. Qed.

Lemma recency_aware (t : Z) :
  _calculate_recency_score self now (VDatetime (Aware t)) = Raise TypeError.
Proof. reflexivity. Qed.

Lemma recency_datetime (d : Z) :
  _calculate_recency_score self now (VDatetime (Naive d))
  = (ratio <- truediv (days_decay self - inject_Z (days_between now d)) (days_decay self) ;;
     Ok (Qmax 0 (ratio * max_score self))).
Proof. reflexivity. Qed.

Lemma recency_nonneg (v : value) (q : Q) :
  _calculate_recency_score self now v = Ok q -> 0 <= q.
Proof.
  destruct v as [| b | s | [d|d]]; simpl; try discriminate.
  - intro H. inversion H. apply Qle_refl.
  - destruct (truediv _ _); simpl; [|discriminate].
    intro H. inversion H. apply Q.le_max_l.
Qed.

(** [score] in terms of the accumulators of its first loop. *)
Lemma score_shape (lead_data : dict value) :
  score self now lead_data
  = (recency_score <-
       _calculate_recency_score self now (get_default lead_data "enquiry_date" VNone) ;;
     detail <-
       contributions_detail self (loop_raw_scores self lead_data)
         (total_weight self lead_data) recency_score ;;
     Ok {| ScoringResult.score :=
             normalized (loop_raw_score self lead_data + recency_score)
                        (total_weight self lead_data);
           ScoringResult.contributions := sort_by_impact_desc detail;
           ScoringResult.raw_scores := loop_raw_scores self lead_data;
           ScoringResult.recency_score := recency_score |}).
Proof.
  unfold score, loop_raw_scores, loop_raw_score, total_weight, normalized.
  destruct (weigh_features self lead_data) as [[rs raw] tw]. reflexivity.
Qed.

Lemma score_inv (lead_data : dict value) (r : ScoringResult.t) :
  score self now lead_data = Ok r ->
  exists recency_score detail,
    _calculate_recency_score self now (get_default lead_data "enquiry_date" VNone)
    = Ok recency_score
    /\ contributions_detail self (loop_raw_scores self lead_data)
         (total_weight self lead_data) recency_score = Ok detail
    /\ r = {| ScoringResult.score :=
                normalized (loop_raw_score self lead_data + recency_score)
                           (total_weight self lead_data);
              ScoringResult.contributions := sort_by_impact_desc detail;
              ScoringResult.raw_scores := loop_raw_scores self lead_data;
              ScoringResult.recency_score := recency_score |}.
Proof.
  rewrite score_shape.
  destruct (_calculate_recency_score _ _ _) as [rec|]; simpl; [|discriminate].
  destruct (contributions_detail _ _ _ rec) as [detail|] eqn:Hdetail; simpl; [|discriminate].
  intro H. inversion H. exists rec, detail. split; [reflexivity|]. split; [exact Hdetail | reflexivity].
Qed.

Lemma loop_raw_score_matched (lead_data : dict value) :
  loop_raw_score self lead_data == matched_weights lead_data (weights self).
Proof.
  unfold loop_raw_score.
  destruct (weigh_features_totals self (fun _ => True) lead_data I)
    as (rs & raw & tw & -> & Hraw & _ & _).
  { apply Forall_forall. intros; exact I. }
  exact Hraw.
Qed.

Lemma loop_raw_scores_values (P : Q -> Prop) (lead_data : dict value) :
  P 0 ->
  Forall (fun item => P (weight_of (snd item))) (weights self) ->
  Forall (fun kv => P (snd kv)) (loop_raw_scores self lead_data).
Proof.
  intros P0 HP. unfold loop_raw_scores.
  destruct (weigh_features_totals self P lead_data P0 HP) as (rs & raw & tw & -> & _ & _ & Hrs).
  exact Hrs.
Qed.

Lemma normalized_eq (raw raw' tw tw' : Q) :
  raw == raw' -> tw == tw' -> normalized raw tw == normalized raw' tw'.
Proof.
  intros Hraw Htw. unfold normalized, gt.
  rewrite Htw. destruct (Qle_bool tw' 0); simpl; [reflexivity|].
  rewrite Hraw, Htw. reflexivity.
Qed.

Lemma normalized_range (raw tw : Q) : 0 <= raw -> 0 <= normalized raw tw <= 100.
Proof.
  intro Hraw. unfold normalized. destruct (gt tw 0) eqn:E.
  - apply gt_true in E. split.
    + apply Q.min_glb; [lra|].
      apply Qmult_le_0_compat; [|lra].
      apply Qle_shift_div_l; [exact E | lra].
    + apply Q.le_min_l.
  - split; lra.
Qed.

Lemma sum_of_weights_nonneg (ws : dict Config.weight_config) :
  Forall (fun item => 0 <= weight_of (snd item)) ws -> 0 <= sum_of_weights ws.
Proof.
  induction 1 as [|[k wc] ws Hw _ IH]; simpl in *; lra.
Qed.

Lemma matched_weights_nonneg (lead_data : dict value) (ws : dict Config.weight_config) :
  Forall (fun item => 0 <= weight_of (snd item)) ws -> 0 <= matched_weights lead_data ws.
Proof.
  induction 1 as [|[k wc] ws Hw _ IH]; simpl in *; [lra|].
  destruct (present lead_data k); lra.
Qed.


End ScoreShape.

(** *** When [score] returns *)

Section Returns.

Variable self : ConfigDrivenScoringEngine.t.

Lemma enquiry_date_dumped (lead : LeadInput.t) :
  get_default (LeadInput.model_dump lead) "enquiry_date" VNone
  = LeadInput.optional VDatetime (LeadInput.enquiry_date lead).
Proof. reflexivity. Qed.

Lemma feature_contributions_total (tw : Q) (raw_items : list (string * Q)) :
  ~ tw == 0 -> exists l, feature_contributions self tw raw_items = Ok l.
Proof.
  intro Htw. induction raw_items as [|[feature raw] rest [l IH]]; simpl.
  - eexists; reflexivity.
  - destruct (gt raw 0).
    + rewrite (truediv_ok _ _ Htw). simpl. rewrite IH. simpl. eexists; reflexivity.
    + exists l; exact IH.
Qed.

Lemma feature_contributions_skip (tw : Q) (raw_items : list (string * Q)) :
  Forall (fun kv => snd kv <= 0) raw_items ->
  feature_contributions self tw raw_items = Ok [].
Proof.
  induction 1 as [|[feature raw] rest Hraw _ IH]; simpl; [reflexivity|].
  simpl in Hraw. apply gt_false in Hraw. rewrite Hraw. exact IH.
Qed.

Lemma feature_contributions_raise (tw : Q) (raw_items : list (string * Q)) (e : exn) :
  feature_contributions self tw raw_items = Raise e -> tw == 0 /\ e = ZeroDivisionError.
Proof.
  induction raw_items as [|[feature raw] rest IH]; simpl; [discriminate|].
  destruct (gt raw 0); [|exact IH].
  destruct (truediv raw tw) as [q|e'] eqn:Hdiv; simpl.
  - destruct (feature_contributions self tw rest); simpl; [discriminate|].
    intro H. inversion H; subst. apply IH. reflexivity.
  - intro H. inversion H; subst. apply (truediv_raise _ _ _ Hdiv).
Qed.

Lemma recency_contribution_raise (tw rec : Q) (e : exn) :
  recency_contribution self tw rec = Raise e ->
  tw == 0 /\ 0 < rec /\ e = ZeroDivisionError.
Proof.
  unfold recency_contribution. destruct (gt rec 0) eqn:Hgt; [|discriminate].
  apply gt_true in Hgt.
  destruct (truediv rec tw) eqn:Hdiv; simpl; [discriminate|].
  intro H. inversion H; subst.
  destruct (truediv_raise _ _ _ Hdiv). auto.
Qed.

Lemma contributions_detail_raise (rs : dict Q) (tw rec : Q) (e : exn) :
  contributions_detail self rs tw rec = Raise e -> tw == 0 /\ e = ZeroDivisionError.
Proof.
  unfold contributions_detail.
  destruct (feature_contributions self tw (dict_items rs)) eqn:Hf; simpl.
  - destruct (recency_contribution self tw rec) eqn:Hr; simpl; [discriminate|].
    intro H. inversion H; subst.
    destruct (recency_contribution_raise _ _ _ Hr) as (? & _ & ?). auto.
  - intro H. inversion H; subst. apply (feature_contributions_raise _ _ _ Hf).
Qed.

Lemma contributions_detail_total (rs : dict Q) (tw rec : Q) :
  ~ tw == 0 -> exists detail, contributions_detail self rs tw rec = Ok detail.
Proof.
  intro Htw. destruct (contributions_detail self rs tw rec) as [detail|e] eqn:H.
  - exists detail; reflexivity.
  - destruct (contributions_detail_raise _ _ _ _ H) as [Hz _]. contradiction.
Qed.

(** With nothing to report the list is empty, whatever the denominator. *)
Lemma contributions_detail_nothing (rs : dict Q) (tw rec : Q) :
  Forall (fun kv => snd kv <= 0) rs -> rec <= 0 ->
  contributions_detail self rs tw rec = Ok [].
Proof.
  intros Hrs Hrec. unfold contributions_detail, dict_items.
  rewrite (feature_contributions_skip tw _ Hrs). simpl.
  unfold recency_contribution. apply gt_false in Hrec. rewrite Hrec. reflexivity.
Qed.

Lemma zero_sum_zero_weights (ws : dict Config.weight_config) :
  Forall (fun item => 0 <= weight_of (snd item)) ws ->
  sum_of_weights ws <= 0 ->
  Forall (fun item => weight_of (snd item) <= 0) ws.
Proof.
  induction 1 as [|[k wc] ws Hw Hws IH]; simpl; intro Hsum; constructor.
  - simpl in *. pose proof (sum_of_weights_nonneg ws Hws). lra.
  - apply IH. simpl in Hw. lra.
Qed.

(** Under non-negative weights and budget, [score] raises only in the
    recency computation. *)
Lemma nonneg_detail_total (now : utc) (lead_data : dict value) (rec : Q) :
  nonneg_weights self -> nonneg_max_score self ->
  _calculate_recency_score self now (get_default lead_data "enquiry_date" VNone) = Ok rec ->
  exists detail,
    contributions_detail self (loop_raw_scores self lead_data)
      (total_weight self lead_data) rec = Ok detail.
Proof.
  intros Hw Hms Hrec.
  destruct (Qeq_dec (total_weight self lead_data) 0) as [Hz|Hnz];
    [|apply contributions_detail_total; exact Hnz].
  exists []. pose proof (total_weight_denominator self lead_data) as Hden.
  unfold denominator in Hden. unfold nonneg_max_score in Hms.
  pose proof (sum_of_weights_nonneg _ Hw) as Hsum.
  assert (Hms0 : max_score self == 0) by lra.
  assert (Hsum0 : sum_of_weights (weights self) <= 0) by lra.
  apply contributions_detail_nothing.
  - apply (loop_raw_scores_values self (fun q => q <= 0)); [lra|].
    apply zero_sum_zero_weights; assumption.
  - revert Hrec.
    destruct (get_default lead_data "enquiry_date" VNone) as [| b | s | [d|d]];
      simpl; try discriminate.
    + intro H; inversion H; lra.
    + destruct (truediv _ _) as [ratio|]; simpl; [|discriminate].
      intro H; inversion H. fold (max_score self). rewrite Hms0.
      setoid_replace (ratio * 0) with 0 by ring. apply Q.max_lub; lra.
Qed.

End Returns.

(** *** The score is in range *)

(** C1.  For every lead and every configuration with non-negative feature
    weights and a non-negative recency budget, the score that [score] returns
    lies in [0, 100]: it is [min(100, total_raw_score / total_weight * 100)]
    when the denominator is positive and [0] when it is zero.  [score]
    returns for a lead without enquiry date, and for a naive enquiry date
    unless [days_decay] is zero. *)
Theorem score_in_range (self : ConfigDrivenScoringEngine.t) (now : utc)
    (lead : LeadInput.t) :
  nonneg_weights self ->
  nonneg_max_score self ->
  let lead_data := LeadInput.model_dump lead in
  ((exists r, score self now lead_data = Ok r)
   <-> (LeadInput.enquiry_date lead = None
        \/ exists t, LeadInput.enquiry_date lead = Some (Naive t) /\ ~ days_decay self == 0))
  /\ forall r, score self now lead_data = Ok r ->
       0 <= ScoringResult.score r <= 100
       /\ (0 < denominator self ->
           ScoringResult.score r
           == Qmin 100 ((matched_weights lead_data (weights self)
                         + ScoringResult.recency_score r)
                        / denominator self * 100))
       /\ (denominator self == 0 -> ScoringResult.score r == 0).
Proof.
  intros Hw Hms lead_data. split.
  - split.
    + intros [r Hr]. apply score_inv in Hr. destruct Hr as (rec & detail & Hrec & _ & _).
      unfold lead_data in Hrec. rewrite enquiry_date_dumped in Hrec.
      destruct (LeadInput.enquiry_date lead) as [[d|d]|]; [right | | left; reflexivity].
      * cbn [LeadInput.optional] in Hrec. rewrite recency_datetime in Hrec.
        destruct (truediv _ (days_decay self)) eqn:Hdiv; simpl in Hrec; [|discriminate].
        apply truediv_inv in Hdiv. exists d. tauto.
      * cbn [LeadInput.optional] in Hrec. rewrite recency_aware in Hrec. discriminate.
    + intro Hok.
      assert (Hrec : exists rec,
                 _calculate_recency_score self now
                   (get_default lead_data "enquiry_date" VNone) = Ok rec).
      { unfold lead_data. rewrite enquiry_date_dumped.
        destruct Hok as [->|(t & -> & Hdd)]; cbn [LeadInput.optional].
        - eexists; reflexivity.
        - rewrite recency_datetime, (truediv_ok _ _ Hdd). simpl. eexists; reflexivity. }
      destruct Hrec as [rec Hrec].
      destruct (nonneg_detail_total self now lead_data rec Hw Hms Hrec) as [detail Hdetail].
      rewrite score_shape, Hrec. simpl. rewrite Hdetail. simpl. eexists; reflexivity.
  - intros r Hr. apply score_inv in Hr. destruct Hr as (rec & detail & Hrec & _ & ->).
    simpl. pose proof (recency_nonneg _ _ _ _ Hrec) as Hrec0.
    pose proof (loop_raw_score_matched self lead_data) as Hraw.
    pose proof (total_weight_denominator self lead_data) as Hden.
    pose proof (matched_weights_nonneg lead_data _ Hw) as Hm.
    rewrite (normalized_eq _ (matched_weights lead_data (weights self) + rec) _ _
               (Qplus_comp _ _ Hraw _ _ (Qeq_refl rec)) Hden).
    split; [apply normalized_range; lra|].
    unfold normalized. split.
    + intro Hpos. apply gt_true in Hpos. rewrite Hpos. reflexivity.
    + intro Hz. assert (Hle : denominator self <= 0) by lra.
      apply gt_false in Hle. rewrite Hle. reflexivity.
Qed.

Lemma score_in_range_witness :
  let lead_data := LeadInput.model_dump Sample.five_days_ago in
  ((exists r, score Sample.engine Sample.now lead_data = Ok r)
   <-> (LeadInput.enquiry_date Sample.five_days_ago = None
        \/ exists t, LeadInput.enquiry_date Sample.five_days_ago = Some (Naive t)
                     /\ ~ days_decay Sample.engine == 0))
  /\ forall r, score Sample.engine Sample.now lead_data = Ok r ->
       0 <= ScoringResult.score r <= 100
       /\ (0 < denominator Sample.engine ->
           ScoringResult.score r
           == Qmin 100 ((matched_weights lead_data (weights Sample.engine)
                         + ScoringResult.recency_score r)
                        / denominator Sample.engine * 100))
       /\ (denominator Sample.engine == 0 -> ScoringResult.score r == 0).
Proof.
  apply (score_in_range Sample.engine Sample.now Sample.five_days_ago).
  - unfold nonneg_weights. simpl. repeat constructor; discriminate.
  - unfold nonneg_max_score. simpl. discriminate.
Defined.

(** *** The contribution list is sorted, stably *)

Section Sorting.

Lemma insert_by_impact_perm (c : Contribution.t) (l : list Contribution.t) :
  Permutation (c :: l) (insert_by_impact c l).
Proof.
  induction l as [|c' l IH]; simpl; [apply Permutation_refl|].
  destruct (gt (Contribution.impact c') (Contribution.impact c)).
  - apply perm_trans with (c' :: c :: l); [apply perm_swap|].
    apply perm_skip. exact IH.
  - apply Permutation_refl.
Qed.

Lemma sort_by_impact_desc_perm (l : list Contribution.t) :
  Permutation l (sort_by_impact_desc l).
Proof.
  induction l as [|c l IH]; simpl; [apply perm_nil|].
  apply perm_trans with (c :: sort_by_impact_desc l).
  - apply perm_skip. exact IH.
  - apply insert_by_impact_perm.
Qed.

Lemma insert_by_impact_sorted (c : Contribution.t) (l : list Contribution.t) :
  StronglySorted impact_ge l -> StronglySorted impact_ge (insert_by_impact c l).
Proof.
  induction 1 as [|c' l Hl IH Hc']; simpl.
  - constructor; constructor.
  - destruct (gt (Contribution.impact c') (Contribution.impact c)) eqn:E.
    + apply gt_true in E. constructor; [exact IH|].
      apply (Permutation_Forall (insert_by_impact_perm c l)).
      constructor; [unfold impact_ge; lra | exact Hc'].
    + apply gt_false in E. constructor; [constructor; assumption|].
      constructor; [exact E|].
      eapply Forall_impl; [|exact Hc']. unfold impact_ge. intros a Ha. lra.
Qed.

Lemma sort_by_impact_desc_sorted (l : list Contribution.t) :
  StronglySorted impact_ge (sort_by_impact_desc l).
Proof.
  induction l as [|c l IH]; simpl; [constructor|].
  apply insert_by_impact_sorted. exact IH.
Qed.

Lemma insert_by_impact_with_impact (v : Q) (c : Contribution.t) (l : list Contribution.t) :
  with_impact v (insert_by_impact c l) = with_impact v (c :: l).
Proof.
  unfold with_impact. induction l as [|c' l IH]; [reflexivity|].
  cbn [insert_by_impact].
  destruct (gt (Contribution.impact c') (Contribution.impact c)) eqn:E; [|reflexivity].
  apply gt_true in E. cbn [filter] in *. rewrite IH.
  destruct (Qeq_bool (Contribution.impact c) v) eqn:Ec; [|reflexivity].
  destruct (Qeq_bool (Contribution.impact c') v) eqn:Ec'; [|reflexivity].
  apply Qeq_bool_iff in Ec, Ec'. lra.
Qed.

Lemma sort_by_impact_desc_stable (v : Q) (l : list Contribution.t) :
  with_impact v (sort_by_impact_desc l) = with_impact v l.
Proof.
  induction l as [|c l IH]; [reflexivity|].
  cbn [sort_by_impact_desc fold_right].
  rewrite insert_by_impact_with_impact. fold (sort_by_impact_desc l).
  unfold with_impact in *. cbn [filter]. rewrite IH. reflexivity.
Qed.

End Sorting.

(** C6.  The contribution list that [score] returns is the list built in
    encounter order, put in descending order of impact; the entries of any
    one impact value keep the order in which they were built. *)
Theorem contributions_sorted_stable (self : ConfigDrivenScoringEngine.t) (now : utc)
    (lead_data : dict value) (r : ScoringResult.t) :
  score self now lead_data = Ok r ->
  exists detail,
    contributions_detail self (ScoringResult.raw_scores r)
      (total_weight self lead_data) (ScoringResult.recency_score r) = Ok detail
    /\ Permutation detail (ScoringResult.contributions r)
    /\ StronglySorted impact_ge (ScoringResult.contributions r)
    /\ forall v, with_impact v (ScoringResult.contributions r) = with_impact v detail.
Proof.
  intro Hr. apply score_inv in Hr. destruct Hr as (rec & detail & _ & Hdetail & ->).
  exists detail. simpl. split; [exact Hdetail|]. split; [apply sort_by_impact_desc_perm|].
  split; [apply sort_by_impact_desc_sorted|].
  intro v. apply sort_by_impact_desc_stable.
Qed.

Lemma contributions_sorted_stable_witness :
  exists r,
    score Sample.tied_engine Sample.now (LeadInput.model_dump Sample.keen) = Ok r
    /\ map Contribution.feature (ScoringResult.contributions r)
       = ["demo_requested"; "registration"; "pricing_compared"]
    /\ exists detail,
         contributions_detail Sample.tied_engine (ScoringResult.raw_scores r)
           (total_weight Sample.tied_engine (LeadInput.model_dump Sample.keen))
           (ScoringResult.recency_score r) = Ok detail
         /\ Permutation detail (ScoringResult.contributions r)
         /\ StronglySorted impact_ge (ScoringResult.contributions r)
         /\ forall v, with_impact v (ScoringResult.contributions r) = with_impact v detail.
Proof.
  eexists. split; [vm_compute; reflexivity|]. split; [reflexivity|].
  apply (contributions_sorted_stable Sample.tied_engine Sample.now
           (LeadInput.model_dump Sample.keen)).
  vm_compute. reflexivity.
Defined.

Section StableSortIsUnique.

Lemma with_impact_head (c : Contribution.t) (l : list Contribution.t) :
  with_impact (Contribution.impact c) (c :: l)
  = c :: with_impact (Contribution.impact c) l.
Proof.
  unfold with_impact. simpl.
  rewrite (proj2 (Qeq_bool_iff _ _) (Qeq_refl _)). reflexivity.
Qed.

Lemma head_is_largest (a : Contribution.t) (l : list Contribution.t) (v : Q)
    (c : Contribution.t) (rest : list Contribution.t) :
  StronglySorted impact_ge (a :: l) ->
  with_impact v (a :: l) = c :: rest ->
  v <= Contribution.impact a.
Proof.
  intros Hsorted Hfilter.
  assert (Hin : In c (with_impact v (a :: l))) by (rewrite Hfilter; left; reflexivity).
  unfold with_impact in Hin. apply filter_In in Hin. destruct Hin as [Hin Hv].
  apply Qeq_bool_iff in Hv. inversion Hsorted as [|? ? _ Hall]; subst.
  destruct Hin as [<-|Hin]; [lra|].
  rewrite Forall_forall in Hall. specialize (Hall c Hin). unfold impact_ge in Hall. lra.
Qed.

(** A list in descending order of impact is determined by its entries of
    each impact, taken in order: any stable sort returns the list that
    [sort_by_impact_desc] computes. *)
Lemma sorted_stable_unique (l1 l2 : list Contribution.t) :
  StronglySorted impact_ge l1 ->
  StronglySorted impact_ge l2 ->
  (forall v, with_impact v l1 = with_impact v l2) ->
  l1 = l2.
Proof.
  revert l2. induction l1 as [|a t1 IH]; intros [|b t2] H1 H2 Hsame.
  - reflexivity.
  - specialize (Hsame (Contribution.impact b)). rewrite with_impact_head in Hsame.
    discriminate.
  - specialize (Hsame (Contribution.impact a)). rewrite with_impact_head in Hsame.
    discriminate.
  - assert (Hab : Contribution.impact a <= Contribution.impact b).
    { pose proof (Hsame (Contribution.impact a)) as H. rewrite with_impact_head in H.
      symmetry in H. apply (head_is_largest _ _ _ _ _ H2 H). }
    assert (Hba : Contribution.impact b <= Contribution.impact a).
    { pose proof (Hsame (Contribution.impact b)) as H.
      rewrite (with_impact_head b) in H. apply (head_is_largest _ _ _ _ _ H1 H). }
    assert (Heq : a = b).
    { pose proof (Hsame (Contribution.impact a)) as H. rewrite with_impact_head in H.
      unfold with_impact in H. simpl in H.
      assert (E : Qeq_bool (Contribution.impact b) (Contribution.impact a) = true)
        by (apply Qeq_bool_iff; lra).
      rewrite E in H. inversion H. reflexivity. }
    subst b. f_equal. apply IH.
    + inversion H1; assumption.
    + inversion H2; assumption.
    + intro v. specialize (Hsame v). unfold with_impact in *. simpl in Hsame.
      destruct (Qeq_bool (Contribution.impact a) v); [inversion Hsame|]; auto.
Qed.

Lemma stable_sort_is_sort_by_impact_desc (l sorted : list Contribution.t) :
  StronglySorted impact_ge sorted ->
  (forall v, with_impact v sorted = with_impact v l) ->
  sorted = sort_by_impact_desc l.
Proof.
  intros Hsorted Hstable. apply sorted_stable_unique.
  - exact Hsorted.
  - apply sort_by_impact_desc_sorted.
  - intro v. rewrite Hstable, sort_by_impact_desc_stable. reflexivity.
Qed.

End StableSortIsUnique.

(** *** Recency *)

Lemma score_total (self : ConfigDrivenScoringEngine.t) (now : utc)
    (lead_data : dict value) (rec : Q) :
  _calculate_recency_score self now (get_default lead_data "enquiry_date" VNone) = Ok rec ->
  ~ denominator self == 0 ->
  exists r, score self now lead_data = Ok r.
Proof.
  intros Hrec Hden. rewrite score_shape, Hrec. simpl.
  destruct (contributions_detail_total self (loop_raw_scores self lead_data)
              (total_weight self lead_data) rec) as [detail ->].
  - rewrite total_weight_denominator. exact Hden.
  - simpl. eexists; reflexivity.
Qed.

(** C3.  For every lead without an enquiry date the recency score is 0,
    and the normalization denominator is still the sum of all configured
    weights plus the recency budget [max_score]. *)
Theorem no_enquiry_no_recency (self : ConfigDrivenScoringEngine.t) (now : utc)
    (lead : LeadInput.t) :
  LeadInput.enquiry_date lead = None ->
  let lead_data := LeadInput.model_dump lead in
  let budget := get_or (Config.max_score (recency_config self)) 10 in
  _calculate_recency_score self now (get_default lead_data "enquiry_date" VNone) = Ok 0
  /\ total_weight self lead_data == sum_of_weights (weights self) + budget
  /\ (~ sum_of_weights (weights self) + budget == 0 ->
      exists r, score self now lead_data = Ok r)
  /\ forall r, score self now lead_data = Ok r ->
       ScoringResult.recency_score r = 0
       /\ (0 < sum_of_weights (weights self) + budget ->
           ScoringResult.score r
           == Qmin 100 (matched_weights lead_data (weights self)
                        / (sum_of_weights (weights self) + budget) * 100))
       /\ (sum_of_weights (weights self) + budget <= 0 -> ScoringResult.score r == 0).
Proof.
  intros Hnone lead_data budget.
  assert (Hrec : _calculate_recency_score self now
                   (get_default lead_data "enquiry_date" VNone) = Ok 0).
  { unfold lead_data. rewrite enquiry_date_dumped, Hnone. reflexivity. }
  split; [exact Hrec|]. split; [apply total_weight_denominator|].
  split; [apply (score_total self now lead_data 0 Hrec)|].
  intros r Hr. apply score_inv in Hr. destruct Hr as (rec & detail & Hrec' & _ & ->).
  rewrite Hrec in Hrec'. inversion Hrec'; subst rec. simpl.
  split; [reflexivity|].
  rewrite (normalized_eq _ (matched_weights lead_data (weights self) + 0) _ _
             (Qplus_comp _ _ (loop_raw_score_matched self lead_data) _ _ (Qeq_refl 0))
             (total_weight_denominator self lead_data)).
  unfold denominator, max_score. fold budget. unfold normalized. split.
  - intro Hpos. apply gt_true in Hpos. rewrite Hpos.
    setoid_replace (matched_weights lead_data (weights self) + 0)
      with (matched_weights lead_data (weights self)) by ring.
    reflexivity.
  - intro Hle. apply gt_false in Hle. rewrite Hle. reflexivity.
Qed.

Lemma no_enquiry_no_recency_witness :
  let lead_data := LeadInput.model_dump Sample.no_enquiry in
  let budget := get_or (Config.max_score (recency_config Sample.engine)) 10 in
  _calculate_recency_score Sample.engine Sample.now
    (get_default lead_data "enquiry_date" VNone) = Ok 0
  /\ total_weight Sample.engine lead_data == sum_of_weights (weights Sample.engine) + budget
  /\ (~ sum_of_weights (weights Sample.engine) + budget == 0 ->
      exists r, score Sample.engine Sample.now lead_data = Ok r)
  /\ forall r, score Sample.engine Sample.now lead_data = Ok r ->
       ScoringResult.recency_score r = 0
       /\ (0 < sum_of_weights (weights Sample.engine) + budget ->
           ScoringResult.score r
           == Qmin 100 (matched_weights lead_data (weights Sample.engine)
                        / (sum_of_weights (weights Sample.engine) + budget) * 100))
       /\ (sum_of_weights (weights Sample.engine) + budget <= 0 ->
           ScoringResult.score r == 0).
Proof.
  apply (no_enquiry_no_recency Sample.engine Sample.now Sample.no_enquiry).
  reflexivity.
Defined.

Lemma future_days_negative (now : utc) (d : Z) :
  (now < d)%Z -> inject_Z (days_between now d) < 0.
Proof.
  intro H. unfold days_between, microseconds_per_day.
  change 0 with (inject_Z 0). rewrite <- Zlt_Qlt.
  apply Z.div_lt_upper_bound; lia.
Qed.

Lemma decay_exceeds_budget (dd ds ms : Q) :
  0 < dd -> 0 < ms -> ds < 0 -> ms < (dd - ds) / dd * ms.
Proof.
  intros Hdd Hms Hds.
  setoid_replace ((dd - ds) / dd * ms) with (ms + (- ds) * ms / dd) by (field; lra).
  assert (0 < - ds * ms / dd); [|lra].
  apply Qlt_shift_div_l; [exact Hdd|].
  setoid_replace (0 * dd) with 0 by ring.
  apply Qmult_lt_0_compat; lra.
Qed.

Lemma Qmax_0_pos (x : Q) : 0 < x -> Qmax 0 x = x.
Proof.
  intro H. apply Qlt_alt in H. unfold Qmax, GenericMinMax.gmax.
  change (Qcompare 0 x = Lt) in H. rewrite H. reflexivity.
Qed.

Lemma recency_entry (self : ConfigDrivenScoringEngine.t) (rs : dict Q) (tw rec : Q)
    (detail : list Contribution.t) :
  contributions_detail self rs tw rec = Ok detail ->
  0 < rec ->
  In {| Contribution.feature := "recency";
        Contribution.impact := rec / tw * 100;
        Contribution.reason := get_or (Config.recency_description (recency_config self)) "" |}
     detail.
Proof.
  unfold contributions_detail. intros H Hrec.
  destruct (feature_contributions self tw (dict_items rs)) as [l|]; simpl in H; [|discriminate].
  unfold recency_contribution in H. apply gt_true in Hrec. rewrite Hrec in H.
  destruct (truediv rec tw) as [q|] eqn:Hdiv; simpl in H; [|discriminate].
  apply truediv_inv in Hdiv. destruct Hdiv as [_ ->].
  inversion H. apply in_or_app. right. left. reflexivity.
Qed.

(** C10.  With [days_decay > 0] and [max_score > 0], a naive enquiry date ahead
    of the clock has a negative number of days since the enquiry, and
    [_calculate_recency_score] returns
    [(days_decay - days_since) / days_decay * max_score], which is more than
    [max_score]; this value is the recency score of the result, is added to
    the raw total that is normalized, and is the numerator of the impact of
    the recency contribution. *)
Theorem future_enquiry_exceeds_budget (self : ConfigDrivenScoringEngine.t)
    (now : utc) (d : Z) (lead : LeadInput.t) :
  0 < days_decay self ->
  0 < max_score self ->
  (now < d)%Z ->
  LeadInput.enquiry_date lead = Some (Naive d) ->
  let lead_data := LeadInput.model_dump lead in
  let days_since := inject_Z (days_between now d) in
  let recency := (days_decay self - days_since) / days_decay self * max_score self in
  days_since < 0
  /\ _calculate_recency_score self now (VDatetime (Naive d)) = Ok recency
  /\ max_score self < recency
  /\ (~ denominator self == 0 -> exists r, score self now lead_data = Ok r)
  /\ forall r, score self now lead_data = Ok r ->
       ScoringResult.recency_score r = recency
       /\ ScoringResult.score r
          == normalized (matched_weights lead_data (weights self) + recency)
                        (denominator self)
       /\ exists c,
            In c (ScoringResult.contributions r)
            /\ Contribution.feature c = "recency"
            /\ Contribution.impact c == recency / denominator self * 100.
Proof.
  intros Hdd Hms Hfuture Hdate lead_data days_since recency.
  pose proof (future_days_negative now d Hfuture) as Hneg. fold days_since in Hneg.
  pose proof (decay_exceeds_budget _ _ _ Hdd Hms Hneg) as Hbig. fold recency in Hbig.
  assert (Hrec : _calculate_recency_score self now (VDatetime (Naive d)) = Ok recency).
  { rewrite recency_datetime, truediv_ok by lra. simpl.
    fold days_since. fold recency. rewrite Qmax_0_pos by lra. reflexivity. }
  assert (Hrec' : _calculate_recency_score self now
                    (get_default lead_data "enquiry_date" VNone) = Ok recency).
  { unfold lead_data. rewrite enquiry_date_dumped, Hdate. exact Hrec. }
  split; [exact Hneg|]. split; [exact Hrec|]. split; [exact Hbig|].
  split; [apply (score_total self now lead_data recency Hrec')|].
  intros r Hr. apply score_inv in Hr. destruct Hr as (rec & detail & Hrec'' & Hdetail & ->).
  rewrite Hrec' in Hrec''. inversion Hrec''; subst rec. simpl.
  split; [reflexivity|]. split.
  - apply normalized_eq; [|apply total_weight_denominator].
    rewrite (loop_raw_score_matched self lead_data). reflexivity.
  - eexists. split.
    + apply (Permutation_in _ (sort_by_impact_desc_perm detail)).
      apply (recency_entry _ _ _ _ _ Hdetail). lra.
    + split; [reflexivity|]. simpl.
      rewrite (total_weight_denominator self lead_data). reflexivity.
Qed.

Lemma future_enquiry_exceeds_budget_witness :
  let lead_data := LeadInput.model_dump Sample.tomorrow in
  let days_since := inject_Z (days_between Sample.now (101 * Sample.day)%Z) in
  let recency :=
    (days_decay Sample.engine - days_since) / days_decay Sample.engine
    * max_score Sample.engine in
  days_since < 0
  /\ _calculate_recency_score Sample.engine Sample.now
       (VDatetime (Naive (101 * Sample.day))) = Ok recency
  /\ max_score Sample.engine < recency
  /\ (~ denominator Sample.engine == 0 ->
      exists r, score Sample.engine Sample.now lead_data = Ok r)
  /\ forall r, score Sample.engine Sample.now lead_data = Ok r ->
       ScoringResult.recency_score r = recency
       /\ ScoringResult.score r
          == normalized (matched_weights lead_data (weights Sample.engine) + recency)
                        (denominator Sample.engine)
       /\ exists c,
            In c (ScoringResult.contributions r)
            /\ Contribution.feature c = "recency"
            /\ Contribution.impact c == recency / denominator Sample.engine * 100.
Proof.
  apply (future_enquiry_exceeds_budget Sample.engine Sample.now (101 * Sample.day)%Z
           Sample.tomorrow).
  - reflexivity.
  - reflexivity.
  - reflexivity.
  - reflexivity.
Defined.

(** *** The impacts and the budget of 100 *)

Section ImpactBudget.

Variable self : ConfigDrivenScoringEngine.t.











End ImpactBudget.

(** C2.  A configuration with non-negative weights and a lead whose enquiry
    date is one day ahead of the clock: the impacts of the returned
    contributions add up to 22700/225, which is more than 100. *)
Theorem impacts_exceed_100_when_enquiry_is_ahead :
  nonneg_weights Sample.engine
  /\ nonneg_max_score Sample.engine
  /\ exists r,
       ConfigDrivenScoringEngine.score Sample.engine Sample.now
         (LeadInput.model_dump Sample.eager) = Ok r
       /\ total_impact (ScoringResult.contributions r) == 22700 # 225
       /\ 100 < total_impact (ScoringResult.contributions r).
Proof.
  split; [unfold nonneg_weights; simpl; repeat constructor; discriminate|].
  split; [unfold nonneg_max_score; simpl; discriminate|].
  eexists. split; [vm_compute; reflexivity|]. split; vm_compute; reflexivity.
Qed.

(** *** Intent tier and action bracket *)

Lemma intent_level_cases (self : ExplanationEngine.t) (score : Q) :
  let high := get_or (Config.high (ExplanationEngine.intent_thresholds self)) 80 in
  let medium := get_or (Config.medium (ExplanationEngine.intent_thresholds self)) 60 in
  let level := ExplanationEngine._determine_intent_level self score in
  (high <= score /\ level = "High")
  \/ (score < high /\ medium <= score /\ level = "Medium")
  \/ (score < high /\ score < medium /\ level = "Low").
Proof.
  intros high medium level. unfold level, ExplanationEngine._determine_intent_level.
  fold high medium.
  destruct (ge score high) eqn:Eh.
  - apply ge_true in Eh. left. split; [exact Eh | reflexivity].
  - apply ge_false in Eh. right. destruct (ge score medium) eqn:Em.
    + apply ge_true in Em. left. repeat split; assumption.
    + apply ge_false in Em. right. repeat split; assumption.
Qed.

(** C4.  The intent tier is High from the high threshold up, Medium from the
    medium threshold up to the high one, Low below both; under fixed
    thresholds a greater score never gets a lower tier. *)
Theorem intent_level_monotone (self : ExplanationEngine.t) :
  let high := get_or (Config.high (ExplanationEngine.intent_thresholds self)) 80 in
  let medium := get_or (Config.medium (ExplanationEngine.intent_thresholds self)) 60 in
  let level := ExplanationEngine._determine_intent_level self in
  (forall score, high <= score -> level score = "High")
  /\ (forall score, score < high -> medium <= score -> level score = "Medium")
  /\ (forall score, score < high -> score < medium -> level score = "Low")
  /\ (forall a b, b < a -> (tier_rank (level b) <= tier_rank (level a))%nat).
Proof.
  intros high medium level.
  assert (Hcases : forall score,
             (high <= score /\ level score = "High")
             \/ (score < high /\ medium <= score /\ level score = "Medium")
             \/ (score < high /\ score < medium /\ level score = "Low"))
    by (intro score; apply (intent_level_cases self score)).
  clearbody high medium level.
  split; [|split; [|split]].
  - intros score H.
    destruct (Hcases score) as [(_ & E)|[(H1 & _)|(H1 & _)]]; [exact E | lra | lra].
  - intros score Hh Hm.
    destruct (Hcases score) as [(H1 & _)|[(_ & _ & E)|(_ & H2 & _)]]; [lra | exact E | lra].
  - intros score Hh Hm.
    destruct (Hcases score) as [(H1 & _)|[(_ & H2 & _)|(_ & _ & E)]]; [lra | lra | exact E].
  - intros a b Hab.
    destruct (Hcases a) as [(Ha & ->)|[(Ha & Ha' & ->)|(Ha & Ha' & ->)]];
    destruct (Hcases b) as [(Hb & ->)|[(Hb & Hb' & ->)|(Hb & Hb' & ->)]];
      first [ now (vm_compute; lia) | exfalso; lra ].
Qed.

Lemma intent_level_monotone_witness :
  ExplanationEngine._determine_intent_level Sample.explainer 85 = "High"
  /\ ExplanationEngine._determine_intent_level Sample.explainer 70 = "Medium"
  /\ ExplanationEngine._determine_intent_level Sample.explainer 10 = "Low"
  /\ (tier_rank (ExplanationEngine._determine_intent_level Sample.explainer 70)
      <= tier_rank (ExplanationEngine._determine_intent_level Sample.explainer 85))%nat.
Proof.
  destruct (intent_level_monotone Sample.explainer) as (Hh & Hm & Hl & Hmono).
  split; [apply Hh; discriminate|].
  split; [apply Hm; [reflexivity | discriminate]|].
  split; [apply Hl; reflexivity|].
  apply Hmono. reflexivity.
Defined.

(** C5.  The bracket key is a function of the score with inclusive lower
    bounds: [score_80_100] from 80, [score_60_79] from 60 up to 80,
    [score_40_59] from 40 up to 60, [score_below_40] below 40. *)
Theorem action_key_brackets (score : Q) :
  (80 <= score -> NextActionEngine._get_action_key score = "score_80_100")
  /\ (60 <= score -> score < 80 -> NextActionEngine._get_action_key score = "score_60_79")
  /\ (40 <= score -> score < 60 -> NextActionEngine._get_action_key score = "score_40_59")
  /\ (score < 40 -> NextActionEngine._get_action_key score = "score_below_40").
Proof.
  unfold NextActionEngine._get_action_key.
  destruct (ge score 80) eqn:E80; [apply ge_true in E80 | apply ge_false in E80];
  destruct (ge score 60) eqn:E60; [apply ge_true in E60 | apply ge_false in E60 | apply ge_true in E60 | apply ge_false in E60];
  destruct (ge score 40) eqn:E40;
    try apply ge_true in E40; try apply ge_false in E40;
    repeat split; intros; try reflexivity; lra.
Qed.

Lemma action_key_brackets_witness :
  NextActionEngine._get_action_key 80 = "score_80_100"
  /\ NextActionEngine._get_action_key (79999 # 1000) = "score_60_79"
  /\ NextActionEngine._get_action_key 40 = "score_40_59"
  /\ NextActionEngine._get_action_key (39999 # 1000) = "score_below_40".
Proof.
  split; [apply (action_key_brackets 80); discriminate|].
  split; [apply (action_key_brackets (79999 # 1000)); [discriminate | reflexivity]|].
  split; [apply (action_key_brackets 40); [discriminate | reflexivity]|].
  apply (action_key_brackets (39999 # 1000)); reflexivity.
Defined.

Lemma action_key_is_not_the_bare_range :
  NextActionEngine._get_action_key 80 <> "80_100"
  /\ NextActionEngine._get_action_key (79999 # 1000) <> "60_79"
  /\ NextActionEngine._get_action_key 50 <> "40_59"
  /\ NextActionEngine._get_action_key 0 <> "below_40".
Proof.
  repeat split; discriminate.
Qed.

(** *** Confidence and construction *)

Lemma clamp_range (x : Q) : 0 <= Qmax 0 (Qmin 100 x) <= 100.
Proof.
  split; [apply Q.le_max_l|].
  apply Q.max_lub; [lra | apply Q.le_min_l].
Qed.

Lemma confidence_shape (self : ExplanationEngine.t) (now : utc) (score : Q)
    (contributions : list Contribution.t) (lead_data : option (dict value)) :
  match enquiry_timestamp lead_data with
  | Some (VDatetime (Naive _)) | None =>
      exists c,
        ExplanationEngine._calculate_confidence self now score contributions lead_data = Ok c
        /\ c == Qmax 0 (Qmin 100 (100 * ((3 # 10) * data_completeness lead_data
                                         + (4 # 10) * signal_recency now lead_data
                                         + (3 # 10) * signal_diversity contributions)))
  | Some _ =>
      ExplanationEngine._calculate_confidence self now score contributions lead_data
      = Raise TypeError
  end.
Proof.
  unfold ExplanationEngine._calculate_confidence, signal_recency, enquiry_timestamp,
    data_completeness, signal_diversity, ExplanationEngine.filled_fields.
  destruct lead_data as [[|item d]|].
  - simpl. eexists. split; [reflexivity|].
    apply Q.max_compat; [reflexivity|]. apply Q.min_compat; [reflexivity|]. ring.
  - cbn [ExplanationEngine.given len List.length Nat.ltb Nat.leb].
    destruct (dict_get (item :: d) "enquiry_date") as [v|].
    + destruct (truthy v) eqn:Hv.
      * destruct v as [| b | s | [t|t]]; try reflexivity.
        eexists. split; [reflexivity|].
        apply Q.max_compat; [reflexivity|]. apply Q.min_compat; [reflexivity|]. ring.
      * eexists. split; [reflexivity|].
        apply Q.max_compat; [reflexivity|]. apply Q.min_compat; [reflexivity|]. ring.
    + eexists. split; [reflexivity|].
      apply Q.max_compat; [reflexivity|]. apply Q.min_compat; [reflexivity|]. ring.
  - simpl. eexists. split; [reflexivity|].
    apply Q.max_compat; [reflexivity|]. apply Q.min_compat; [reflexivity|]. ring.
Qed.

(** C7.  The confidence is
    [max(0, min(100, 100 * (0.3 * data_completeness + 0.4 * signal_recency
    + 0.3 * signal_diversity)))], with data completeness 0.6 when no lead
    dictionary is given, signal recency 0.8 when it holds no enquiry date and
    signal diversity [min(1, count / 5)]; it lies in [0, 100] and is the same
    whatever the [confidence_factors] section holds.  The only exception
    raised is [TypeError], for an enquiry date that is not a naive datetime. *)
Theorem confidence_fixed_blend (self : ExplanationEngine.t) (now : utc) (score : Q)
    (contributions : list Contribution.t) (lead_data : option (dict value)) :
  match ExplanationEngine._calculate_confidence self now score contributions lead_data with
  | Ok confidence =>
      confidence
      == Qmax 0 (Qmin 100 (100 * ((3 # 10) * data_completeness lead_data
                                  + (4 # 10) * signal_recency now lead_data
                                  + (3 # 10) * signal_diversity contributions)))
      /\ 0 <= confidence <= 100
  | Raise e =>
      e = TypeError
      /\ exists v, enquiry_timestamp lead_data = Some v /\ forall t, v <> VDatetime (Naive t)
  end
  /\ (lead_data = None -> data_completeness lead_data = 6 # 10)
  /\ (enquiry_timestamp lead_data = None -> signal_recency now lead_data = 8 # 10)
  /\ signal_diversity contributions
     = Qmin 1 (inject_Z (Z.of_nat (List.length contributions)) / 5)
  /\ forall factors,
       ExplanationEngine._calculate_confidence (with_confidence_factors factors self)
         now score contributions lead_data
       = ExplanationEngine._calculate_confidence self now score contributions lead_data.
Proof.
  split.
  - pose proof (confidence_shape self now score contributions lead_data) as H.
    destruct (enquiry_timestamp lead_data) as [v|] eqn:Hts.
    + destruct v as [| b | s | [t|t]].
      * rewrite H. split; [reflexivity|]. exists VNone. split; [reflexivity | discriminate].
      * rewrite H. split; [reflexivity|]. exists (VBool b). split; [reflexivity | discriminate].
      * rewrite H. split; [reflexivity|]. exists (VStr s). split; [reflexivity | discriminate].
      * destruct H as (c & -> & Hc). split; [exact Hc|]. rewrite Hc. apply clamp_range.
      * rewrite H. split; [reflexivity|].
        exists (VDatetime (Aware t)). split; [reflexivity | discriminate].
    + destruct H as (c & -> & Hc). split; [exact Hc|]. rewrite Hc. apply clamp_range.
  - split; [intros ->; reflexivity|].
    split; [intro H; unfold signal_recency; rewrite H; reflexivity|].
    split; reflexivity.
Qed.

Lemma confidence_fixed_blend_witness :
  let lead_data := Some (LeadInput.model_dump Sample.five_days_ago) in
  match ExplanationEngine._calculate_confidence Sample.explainer Sample.now 50 [] lead_data with
  | Ok confidence =>
      confidence
      == Qmax 0 (Qmin 100 (100 * ((3 # 10) * data_completeness lead_data
                                  + (4 # 10) * signal_recency Sample.now lead_data
                                  + (3 # 10) * signal_diversity [])))
      /\ 0 <= confidence <= 100
  | Raise e =>
      e = TypeError
      /\ exists v, enquiry_timestamp lead_data = Some v /\ forall t, v <> VDatetime (Naive t)
  end
  /\ data_completeness None = 6 # 10
  /\ signal_recency Sample.now (Some (LeadInput.model_dump Sample.no_enquiry)) = 8 # 10
  /\ ExplanationEngine._calculate_confidence
       (with_confidence_factors
          (Some [ {| Config.factor_weight := Some 5 |}; {| Config.factor_weight := None |} ])
          Sample.explainer)
       Sample.now 50 [] (Some (LeadInput.model_dump Sample.five_days_ago))
     = ExplanationEngine._calculate_confidence Sample.explainer Sample.now 50 []
         (Some (LeadInput.model_dump Sample.five_days_ago)).
Proof.
  split; [apply (confidence_fixed_blend Sample.explainer Sample.now 50 [])|].
  split.
  { apply (confidence_fixed_blend Sample.explainer Sample.now 50 [] None). reflexivity. }
  split.
  { apply (confidence_fixed_blend Sample.explainer Sample.now 50 []
             (Some (LeadInput.model_dump Sample.no_enquiry))).
    reflexivity. }
  apply (confidence_fixed_blend Sample.explainer Sample.now 50 []
           (Some (LeadInput.model_dump Sample.five_days_ago))).
Defined.

(** C9.  Construction raises when the document is missing, is not well-formed
    YAML or is not a mapping.  For a mapping it succeeds, and the loaded
    weights are the [weights] section, or the empty dictionary when the
    document has none. *)
Theorem construction_outcomes (fs : Config.files) (config_path : option string) :
  let path := match config_path with
              | Some p => p
              | None => Config.config_path Config.settings
              end in
  let made := ConfigDrivenScoringEngine.__init__ fs config_path in
  (fs path = Config.Missing -> made = Raise FileNotFoundError)
  /\ (fs path = Config.Malformed -> made = Raise YAMLError)
  /\ (forall d, fs path = Config.Parsed d -> (forall c, d <> Config.Mapping c) ->
      made = Raise AttributeError)
  /\ (forall c, fs path = Config.Parsed (Config.Mapping c) ->
      exists engine,
        made = Ok engine
        /\ ConfigDrivenScoringEngine.config engine = c
        /\ ConfigDrivenScoringEngine.weights engine
           = match Config.weights c with Some ws => ws | None => [] end)
  /\ (forall engine, made = Ok engine ->
      exists c,
        fs path = Config.Parsed (Config.Mapping c)
        /\ (ConfigDrivenScoringEngine.weights engine = []
            <-> Config.weights c = None \/ Config.weights c = Some [])).
Proof.
  intros path made. unfold made, ConfigDrivenScoringEngine.__init__,
    ConfigDrivenScoringEngine._load_config. fold path.
  split; [intros ->; reflexivity|].
  split; [intros ->; reflexivity|].
  split.
  { intros d -> Hd. destruct d as [| s | l | c]; try reflexivity.
    exfalso. apply (Hd c). reflexivity. }
  split.
  { intros c ->. simpl. eexists. split; [reflexivity|]. split; reflexivity. }
  intros engine. destruct (fs path) as [| | [| s | l | c]]; simpl; try discriminate.
  intro H. inversion H. exists c. split; [reflexivity|]. simpl.
  destruct (Config.weights c) as [ws|]; simpl.
  - split; [intros ->; right; reflexivity | intros [H'|H']; [discriminate | inversion H'; reflexivity]].
  - split; [intros _; left; reflexivity | reflexivity].
Qed.

Lemma construction_outcomes_witness :
  exists engine,
    ConfigDrivenScoringEngine.__init__ Sample.files None = Ok engine
    /\ ConfigDrivenScoringEngine.config engine = Sample.config
    /\ ConfigDrivenScoringEngine.weights engine
       = match Config.weights Sample.config with Some ws => ws | None => [] end.
Proof.
  apply (construction_outcomes Sample.files None). reflexivity.
Defined.

Lemma construction_accepts_a_document_without_weights :
  exists engine r,
    ConfigDrivenScoringEngine.__init__ Sample.empty_files None = Ok engine
    /\ ConfigDrivenScoringEngine.weights engine = []
    /\ ConfigDrivenScoringEngine.score engine Sample.now
         (LeadInput.model_dump Sample.no_enquiry) = Ok r
    /\ ScoringResult.score r == 0
    /\ ScoringResult.contributions r = [].
Proof.
  eexists. eexists. split; [reflexivity|]. split; [reflexivity|].
  split; [vm_compute; reflexivity|]. split; reflexivity.
Qed.

(** *** Persistence *)

Section Persistence.

Variable json_dumps : list Contribution.t -> string.
Variable self : LeadService.t.

Lemma rewrite_first_length (e : string) (lead : Lead.t) (l : list Lead.t) :
  List.length (Session.rewrite_first e lead l) = List.length l.
Proof.
  induction l as [|r l IH]; simpl; [reflexivity|].
  destruct (Lead.has_email e r); simpl; [reflexivity | rewrite IH; reflexivity].
Qed.

Lemma first_after_update (db : Session.t) (e : string) (old lead : Lead.t) :
  Session.first_by_email db e = Some old ->
  Lead.has_email e lead = true ->
  Session.first_by_email (Session.update db e lead) e = Some lead.
Proof.
  unfold Session.first_by_email, Session.update. simpl.
  intros Hold Hlead. induction (Session.rows db) as [|r l IH]; simpl in *; [discriminate|].
  destruct (Lead.has_email e r) eqn:Hr; simpl.
  - rewrite Hlead. reflexivity.
  - rewrite Hr. apply IH. exact Hold.
Qed.

Lemma first_after_add (db : Session.t) (e : string) (lead : Lead.t) :
  Session.first_by_email db e = None ->
  Lead.has_email e lead = true ->
  Session.first_by_email (Session.add db lead) e = Some lead.
Proof.
  unfold Session.first_by_email, Session.add. simpl.
  intros Hnone Hlead. induction (Session.rows db) as [|r l IH]; simpl in *.
  - rewrite Hlead. reflexivity.
  - destruct (Lead.has_email e r); [discriminate | apply IH; exact Hnone].
Qed.

(** The row a call leaves behind: its stored fields do not depend on the
    session the call started from, and it is the row found by email. *)
Lemma score_lead_stored (clock : Clock.t) (db db0 : Session.t)
    (lead_data : LeadInput.t) (stored : Lead.t) (db' : Session.t) :
  LeadService.score_lead json_dumps self clock db lead_data = (Ok stored, db') ->
  Session.first_by_email db' (LeadInput.email lead_data) = Some stored
  /\ exists stored0 db0',
       LeadService.score_lead json_dumps self clock db0 lead_data = (Ok stored0, db0')
       /\ same_stored_fields stored stored0.
Proof.
  unfold LeadService.score_lead.
  destruct (ConfigDrivenScoringEngine.score _ _ _) as [r|]; [|discriminate].
  destruct (ExplanationEngine.explain_score _ _ _ _ _) as [ex|]; [|discriminate].
  destruct (Session.first_by_email db (LeadInput.email lead_data)) as [old|] eqn:Hdb;
    intro H; inversion H; subst; clear H.
  - split.
    + apply (first_after_update _ _ old); [exact Hdb|].
      unfold Lead.has_email. simpl. apply String.eqb_refl.
    + destruct (Session.first_by_email db0 (LeadInput.email lead_data)) as [old0|].
      * eexists. eexists. split; [reflexivity|].
        unfold same_stored_fields. simpl. repeat split.
      * eexists. eexists. split; [reflexivity|].
        unfold same_stored_fields. simpl. repeat split.
  - split.
    + apply first_after_add; [exact Hdb|].
      unfold Lead.has_email. simpl. apply String.eqb_refl.
    + destruct (Session.first_by_email db0 (LeadInput.email lead_data)) as [old0|].
      * eexists. eexists. split; [reflexivity|].
        unfold same_stored_fields. simpl. repeat split.
      * eexists. eexists. split; [reflexivity|].
        unfold same_stored_fields. simpl. repeat split.
Qed.

(** A call that finds a row for the email rewrites it and adds none. *)
Lemma score_lead_update_length (clock : Clock.t) (db : Session.t)
    (lead_data : LeadInput.t) (old : Lead.t) :
  Session.first_by_email db (LeadInput.email lead_data) = Some old ->
  List.length (Session.rows (snd (LeadService.score_lead json_dumps self clock db lead_data)))
  = List.length (Session.rows db).
Proof.
  intro Hold. unfold LeadService.score_lead.
  destruct (ConfigDrivenScoringEngine.score _ _ _) as [r|]; [|reflexivity].
  destruct (ExplanationEngine.explain_score _ _ _ _ _) as [ex|]; [|reflexivity].
  rewrite Hold. simpl. apply rewrite_first_length.
Qed.

Lemma score_lead_in_place (clock : Clock.t) (db db' : Session.t)
    (lead_data : LeadInput.t) (old stored : Lead.t) :
  Session.first_by_email db (LeadInput.email lead_data) = Some old ->
  LeadService.score_lead json_dumps self clock db lead_data = (Ok stored, db') ->
  Lead.id stored = Lead.id old /\ Lead.created_at stored = Lead.created_at old.
Proof.
  intro Hold. unfold LeadService.score_lead.
  destruct (ConfigDrivenScoringEngine.score _ _ _) as [r|]; [|discriminate].
  destruct (ExplanationEngine.explain_score _ _ _ _ _) as [ex|]; [|discriminate].
  rewrite Hold. intro H. inversion H. split; reflexivity.
Qed.

End Persistence.

(** C8.  Scoring the same payload a second time rewrites the row of that
    email where it stands: no row is added, the primary key is kept, and the
    stored feature and scoring fields are those a single call with the
    second call's clock writes, on the original session or on an empty one;
    with the same clock they are the fields the first call wrote. *)
Theorem rescoring_overwrites (json_dumps : list Contribution.t -> string)
    (self : LeadService.t) (first second : Clock.t) (db : Session.t)
    (lead_data : LeadInput.t) (stored1 stored2 : Lead.t) (db1 db2 : Session.t) :
  LeadService.score_lead json_dumps self first db lead_data = (Ok stored1, db1) ->
  LeadService.score_lead json_dumps self second db1 lead_data = (Ok stored2, db2) ->
  Session.first_by_email db2 (LeadInput.email lead_data) = Some stored2
  /\ List.length (Session.rows db2) = List.length (Session.rows db1)
  /\ Lead.id stored2 = Lead.id stored1
  /\ (exists single db',
        LeadService.score_lead json_dumps self second db lead_data = (Ok single, db')
        /\ same_stored_fields stored2 single)
  /\ (exists fresh db',
        LeadService.score_lead json_dumps self second Session.empty lead_data
        = (Ok fresh, db')
        /\ same_stored_fields stored2 fresh)
  /\ (second = first -> same_stored_fields stored2 stored1).
Proof.
  intros H1 H2.
  destruct (score_lead_stored json_dumps self first db db lead_data stored1 db1 H1)
    as [Hfound1 _].
  destruct (score_lead_stored json_dumps self second db1 db lead_data stored2 db2 H2)
    as [Hfound2 (single & db' & Hsingle & Hsame)].
  destruct (score_lead_stored json_dumps self second db1 Session.empty lead_data stored2 db2 H2)
    as [_ (fresh & db'' & Hfresh & Hsame')].
  split; [exact Hfound2|]. split.
  { pose proof (score_lead_update_length json_dumps self second db1 lead_data stored1 Hfound1)
      as Hlen.
    rewrite H2 in Hlen. exact Hlen. }
  split.
  { apply (score_lead_in_place json_dumps self second db1 db2 lead_data stored1 stored2
             Hfound1 H2). }
  split; [exists single, db'; split; assumption|].
  split; [exists fresh, db''; split; assumption|].
  intros ->. rewrite H1 in Hsingle. inversion Hsingle; subst. exact Hsame.
Qed.

Lemma rescoring_overwrites_witness :
  exists stored1 stored2 db1 db2,
    LeadService.score_lead Sample.feature_names Sample.service Sample.clock
      Session.empty Sample.five_days_ago = (Ok stored1, db1)
    /\ LeadService.score_lead Sample.feature_names Sample.service Sample.clock
         db1 Sample.five_days_ago = (Ok stored2, db2)
    /\ Session.first_by_email db2 (LeadInput.email Sample.five_days_ago) = Some stored2
    /\ List.length (Session.rows db2) = List.length (Session.rows db1)
    /\ same_stored_fields stored2 stored1.
Proof.
  eexists. eexists. eexists. eexists.
  split; [vm_compute; reflexivity|].
  split; [vm_compute; reflexivity|].
  pose proof (rescoring_overwrites Sample.feature_names Sample.service Sample.clock
                Sample.clock Session.empty Sample.five_days_ago _ _ _ _
                eq_refl eq_refl) as (Hfound & Hlen & _ & _ & _ & Hsame).
  split; [exact Hfound|]. split; [exact Hlen|]. apply Hsame. reflexivity.
Defined.

(** *** Worked examples *)

(** The worked example of the specification: 30 + 15 raw points and a
    recency of 10 * 10/15 over a denominator of 75 give 620/9, shown as 68.9. *)
Example worked_example :
  exists r,
    score Sample.engine Sample.now (LeadInput.model_dump Sample.five_days_ago) = Ok r
    /\ ScoringResult.score r == 620 # 9
    /\ round1 (ScoringResult.score r) == 689 # 10
    /\ map Contribution.feature (ScoringResult.contributions r)
       = ["demo_requested"; "pricing_compared"; "recency"].
Proof.
  eexists. split; [vm_compute; reflexivity|].
  split; [reflexivity|]. split; reflexivity.
Qed.

(** All features false and no enquiry date: score 0, no contributions. *)
Example nothing_to_score :
  exists r,
    score Sample.engine Sample.now
      (LeadInput.model_dump
         {| LeadInput.email := "bob@example.com";
            LeadInput.name := "Bob";
            LeadInput.company := None;
            LeadInput.demo_requested := false;
            LeadInput.registration := false;
            LeadInput.enquiry_call_whatsapp := false;
            LeadInput.enquiry_date := None;
            LeadInput.pricing_compared := false;
            LeadInput.lead_through_events := false;
            LeadInput.lead_through_call := false;
            LeadInput.lead_through_referral := false |}) = Ok r
    /\ ScoringResult.score r == 0
    /\ ScoringResult.contributions r = [].
Proof.
  eexists. split; [vm_compute; reflexivity|]. split; reflexivity.
Qed.

(** ** Further properties *)

(** *** Rounding *)

Section Rounding.

Lemma round_half_even_near (x : Q) :
x - (1 # 2) <= inject_Z (round_half_even x) <= x + (1 # 2).
Proof.
unfold round_half_even.
pose proof (Qfloor_le x) as Hlo. pose proof (Qlt_floor x) as Hhi.
rewrite inject_Z_plus in Hhi. change (inject_Z 1) with 1 in Hhi.
set (f := Qfloor x) in *.
destruct (gt (1 # 2) (x - inject_Z f)) eqn:E1.
- apply gt_true in E1. lra.
- apply gt_false in E1. destruct (gt (x - inject_Z f) (1 # 2)) eqn:E2.
  + apply gt_true in E2. rewrite inject_Z_plus. change (inject_Z 1) with 1. lra.
  + apply gt_false in E2. destruct (Z.even f).
    * lra.
    * rewrite inject_Z_plus. change (inject_Z 1) with 1. lra.
Qed.

Lemma round_half_even_between (x : Q) (lo hi : Z) :
inject_Z lo <= x <= inject_Z hi -> (lo <= round_half_even x <= hi)%Z.
Proof.
intros [Hlo Hhi]. unfold round_half_even.
pose proof (Qfloor_le x) as Hfl. pose proof (Qlt_floor x) as Hfh.
assert (Hf1 : (lo <= Qfloor x)%Z).
{ rewrite <- (Qfloor_Z lo). apply Qfloor_resp_le. exact Hlo. }
assert (Hf2 : (Qfloor x <= hi)%Z).
{ rewrite <- (Qfloor_Z hi). apply Qfloor_resp_le. exact Hhi. }
set (f := Qfloor x) in *.
destruct (gt (1 # 2) (x - inject_Z f)) eqn:E1; [lia|].
apply gt_false in E1.
assert (Hlt : (f < hi)%Z).
{ rewrite Zlt_Qlt. lra. }
destruct (gt (x - inject_Z f) (1 # 2)); [lia|]. destruct (Z.even f); lia.
Qed.

Lemma round1_near (x : Q) : x - (1 # 20) <= round1 x <= x + (1 # 20).
Proof.
unfold round1. pose proof (round_half_even_near (x * 10)) as [Hlo Hhi].
set (n := inject_Z (round_half_even (x * 10))) in *.
split.
- apply Qle_shift_div_l; [reflexivity | lra].
- apply Qle_shift_div_r; [reflexivity | lra].
Qed.

Lemma round1_percent (x : Q) : 0 <= x <= 100 -> 0 <= round1 x <= 100.
Proof.
intros [Hlo Hhi]. unfold round1.
destruct (round_half_even_between (x * 10) 0 1000) as [H0 H1].
{ change (inject_Z 0) with 0. change (inject_Z 1000) with 1000. lra. }
rewrite Zle_Qle in H0, H1. change (inject_Z 0) with 0 in H0.
change (inject_Z 1000) with 1000 in H1.
set (n := inject_Z (round_half_even (x * 10))) in *.
split.
- apply Qle_shift_div_l; [reflexivity | lra].
- apply Qle_shift_div_r; [reflexivity | lra].
Qed.

Lemma round2_between (x lo hi : Q) (a b : Z) :
lo == inject_Z a / 100 -> hi == inject_Z b / 100 ->
lo <= x <= hi -> lo <= round2 x <= hi.
Proof.
intros Ha Hb [Hlo Hhi]. unfold round2.
destruct (round_half_even_between (x * 100) a b) as [H0 H1].
{ assert (inject_Z a == lo * 100) by (rewrite Ha; field).
  assert (inject_Z b == hi * 100) by (rewrite Hb; field). lra. }
rewrite Zle_Qle in H0, H1.
set (n := inject_Z (round_half_even (x * 100))) in *.
assert (Ha' : inject_Z a == lo * 100) by (rewrite Ha; field).
assert (Hb' : inject_Z b == hi * 100) by (rewrite Hb; field).
split.
- apply Qle_shift_div_l; [reflexivity | lra].
- apply Qle_shift_div_r; [reflexivity | lra].
Qed.

End Rounding.

(** *** What [score] raises *)



(** *** Raw scores, contributions and their impacts *)

Section Impacts.

Variable self : ConfigDrivenScoringEngine.t.





End Impacts.





Section RawScores.

Variable self : ConfigDrivenScoringEngine.t.
Variable lead_data : dict value.

Lemma dict_set_fresh {V : Type} (d : dict V) (k : string) (v : V) :
~ In k (dict_keys d) -> dict_set d k v = d ++ [(k, v)].
Proof.
induction d as [|[k' v'] d IH]; simpl; intro Hk; [reflexivity|].
destruct (k' =? k)%string eqn:E.
- apply String.eqb_eq in E. exfalso. apply Hk. left. exact E.
- rewrite IH; [reflexivity|]. intro Hin. apply Hk. right. exact Hin.
Qed.

Lemma scored_keys (ws : dict Config.weight_config) : dict_keys (scored lead_data ws) = dict_keys ws.
Proof.
unfold scored, dict_keys. rewrite map_map. reflexivity.
Qed.

Lemma weigh_fold_scored (ws : dict Config.weight_config) :
NoDup (dict_keys ws) ->
forall (rs : dict Q) (raw tw : Q),
  (forall k, In k (dict_keys ws) -> ~ In k (dict_keys rs)) ->
  exists raw' tw',
    fold_left (weigh_feature lead_data) ws (rs, raw, tw) = (rs ++ scored lead_data ws, raw', tw').
Proof.
induction ws as [|item ws IH]; intros Hnd rs raw tw Hfresh.
- exists raw, tw. simpl. rewrite app_nil_r. reflexivity.
- cbn [fold_left].
  destruct (weigh_feature_step lead_data rs raw tw item) as (raw1 & -> & _).
  inversion Hnd as [|? ? Hnotin Hnd']; subst.
  rewrite dict_set_fresh by (apply Hfresh; left; reflexivity).
  destruct (IH Hnd' (rs ++ [(fst item, points lead_data item)]) raw1
              (tw + weight_of (snd item))) as (raw' & tw' & Hfold).
  { intros k Hk Hin. unfold dict_keys in Hin. rewrite map_app in Hin.
    apply in_app_or in Hin. destruct Hin as [Hin|Hin].
    - apply (Hfresh k); [right; exact Hk | exact Hin].
    - simpl in Hin. destruct Hin as [<-|[]]. apply Hnotin. exact Hk. }
  exists raw', tw'. rewrite Hfold. rewrite <- app_assoc. reflexivity.
Qed.

Lemma loop_raw_scores_scored :
NoDup (dict_keys (weights self)) ->
loop_raw_scores self lead_data = scored lead_data (weights self).
Proof.
intro Hnd.
destruct (weigh_fold_scored (weights self) Hnd [] 0 0) as (raw & tw & Hfold).
{ intros k _ []. }
assert (Hloop : weigh_features self lead_data = (scored lead_data (weights self), raw, tw))
  by exact Hfold.
unfold loop_raw_scores. rewrite Hloop. reflexivity.
Qed.

Lemma dict_get_scored (ws : dict Config.weight_config) (feature : string) :
dict_get (scored lead_data ws) feature
= match dict_get ws feature with
  | Some wc => Some (if present lead_data feature then weight_of wc else 0)
  | None => None
  end.
Proof.
induction ws as [|[k wc] ws IH]; simpl; [reflexivity|].
destruct (k =? feature)%string eqn:E; [|exact IH].
apply String.eqb_eq in E. subst k. unfold points. reflexivity.
Qed.

End RawScores.

(** X3.  The [raw_scores] of a result have the keys of the configured
    weights, in their order; the entry of a feature is its weight (0 when the
    configuration gives none) when the lead's value for the feature is true,
    and 0 otherwise.  The keys of the weights are distinct, as those of a
    dictionary are. *)
Theorem raw_scores_per_feature (self : ConfigDrivenScoringEngine.t) (now : utc)
    (lead_data : dict value) (r : ScoringResult.t) :
  NoDup (dict_keys (weights self)) ->
  score self now lead_data = Ok r ->
  dict_keys (ScoringResult.raw_scores r) = dict_keys (weights self)
  /\ forall feature,
       dict_get (ScoringResult.raw_scores r) feature
       = match dict_get (weights self) feature with
         | Some weight_config =>
             Some (if truthy (get_default lead_data feature (VBool false))
                   then get_or (Config.weight weight_config) 0
                   else 0)
         | None => None
         end.
Proof.
  intros Hnd Hr. apply score_inv in Hr. destruct Hr as (rec & detail & _ & _ & ->).
  simpl. rewrite (loop_raw_scores_scored self lead_data Hnd).
  split; [apply scored_keys | intro feature; apply dict_get_scored].
Qed.

Lemma raw_scores_per_feature_witness :
  exists r,
    score Sample.engine Sample.now (LeadInput.model_dump Sample.five_days_ago) = Ok r
    /\ dict_keys (ScoringResult.raw_scores r) = dict_keys (weights Sample.engine)
    /\ dict_get (ScoringResult.raw_scores r) "demo_requested" = Some 30
    /\ dict_get (ScoringResult.raw_scores r) "registration" = Some 0
    /\ dict_get (ScoringResult.raw_scores r) "lead_through_call" = None.
Proof.
  eexists. split; [vm_compute; reflexivity|].
  assert (Hnd : NoDup (dict_keys (weights Sample.engine))).
  { simpl. repeat constructor; simpl; intuition discriminate. }
  destruct (raw_scores_per_feature Sample.engine Sample.now
              (LeadInput.model_dump Sample.five_days_ago) _ Hnd eq_refl) as [Hkeys Hget].
  split; [exact Hkeys|].
  split; [exact (Hget "demo_requested")|].
  split; [exact (Hget "registration") | exact (Hget "lead_through_call")].
Defined.

Section Listed.

Variable self : ConfigDrivenScoringEngine.t.

Lemma feature_contributions_features (tw : Q) (raw_items : list (string * Q))
  (l : list Contribution.t) :
feature_contributions self tw raw_items = Ok l ->
map Contribution.feature l = map fst (filter (fun kv => gt (snd kv) 0) raw_items).
Proof.
revert l. induction raw_items as [|[feature raw] rest IH]; simpl; intros l.
- intro H. inversion H. reflexivity.
- destruct (gt raw 0); [|apply IH].
  destruct (truediv raw tw) as [q|]; simpl; [|discriminate].
  destruct (feature_contributions self tw rest) as [l'|]; simpl; [|discriminate].
  intro H. inversion H. simpl. rewrite (IH l' eq_refl). reflexivity.
Qed.

Lemma recency_contribution_features (tw recency : Q) (l : list Contribution.t) :
recency_contribution self tw recency = Ok l ->
map Contribution.feature l = if gt recency 0 then ["recency"] else [].
Proof.
unfold recency_contribution. destruct (gt recency 0).
- destruct (truediv recency tw); simpl; [|discriminate]. intro H. inversion H. reflexivity.
- intro H. inversion H. reflexivity.
Qed.

End Listed.

(** X4.  A feature is among the contributions of a result exactly when its
    raw score is positive, and [recency] exactly when the recency score is
    positive: there is at most one contribution per raw score and one more
    for recency. *)
Theorem listed_iff_positive (self : ConfigDrivenScoringEngine.t) (now : utc)
    (lead_data : dict value) (r : ScoringResult.t) :
  score self now lead_data = Ok r ->
  (forall feature,
      In feature (map Contribution.feature (ScoringResult.contributions r))
      <-> (feature = "recency" /\ 0 < ScoringResult.recency_score r)
          \/ exists raw, In (feature, raw) (ScoringResult.raw_scores r) /\ 0 < raw)
  /\ (List.length (ScoringResult.contributions r)
      <= List.length (ScoringResult.raw_scores r) + 1)%nat.
Proof.
  intro Hr. apply score_inv in Hr. destruct Hr as (rec & detail & _ & Hdetail & ->).
  simpl. unfold contributions_detail, dict_items in Hdetail.
  destruct (feature_contributions _ _ _) as [fc|] eqn:Hfc; simpl in Hdetail; [|discriminate].
  destruct (recency_contribution _ _ _) as [rc|] eqn:Hrc; simpl in Hdetail; [|discriminate].
  inversion Hdetail as [Hd]. clear Hdetail.
  apply feature_contributions_features in Hfc. apply recency_contribution_features in Hrc.
  pose proof (sort_by_impact_desc_perm (fc ++ rc)) as Hperm.
  assert (Hfeatures : Permutation (map Contribution.feature (fc ++ rc))
                        (map Contribution.feature (sort_by_impact_desc (fc ++ rc))))
    by (apply Permutation_map; exact Hperm).
  split.
  - intro feature. split.
    + intro Hin. apply (Permutation_in _ (Permutation_sym Hfeatures)) in Hin.
      rewrite map_app in Hin. apply in_app_or in Hin. destruct Hin as [Hin|Hin].
      * right. rewrite Hfc in Hin. apply in_map_iff in Hin.
        destruct Hin as ([k raw] & Hk & Hin). simpl in Hk. subst k.
        apply filter_In in Hin. destruct Hin as [Hin Hgt]. simpl in Hgt.
        apply gt_true in Hgt. exists raw. split; assumption.
      * left. rewrite Hrc in Hin. destruct (gt rec 0) eqn:Hgt; [|destruct Hin].
        apply gt_true in Hgt. destruct Hin as [<-|[]]. split; [reflexivity | exact Hgt].
    + intro H. apply (Permutation_in _ Hfeatures). rewrite map_app. apply in_or_app.
      destruct H as [[-> Hpos]|(raw & Hin & Hpos)].
      * right. rewrite Hrc. apply gt_true in Hpos. rewrite Hpos. left. reflexivity.
      * left. rewrite Hfc. apply in_map_iff. exists (feature, raw). split; [reflexivity|].
        apply filter_In. split; [exact Hin|]. simpl. apply gt_true. exact Hpos.
  - rewrite <- (Permutation_length Hperm), length_app.
    rewrite <- (length_map Contribution.feature fc), <- (length_map Contribution.feature rc).
    rewrite Hfc, Hrc, length_map.
    pose proof (filter_length_le (fun kv : string * Q => gt (snd kv) 0)
                  (loop_raw_scores self lead_data)).
    destruct (gt rec 0); simpl; lia.
Qed.

Lemma listed_iff_positive_witness :
  exists r,
    score Sample.engine Sample.now (LeadInput.model_dump Sample.five_days_ago) = Ok r
    /\ In "pricing_compared" (map Contribution.feature (ScoringResult.contributions r))
    /\ ~ In "registration" (map Contribution.feature (ScoringResult.contributions r))
    /\ (List.length (ScoringResult.contributions r)
        <= List.length (ScoringResult.raw_scores r) + 1)%nat.
Proof.
  eexists. split; [vm_compute; reflexivity|].
  destruct (listed_iff_positive Sample.engine Sample.now
              (LeadInput.model_dump Sample.five_days_ago) _ eq_refl) as [Hiff Hlen].
  split; [|split; [|exact Hlen]].
  - apply Hiff. right. exists 15. split; [right; right; left; reflexivity | reflexivity].
  - intro Hin. apply Hiff in Hin. destruct Hin as [[Hne _]|(raw & Hin & Hpos)].
    + discriminate.
    + simpl in Hin. destruct Hin as [Hin|[Hin|[Hin|[]]]]; inversion Hin; subst raw.
      apply (Qlt_irrefl 0). exact Hpos.
Defined.

(** *** The explanation *)

Lemma confidence_range (self : ExplanationEngine.t) (now : utc) (score : Q)
    (contributions : list Contribution.t) (lead_data : option (dict value)) (c : Q) :
  ExplanationEngine._calculate_confidence self now score contributions lead_data = Ok c ->
  0 <= c <= 100.
Proof.
  unfold ExplanationEngine._calculate_confidence.
  match goal with |- (x <- ?m ;; _) = _ -> _ => destruct m as [recency|] end;
    simpl; [|discriminate].
  intro H. inversion H. apply clamp_range.
Qed.

Lemma explain_score_inv (self : ExplanationEngine.t) (now : utc) (score : Q)
    (contributions : list Contribution.t) (lead_data : option (dict value))
    (ex : Explanation.t) :
  ExplanationEngine.explain_score self now score contributions lead_data = Ok ex ->
  exists confidence,
    ExplanationEngine._calculate_confidence self now score contributions lead_data
    = Ok confidence
    /\ ex = {| Explanation.score := round1 score;
               Explanation.intent_level :=
                 ExplanationEngine._determine_intent_level self score;
               Explanation.feature_contributions :=
                 map (fun c => {| Contribution.feature := Contribution.feature c;
                                  Contribution.impact := round1 (Contribution.impact c);
                                  Contribution.reason := Contribution.reason c |})
                     (firstn 5 contributions);
               Explanation.confidence := round1 confidence |}.
Proof.
  unfold ExplanationEngine.explain_score.
  destruct (ExplanationEngine._calculate_confidence _ _ _ _ _) as [c|]; simpl; [|discriminate].
  intro H. inversion H. exists c. split; reflexivity.
Qed.

Lemma explanation_shows_top_five_core (self : ExplanationEngine.t) (now : utc) (score : Q)
    (contributions : list Contribution.t) (lead_data : option (dict value))
    (ex : Explanation.t) :
  ExplanationEngine.explain_score self now score contributions lead_data = Ok ex ->
  Explanation.intent_level ex = ExplanationEngine._determine_intent_level self score
  /\ 0 <= Explanation.confidence ex <= 100.
Proof.
  intro Hex. apply explain_score_inv in Hex. destruct Hex as (c & Hc & ->). simpl.
  split; [reflexivity|]. apply round1_percent. apply (confidence_range _ _ _ _ _ _ Hc).
Qed.

(** X5.  The explanation shows the first five of the contributions it is
    given, in their order, with their features and reasons as given and
    their impacts within 0.05 of the given ones (rounded to one decimal); the
    score shown is within 0.05 of the score, the tier is that of the score
    as given, not of the rounded one, and the confidence is within
    [0, 100]. *)
Theorem explanation_shows_top_five (self : ExplanationEngine.t) (now : utc) (score : Q)
    (contributions : list Contribution.t) (lead_data : option (dict value))
    (ex : Explanation.t) :
  ExplanationEngine.explain_score self now score contributions lead_data = Ok ex ->
  let shown := Explanation.feature_contributions ex in
  List.length shown = Nat.min 5 (List.length contributions)
  /\ map Contribution.feature shown = firstn 5 (map Contribution.feature contributions)
  /\ map Contribution.reason shown = firstn 5 (map Contribution.reason contributions)
  /\ Forall2 (fun c c' => shows (Contribution.impact c) (Contribution.impact c'))
       (firstn 5 contributions) shown
  /\ shows score (Explanation.score ex)
  /\ Explanation.intent_level ex = ExplanationEngine._determine_intent_level self score
  /\ 0 <= Explanation.confidence ex <= 100.
Proof.
  intros Hex shown. apply explain_score_inv in Hex. destruct Hex as (c & Hc & ->).
  unfold shown. cbn [Explanation.feature_contributions Explanation.score
                     Explanation.intent_level Explanation.confidence].
  split; [rewrite length_map, length_firstn; reflexivity|].
  split; [rewrite map_map, <- firstn_map; reflexivity|].
  split; [rewrite map_map, <- firstn_map; reflexivity|].
  split.
  { induction (firstn 5 contributions) as [|a l IH]; simpl; constructor.
    - simpl. apply round1_near.
    - exact IH. }
  split; [apply round1_near|]. split; [reflexivity|].
  apply round1_percent. apply (confidence_range _ _ _ _ _ _ Hc).
Qed.

Lemma explanation_shows_top_five_witness :
  exists ex,
    ExplanationEngine.explain_score Sample.explainer Sample.now (6889 # 100) Sample.six None
    = Ok ex
    /\ List.length (Explanation.feature_contributions ex) = 5%nat
    /\ map Contribution.feature (Explanation.feature_contributions ex)
       = ["demo_requested"; "registration"; "pricing_compared"; "lead_through_call";
          "lead_through_referral"]
    /\ shows (6889 # 100) (Explanation.score ex)
    /\ Explanation.intent_level ex = "Medium"
    /\ 0 <= Explanation.confidence ex <= 100.
Proof.
  destruct (ExplanationEngine.explain_score Sample.explainer Sample.now (6889 # 100)
              Sample.six None) as [ex|] eqn:Hex; [|vm_compute in Hex; discriminate].
  exists ex. split; [reflexivity|].
  destruct (explanation_shows_top_five Sample.explainer Sample.now (6889 # 100)
              Sample.six None ex Hex) as (Hlen & Hfeatures & _ & _ & Hscore & Hlevel & Hconf).
  split; [exact Hlen|]. split; [exact Hfeatures|]. split; [exact Hscore|].
  split; [exact Hlevel | exact Hconf].
Defined.

(** X6.  [_get_score_color] returns colour and label of the first band, in
    the order of the configuration, whose range from [min] to [max], ends
    included, holds the score; when no band holds it the result is the grey
    [Unknown]. *)
Theorem score_color_first_band (score_colors : dict ScoreColor.band) (score : Q) :
  let shown := ExplanationEngine._get_score_color score_colors score in
  (Forall (fun item => ~ in_band score (snd item)) score_colors
   /\ shown = ScoreColor.unknown)
  \/ exists before intent_type band after,
       score_colors = before ++ (intent_type, band) :: after
       /\ Forall (fun item => ~ in_band score (snd item)) before
       /\ in_band score band
       /\ shown = {| ScoreColor.shown_color := ScoreColor.color band;
                     ScoreColor.shown_label := ScoreColor.label band |}.
Proof.
  induction score_colors as [|[intent_type band] rest IH]; simpl.
  - left. split; [constructor | reflexivity].
  - destruct (ge score (ScoreColor.min band)) eqn:Emin;
      [destruct (ge (ScoreColor.max band) score) eqn:Emax|]; simpl.
    + apply ge_true in Emin, Emax. right. exists [], intent_type, band, rest.
      repeat split; try assumption. constructor.
    + apply ge_false in Emax.
      assert (Hout : ~ in_band score band) by (unfold in_band; lra).
      destruct IH as [[Hall ->]|(before & k & b & after & -> & Hbefore & Hin & ->)].
      * left. split; [constructor; assumption | reflexivity].
      * right. exists ((intent_type, band) :: before), k, b, after.
        repeat split; try apply Hin. constructor; assumption.
    + apply ge_false in Emin.
      assert (Hout : ~ in_band score band) by (unfold in_band; lra).
      destruct IH as [[Hall ->]|(before & k & b & after & -> & Hbefore & Hin & ->)].
      * left. split; [constructor; assumption | reflexivity].
      * right. exists ((intent_type, band) :: before), k, b, after.
        repeat split; try apply Hin. constructor; assumption.
Qed.

(** *** Recommendations *)

Lemma action_key_cases (score : Q) :
  (80 <= score /\ NextActionEngine._get_action_key score = "score_80_100")
  \/ (60 <= score < 80 /\ NextActionEngine._get_action_key score = "score_60_79")
  \/ (40 <= score < 60 /\ NextActionEngine._get_action_key score = "score_40_59")
  \/ (score < 40 /\ NextActionEngine._get_action_key score = "score_below_40").
Proof.
  unfold NextActionEngine._get_action_key.
  destruct (ge score 80) eqn:E80; [apply ge_true in E80; left; split; [lra | reflexivity]|].
  apply ge_false in E80. right.
  destruct (ge score 60) eqn:E60; [apply ge_true in E60; left; split; [lra | reflexivity]|].
  apply ge_false in E60. right.
  destruct (ge score 40) eqn:E40; [apply ge_true in E40; left; split; [lra | reflexivity]|].
  apply ge_false in E40. right. split; [lra | reflexivity].
Qed.

(** X7.  Two scores of one bracket get the same action, urgency, probability
    label, probability and bracket key (the rationale text, which quotes the
    score, is kept out).  Without an entry for the bracket in
    [recommended_actions] these are [No action], [Low] and [<20%]; without
    one in [conversion_probabilities] the probability is 0. *)
Theorem recommendation_by_bracket (self : NextActionEngine.t) (a b : Q) :
  ((80 <= a /\ 80 <= b) \/ (60 <= a < 80 /\ 60 <= b < 80)
   \/ (40 <= a < 60 /\ 40 <= b < 60) \/ (a < 40 /\ b < 40)) ->
  let for_a := NextActionEngine.get_action self a in
  let for_b := NextActionEngine.get_action self b in
  Recommendation.action for_a = Recommendation.action for_b
  /\ Recommendation.urgency for_a = Recommendation.urgency for_b
  /\ Recommendation.probability_label for_a = Recommendation.probability_label for_b
  /\ Recommendation.probability for_a = Recommendation.probability for_b
  /\ Recommendation.score_bracket for_a = Recommendation.score_bracket for_b
  /\ (dict_get (NextActionEngine.actions self) (NextActionEngine._get_action_key a) = None ->
      Recommendation.action for_a = "No action"
      /\ Recommendation.urgency for_a = "Low"
      /\ Recommendation.probability_label for_a = "<20%")
  /\ (dict_get (NextActionEngine.probabilities self) (NextActionEngine._get_action_key a)
      = None ->
      Recommendation.probability for_a = 0).
Proof.
  intros Hsame for_a for_b.
  assert (Hkey : NextActionEngine._get_action_key a = NextActionEngine._get_action_key b).
  { destruct (action_key_cases a) as [[Ha ->]|[[Ha ->]|[[Ha ->]|[Ha ->]]]];
    destruct (action_key_cases b) as [[Hb ->]|[[Hb ->]|[[Hb ->]|[Hb ->]]]];
      try reflexivity; exfalso; lra. }
  assert (Heq : for_a = for_b).
  { unfold for_a, for_b, NextActionEngine.get_action. rewrite Hkey. reflexivity. }
  rewrite <- Heq. do 5 (split; [reflexivity|]).
  unfold for_a, NextActionEngine.get_action, get_default. simpl. split.
  - intros ->. simpl. repeat split.
  - intros ->. reflexivity.
Qed.

Lemma recommendation_by_bracket_witness :
  Recommendation.action (NextActionEngine.get_action Sample.recommender 81)
  = Recommendation.action (NextActionEngine.get_action Sample.recommender 95)
  /\ Recommendation.action (NextActionEngine.get_action Sample.recommender 81)
     = "Immediate sales call"
  /\ Recommendation.probability (NextActionEngine.get_action Sample.recommender 81) = 0.
Proof.
  destruct (recommendation_by_bracket Sample.recommender 81 95)
    as (Haction & _ & _ & _ & _ & _ & Hprob).
  { left. split; discriminate. }
  split; [exact Haction|]. split; [reflexivity|]. apply Hprob. reflexivity.
Defined.

Lemma bulk_fold (self : NextActionEngine.t) (leads_scores : dict Q) :
  NoDup (dict_keys leads_scores) ->
  forall result : dict Recommendation.t,
    (forall k, In k (dict_keys leads_scores) -> ~ In k (dict_keys result)) ->
    fold_left (fun result '(lead_id, score) =>
                 dict_set result lead_id (NextActionEngine.get_action self score))
              leads_scores result
    = result ++ map (fun item => (fst item, NextActionEngine.get_action self (snd item)))
                    leads_scores.
Proof.
  induction leads_scores as [|[lead_id score] rest IH]; intros Hnd result Hfresh.
  - simpl. rewrite app_nil_r. reflexivity.
  - cbn [fold_left map fst snd]. inversion Hnd as [|? ? Hnotin Hnd']; subst.
    rewrite dict_set_fresh by (apply Hfresh; left; reflexivity).
    rewrite IH.
    + rewrite <- app_assoc. reflexivity.
    + exact Hnd'.
    + intros k Hk Hin. unfold dict_keys in Hin. rewrite map_app in Hin.
      apply in_app_or in Hin. destruct Hin as [Hin|Hin].
      * apply (Hfresh k); [right; exact Hk | exact Hin].
      * simpl in Hin. destruct Hin as [<-|[]]. apply Hnotin. exact Hk.
Qed.

(** X8.  [get_bulk_actions] returns one entry per lead identifier, in the
    order given, holding what [get_action] returns for that lead's score. *)
Theorem bulk_actions_per_lead (self : NextActionEngine.t) (leads_scores : dict Q) :
  NoDup (dict_keys leads_scores) ->
  dict_keys (NextActionEngine.get_bulk_actions self leads_scores) = dict_keys leads_scores
  /\ forall lead_id,
       dict_get (NextActionEngine.get_bulk_actions self leads_scores) lead_id
       = match dict_get leads_scores lead_id with
         | Some score => Some (NextActionEngine.get_action self score)
         | None => None
         end.
Proof.
  intro Hnd. unfold NextActionEngine.get_bulk_actions, dict_items.
  rewrite (bulk_fold self leads_scores Hnd []) by (intros k _ []).
  simpl. split.
  - unfold dict_keys. rewrite map_map. reflexivity.
  - intro lead_id. induction leads_scores as [|[k score] rest IH]; simpl; [reflexivity|].
    destruct (k =? lead_id)%string; [reflexivity|].
    apply IH. inversion Hnd; assumption.
Qed.

Lemma bulk_actions_per_lead_witness :
  dict_keys (NextActionEngine.get_bulk_actions Sample.recommender Sample.leads_scores)
  = ["lead-1"; "lead-2"; "lead-3"]
  /\ dict_get (NextActionEngine.get_bulk_actions Sample.recommender Sample.leads_scores)
       "lead-2"
     = Some (NextActionEngine.get_action Sample.recommender (6889 # 100))
  /\ dict_get (NextActionEngine.get_bulk_actions Sample.recommender Sample.leads_scores)
       "lead-9"
     = None.
Proof.
  assert (Hnd : NoDup (dict_keys Sample.leads_scores)).
  { simpl. repeat constructor; simpl; intuition discriminate. }
  destruct (bulk_actions_per_lead Sample.recommender Sample.leads_scores Hnd)
    as [Hkeys Hget].
  split; [exact Hkeys|]. split; [exact (Hget "lead-2") | exact (Hget "lead-9")].
Defined.

(** *** The table under [score_lead] *)

Section Table.

Variable json_dumps : list Contribution.t -> string.
Variable self : LeadService.t.

Lemma has_email_true (e : string) (lead : Lead.t) :
Lead.has_email e lead = true <-> Lead.email lead = VStr e.
Proof.
unfold Lead.has_email. destruct (Lead.email lead) as [| b | s | d]; split; intro H;
  try discriminate.
- apply String.eqb_eq in H. subst s. reflexivity.
- inversion H. apply String.eqb_refl.
Qed.

Lemma first_by_email_none (db : Session.t) (e : string) :
Session.first_by_email db e = None ->
Forall (fun lead => Lead.has_email e lead = false) (Session.rows db).
Proof.
unfold Session.first_by_email. intro H. apply Forall_forall. intros lead Hin.
apply (find_none _ _ H lead Hin).
Qed.

Lemma first_by_email_some (db : Session.t) (e : string) (lead : Lead.t) :
Session.first_by_email db e = Some lead ->
In lead (Session.rows db) /\ Lead.email lead = VStr e.
Proof.
unfold Session.first_by_email. intro H. apply find_some in H.
destruct H as [Hin He]. split; [exact Hin | apply has_email_true; exact He].
Qed.

Lemma rewrite_first_columns {A : Type} (column : Lead.t -> A) (e : string)
  (old lead : Lead.t) (l : list Lead.t) :
find (Lead.has_email e) l = Some old ->
column lead = column old ->
map column (Session.rewrite_first e lead l) = map column l.
Proof.
intros Hfind Hsame. induction l as [|r l IH]; simpl in *; [reflexivity|].
destruct (Lead.has_email e r).
- inversion Hfind; subst r. simpl. rewrite Hsame. reflexivity.
- simpl. rewrite IH; [reflexivity | exact Hfind].
Qed.

Lemma rewrite_first_others (e : string) (lead : Lead.t) (l : list Lead.t) :
Lead.has_email e lead = true ->
others e (Session.rewrite_first e lead l) = others e l.
Proof.
intro Hlead. unfold others. induction l as [|r l IH]; simpl; [reflexivity|].
destruct (Lead.has_email e r) eqn:Hr; simpl.
- rewrite Hlead. reflexivity.
- rewrite Hr. simpl. rewrite IH. reflexivity.
Qed.

(** What a successful call wrote, in terms of the engines' results. *)
Lemma score_lead_ok (clock : Clock.t) (db db' : Session.t) (lead_data : LeadInput.t)
  (stored : Lead.t) :
LeadService.score_lead json_dumps self clock db lead_data = (Ok stored, db') ->
exists r ex,
  score (LeadService.scoring_engine self) (Clock.scoring clock)
    (LeadInput.model_dump lead_data) = Ok r
  /\ ExplanationEngine.explain_score (LeadService.explanation_engine self)
       (Clock.explaining clock) (ScoringResult.score r) (ScoringResult.contributions r)
       (Some (LeadInput.model_dump lead_data)) = Ok ex
  /\ Lead.email stored = VStr (LeadInput.email lead_data)
  /\ Lead.score stored = ScoringResult.score r
  /\ Lead.intent_level stored = Explanation.intent_level ex
  /\ Lead.confidence stored = Explanation.confidence ex
  /\ Lead.recommended_action stored
     = Recommendation.action
         (NextActionEngine.get_action (LeadService.action_engine self)
            (ScoringResult.score r))
  /\ Lead.feature_contributions stored = json_dumps (ScoringResult.contributions r)
  /\ Lead.updated_at stored = Clock.writing clock
  /\ match Session.first_by_email db (LeadInput.email lead_data) with
     | Some old =>
         Lead.id stored = Lead.id old
         /\ Lead.created_at stored = Lead.created_at old
         /\ db' = Session.update db (LeadInput.email lead_data) stored
     | None =>
         Lead.id stored = Session.next_id db
         /\ Lead.created_at stored = Clock.writing clock
         /\ db' = Session.add db stored
     end.
Proof.
unfold LeadService.score_lead.
destruct (score _ _ _) as [r|] eqn:Hr; [|discriminate].
destruct (ExplanationEngine.explain_score _ _ _ _ _) as [ex|] eqn:Hex; [|discriminate].
destruct (Session.first_by_email db (LeadInput.email lead_data)) as [old|];
  intro H; inversion H; subst; clear H; exists r, ex; simpl;
  (split; [reflexivity|]); (split; [exact Hex|]);
  repeat (split; [reflexivity|]); repeat split; reflexivity.
Qed.

Lemma score_lead_raise (clock : Clock.t) (db db' : Session.t) (lead_data : LeadInput.t)
  (e : exn) :
LeadService.score_lead json_dumps self clock db lead_data = (Raise e, db') -> db' = db.
Proof.
unfold LeadService.score_lead.
destruct (score _ _ _) as [r|]; [|intro H; inversion H; reflexivity].
destruct (ExplanationEngine.explain_score _ _ _ _ _) as [ex|];
  [|intro H; inversion H; reflexivity].
destruct (Session.first_by_email db (LeadInput.email lead_data)); discriminate.
Qed.

End Table.

Section Invariants.

Variable json_dumps : list Contribution.t -> string.
Variable self : LeadService.t.
Variable clock : Clock.t.
Variable db : Session.t.
Variable lead_data : LeadInput.t.

Lemma score_lead_unique_emails :
unique_emails db ->
unique_emails (snd (LeadService.score_lead json_dumps self clock db lead_data)).
Proof.
intro Hemails.
destruct (LeadService.score_lead json_dumps self clock db lead_data) as [[stored|e] db1]
  eqn:Hcall; simpl.
- apply score_lead_ok in Hcall.
  destruct Hcall as (r & ex & _ & _ & Hemail & _ & _ & _ & _ & _ & _ & Hpath).
  destruct (Session.first_by_email db (LeadInput.email lead_data)) as [old|] eqn:Hfind;
    destruct Hpath as (_ & _ & ->); unfold unique_emails; simpl.
  + pose proof (first_by_email_some _ _ _ Hfind) as [_ Hold].
    rewrite (rewrite_first_columns Lead.email _ old stored _ Hfind)
      by (rewrite Hemail, Hold; reflexivity).
    exact Hemails.
  + pose proof (first_by_email_none _ _ Hfind) as Hnone.
    rewrite map_app. simpl.
    apply NoDup_app; [exact Hemails | repeat constructor; intros [] |].
    intros v Hv [<-|[]]. apply in_map_iff in Hv. destruct Hv as (lead & Hlead & Hin).
    rewrite Forall_forall in Hnone. specialize (Hnone lead Hin).
    rewrite Hemail in Hlead. apply has_email_true in Hlead. congruence.
- apply score_lead_raise in Hcall. subst db1. exact Hemails.
Qed.

Lemma score_lead_fresh_ids :
fresh_ids db ->
fresh_ids (snd (LeadService.score_lead json_dumps self clock db lead_data))
/\ (Session.next_id db
    <= Session.next_id (snd (LeadService.score_lead json_dumps self clock db lead_data)))%Z.
Proof.
intros [Hids Hbelow].
destruct (LeadService.score_lead json_dumps self clock db lead_data) as [[stored|e] db1]
  eqn:Hcall; simpl.
- apply score_lead_ok in Hcall.
  destruct Hcall as (r & ex & _ & _ & _ & _ & _ & _ & _ & _ & _ & Hpath).
  destruct (Session.first_by_email db (LeadInput.email lead_data)) as [old|] eqn:Hfind;
    destruct Hpath as (Hid & _ & ->); unfold fresh_ids; simpl.
  + rewrite (rewrite_first_columns Lead.id _ old stored _ Hfind Hid).
    split; [|lia]. split; [exact Hids|].
    rewrite Forall_forall in *. intros lead Hin.
    assert (Hin' : In (Lead.id lead) (map Lead.id (Session.rows db))).
    { rewrite <- (rewrite_first_columns Lead.id _ old stored _ Hfind Hid).
      apply in_map. exact Hin. }
    apply in_map_iff in Hin'. destruct Hin' as (lead' & <- & Hlead').
    apply Hbelow. exact Hlead'.
  + rewrite map_app. simpl. split; [split|lia].
    * apply NoDup_app; [exact Hids | repeat constructor; intros [] |].
      intros v Hv [<-|[]]. apply in_map_iff in Hv. destruct Hv as (lead & Hlead & Hin).
      rewrite Forall_forall in Hbelow. specialize (Hbelow lead Hin). lia.
    * apply Forall_app. split.
      -- eapply Forall_impl; [|exact Hbelow]. simpl. intros lead Hlt. lia.
      -- constructor; [lia | constructor].
- apply score_lead_raise in Hcall. subst db1. split; [split; assumption | lia].
Qed.

End Invariants.

(** X9.  Whatever its outcome, [score_lead] keeps a table with at most one
    row per email and with distinct primary keys below the next key to be
    given; the next key never goes down. *)
Theorem score_lead_keeps_table_invariants (json_dumps : list Contribution.t -> string)
    (self : LeadService.t) (clock : Clock.t) (db : Session.t) (lead_data : LeadInput.t) :
  unique_emails db ->
  fresh_ids db ->
  let db' := snd (LeadService.score_lead json_dumps self clock db lead_data) in
  unique_emails db' /\ fresh_ids db'
  /\ (Session.next_id db <= Session.next_id db')%Z.
Proof.
  intros Hemails Hids db'. split; [apply score_lead_unique_emails; exact Hemails|].
  apply score_lead_fresh_ids. exact Hids.
Qed.

Lemma score_lead_keeps_table_invariants_witness :
  let db1 :=
    snd (LeadService.score_lead Sample.feature_names Sample.service Sample.clock
           Session.empty Sample.five_days_ago) in
  let db2 :=
    snd (LeadService.score_lead Sample.feature_names Sample.service Sample.clock
           db1 Sample.keen) in
  unique_emails db2 /\ fresh_ids db2 /\ (Session.next_id db1 <= Session.next_id db2)%Z.
Proof.
  apply (score_lead_keeps_table_invariants Sample.feature_names Sample.service
           Sample.clock).
  - apply (score_lead_keeps_table_invariants Sample.feature_names Sample.service
             Sample.clock Session.empty Sample.five_days_ago).
    + constructor.
    + split; constructor.
  - apply (score_lead_keeps_table_invariants Sample.feature_names Sample.service
             Sample.clock Session.empty Sample.five_days_ago).
    + constructor.
    + split; constructor.
Defined.

(** X10.  [score_lead] leaves the rows of the other emails as they are and
    in their order.  When it raises, the session is as before; when it
    returns, the table has as many rows as before if the email was stored,
    and the returned row appended to it if not. *)
Theorem score_lead_leaves_other_leads (json_dumps : list Contribution.t -> string)
    (self : LeadService.t) (clock : Clock.t) (db : Session.t) (lead_data : LeadInput.t) :
  let outcome := LeadService.score_lead json_dumps self clock db lead_data in
  let e := LeadInput.email lead_data in
  others e (Session.rows (snd outcome)) = others e (Session.rows db)
  /\ match fst outcome with
     | Raise _ => snd outcome = db
     | Ok stored =>
         match Session.first_by_email db e with
         | Some _ => List.length (Session.rows (snd outcome)) = List.length (Session.rows db)
         | None => Session.rows (snd outcome) = Session.rows db ++ [stored]
         end
     end.
Proof.
  intros outcome e. unfold outcome.
  destruct (LeadService.score_lead json_dumps self clock db lead_data) as [[stored|ex] db']
    eqn:Hcall; simpl.
  - apply score_lead_ok in Hcall.
    destruct Hcall as (r & x & _ & _ & Hemail & _ & _ & _ & _ & _ & _ & Hpath).
    fold e in Hpath, Hemail. apply has_email_true in Hemail.
    destruct (Session.first_by_email db e) as [old|]; destruct Hpath as (_ & _ & ->); simpl.
    + split; [apply rewrite_first_others; exact Hemail | apply rewrite_first_length].
    + split; [|reflexivity]. unfold others. rewrite filter_app. simpl.
      rewrite Hemail. simpl. apply app_nil_r.
  - apply score_lead_raise in Hcall. subst db'. split; reflexivity.
Qed.

(** X11.  The row [score_lead] returns is consistent: its tier is that of
    its score under the explanation engine's thresholds, its recommended
    action is that of its score's bracket, its confidence is within [0, 100],
    its [updated_at] is the time of writing, and its score and serialized
    contributions are those of [score] on the payload. *)
Theorem stored_row_is_consistent (json_dumps : list Contribution.t -> string)
    (self : LeadService.t) (clock : Clock.t) (db db' : Session.t)
    (lead_data : LeadInput.t) (stored : Lead.t) :
  LeadService.score_lead json_dumps self clock db lead_data = (Ok stored, db') ->
  Lead.intent_level stored
  = ExplanationEngine._determine_intent_level (LeadService.explanation_engine self)
      (Lead.score stored)
  /\ Lead.recommended_action stored
     = Recommendation.action
         (NextActionEngine.get_action (LeadService.action_engine self) (Lead.score stored))
  /\ 0 <= Lead.confidence stored <= 100
  /\ Lead.updated_at stored = Clock.writing clock
  /\ exists r,
       score (LeadService.scoring_engine self) (Clock.scoring clock)
         (LeadInput.model_dump lead_data) = Ok r
       /\ Lead.score stored = ScoringResult.score r
       /\ Lead.feature_contributions stored = json_dumps (ScoringResult.contributions r).
Proof.
  intro Hcall. apply score_lead_ok in Hcall.
  destruct Hcall as (r & ex & Hr & Hex & _ & Hscore & Hlevel & Hconf & Haction & Hjson
                     & Hupdated & _).
  destruct (explanation_shows_top_five_core _ _ _ _ _ _ Hex) as [Hl Hc].
  rewrite Hlevel, Hconf, Haction, Hscore.
  split; [exact Hl|]. split; [reflexivity|]. split; [exact Hc|]. split; [exact Hupdated|].
  exists r. split; [exact Hr|]. split; [reflexivity | exact Hjson].
Qed.

Lemma stored_row_is_consistent_witness :
  exists stored db',
    LeadService.score_lead Sample.feature_names Sample.service Sample.clock
      Session.empty Sample.five_days_ago = (Ok stored, db')
    /\ Lead.intent_level stored = "Medium"
    /\ Lead.intent_level stored
       = ExplanationEngine._determine_intent_level Sample.explainer (Lead.score stored)
    /\ Lead.recommended_action stored = "Pricing + Follow-up"
    /\ 0 <= Lead.confidence stored <= 100.
Proof.
  eexists. eexists. split; [vm_compute; reflexivity|].
  destruct (stored_row_is_consistent Sample.feature_names Sample.service Sample.clock
              Session.empty _ Sample.five_days_ago _ eq_refl)
    as (Hlevel & _ & Hconf & _).
  split; [reflexivity|]. split; [exact Hlevel|]. split; [reflexivity | exact Hconf].
Defined.

Section ResponseBuilding.

Variable json_dumps : list Contribution.t -> string.
Variable self : LeadService.t.



Lemma validated_some (l l' : list Contribution.t) :
LeadService.validated l = Some l' -> l' = l.
Proof.
revert l'. induction l as [|c l IH]; simpl; intros l' Hv.
- inversion Hv. reflexivity.
- unfold Schemas.FeatureContribution in Hv.
  destruct (Schemas.percent (Contribution.impact c)); [|discriminate].
  destruct (LeadService.validated l) as [l''|]; [|discriminate].
  inversion Hv. rewrite (IH l'' eq_refl). destruct c; reflexivity.
Qed.

Lemma build_response_lead (lead_model : Lead.t) (ex : Explanation.t)
  (action : Recommendation.t) (response : Response.t) :
LeadService.build_response lead_model ex action = Some response ->
Response.lead response = lead_model
/\ Response.action response = action
/\ Schemas.score (Response.explanation response) = Explanation.score ex
/\ Schemas.confidence (Response.explanation response) = Explanation.confidence ex
/\ Schemas.intent_level (Response.explanation response) = Explanation.intent_level ex
/\ Schemas.feature_contributions (Response.explanation response)
   = Explanation.feature_contributions ex
/\ Schemas.recommended_action (Response.explanation response)
   = Recommendation.action action.
Proof.
unfold LeadService.build_response.
destruct (LeadService.validated _) as [fcs|] eqn:Hv; [|discriminate].
apply validated_some in Hv. subst fcs.
unfold Schemas.new_ScoreExplanation.
destruct (Schemas.percent _ && Schemas.percent _); [|discriminate].
intro H. inversion H. simpl. repeat (split; [reflexivity|]). reflexivity.
Qed.

End ResponseBuilding.

(** X12.  [score_lead] as a whole leaves the session as its write left it.
    A response holds the row written and shows its score rounded to one
    decimal; an exception of an engine leaves the session untouched; and
    when the response does not validate, the row is stored all the same. *)
Theorem response_comes_after_the_write (json_dumps : list Contribution.t -> string)
    (self : LeadService.t) (clock : Clock.t) (db : Session.t) (lead_data : LeadInput.t) :
  let written := LeadService.score_lead json_dumps self clock db lead_data in
  let answered := LeadService.score_lead_response json_dumps self clock db lead_data in
  snd answered = snd written
  /\ match fst answered with
     | Response.Responded response =>
         fst written = Ok (Response.lead response)
         /\ Schemas.score (Response.explanation response)
            = round1 (Lead.score (Response.lead response))
     | Response.Failed e => fst written = Raise e /\ snd answered = db
     | Response.Invalid =>
         exists stored,
           fst written = Ok stored
           /\ Session.first_by_email (snd answered) (LeadInput.email lead_data)
              = Some stored
     end.
Proof.
  intros written answered. unfold answered, LeadService.score_lead_response.
  destruct (score _ _ _) as [r|e] eqn:Hr.
  - destruct (ExplanationEngine.explain_score _ _ _ _ _) as [ex|e] eqn:Hex.
    + unfold written.
      destruct (LeadService.score_lead json_dumps self clock db lead_data)
        as [[stored|e] db'] eqn:Hcall.
      * destruct (LeadService.build_response stored ex _) as [response|] eqn:Hb; simpl.
        -- split; [reflexivity|].
           destruct (build_response_lead _ _ _ _ Hb) as (-> & _ & -> & _).
           split; [reflexivity|].
           pose proof (score_lead_ok _ _ _ _ _ _ _ Hcall)
             as (r' & ex' & Hr' & Hex' & _ & -> & _).
           rewrite Hr in Hr'. inversion Hr'; subst r'.
           apply explain_score_inv in Hex. destruct Hex as (c & _ & ->). reflexivity.
        -- split; [reflexivity|]. exists stored. split; [reflexivity|].
           apply (score_lead_stored json_dumps self clock db db lead_data stored db' Hcall).
      * simpl. split; [reflexivity|]. split; [reflexivity|].
        apply (score_lead_raise _ _ _ _ _ _ _ Hcall).
    + unfold written, LeadService.score_lead. rewrite Hr, Hex. simpl. repeat split.
  - unfold written, LeadService.score_lead. rewrite Hr. simpl. repeat split.
Qed.

Lemma Forall_firstn {A : Type} (P : A -> Prop) (n : nat) (l : list A) :
  Forall P l -> Forall P (firstn n l).
Proof.
  intro H. revert n. induction H as [|a l Ha _ IH]; intros [|n]; simpl; constructor.
  - exact Ha.
  - apply IH.
Qed.





(** An enquiry 3000 days ahead of the clock: the recency impact shown is far
    above 100, the response schema refuses it, and the row is in the table. *)
Example invalid_after_the_write :
  exists db' stored,
    LeadService.score_lead_response Sample.feature_names Sample.service Sample.clock
      Session.empty Sample.far_ahead = (Response.Invalid, db')
    /\ Session.first_by_email db' (LeadInput.email Sample.far_ahead) = Some stored
    /\ Lead.score stored == 100.
Proof.
  eexists. eexists. split; [vm_compute; reflexivity|]. split; reflexivity.
Qed.

(** *** Reading leads back *)

Lemma find_by_id (lead : Lead.t) (l : list Lead.t) :
  NoDup (map Lead.id l) -> In lead l ->
  find (fun row => (Lead.id row =? Lead.id lead)%Z) l = Some lead.
Proof.
  induction l as [|row l IH]; simpl; intros Hnd Hin; [destruct Hin|].
  inversion Hnd as [|? ? Hnotin Hnd']; subst.
  destruct Hin as [->|Hin].
  - rewrite Z.eqb_refl. reflexivity.
  - destruct (Lead.id row =? Lead.id lead)%Z eqn:E; [|apply IH; assumption].
    apply Z.eqb_eq in E. exfalso. apply Hnotin. rewrite E. apply in_map. exact Hin.
Qed.

(** X14.  After [score_lead] stored a row in a table with distinct primary
    keys, [get_lead] on the row's id returns that row: the email of the
    payload, the score of [score], the stored tier, confidence and action,
    and the contributions decoded from the stored text (the empty list for
    an empty text).  An id that is not in the table gets [None]. *)
Theorem get_lead_returns_the_stored_row (json_dumps : list Contribution.t -> string)
    (json_loads : string -> list Contribution.t)
    (self : LeadService.t) (clock : Clock.t) (db db' : Session.t)
    (lead_data : LeadInput.t) (stored : Lead.t) :
  fresh_ids db ->
  LeadService.score_lead json_dumps self clock db lead_data = (Ok stored, db') ->
  (exists detail r,
      LeadService.get_lead json_loads db' (Lead.id stored) = Some detail
      /\ score (LeadService.scoring_engine self) (Clock.scoring clock)
           (LeadInput.model_dump lead_data) = Ok r
      /\ LeadDetail.email detail = VStr (LeadInput.email lead_data)
      /\ LeadDetail.score detail = ScoringResult.score r
      /\ LeadDetail.intent_level detail = Lead.intent_level stored
      /\ LeadDetail.confidence detail = Lead.confidence stored
      /\ LeadDetail.recommended_action detail = Lead.recommended_action stored
      /\ LeadDetail.feature_contributions detail
         = if (json_dumps (ScoringResult.contributions r) =? "")%string
           then []
           else json_loads (json_dumps (ScoringResult.contributions r)))
  /\ forall lead_id,
       ~ In lead_id (map Lead.id (Session.rows db')) ->
       LeadService.get_lead json_loads db' lead_id = None.
Proof.
  intros Hids Hcall. split.
  - pose proof (score_lead_fresh_ids json_dumps self clock db lead_data Hids) as [[Hnd _] _].
    rewrite Hcall in Hnd. simpl in Hnd.
    pose proof (score_lead_stored json_dumps self clock db db lead_data stored db' Hcall)
      as [Hfound _].
    apply first_by_email_some in Hfound. destruct Hfound as [Hin _].
    pose proof (score_lead_ok _ _ _ _ _ _ _ Hcall)
      as (r & ex & Hr & _ & Hemail & Hscore & _ & _ & _ & Hjson & _).
    unfold LeadService.get_lead. rewrite (find_by_id stored _ Hnd Hin).
    eexists. exists r. split; [reflexivity|]. split; [exact Hr|]. simpl.
    rewrite Hjson. repeat (split; [assumption || reflexivity|]). reflexivity.
  - intros lead_id Hnotin. unfold LeadService.get_lead.
    destruct (find _ (Session.rows db')) as [lead|] eqn:Hfind; [|reflexivity].
    apply find_some in Hfind. destruct Hfind as [Hin Hid]. apply Z.eqb_eq in Hid.
    exfalso. apply Hnotin. rewrite <- Hid. apply in_map. exact Hin.
Qed.

Lemma get_lead_returns_the_stored_row_witness :
  exists detail,
    LeadService.get_lead Sample.named
      (snd (LeadService.score_lead Sample.feature_names Sample.service Sample.clock
              Session.empty Sample.five_days_ago)) 1 = Some detail
    /\ LeadDetail.email detail = VStr "ada@example.com"
    /\ LeadDetail.intent_level detail = "Medium"
    /\ LeadService.get_lead Sample.named
         (snd (LeadService.score_lead Sample.feature_names Sample.service Sample.clock
                 Session.empty Sample.five_days_ago)) 2 = None.
Proof.
  destruct (LeadService.score_lead Sample.feature_names Sample.service Sample.clock
              Session.empty Sample.five_days_ago) as [[stored|e] db'] eqn:Hcall;
    [|vm_compute in Hcall; discriminate].
  assert (Hids : fresh_ids Session.empty) by (split; constructor).
  destruct (get_lead_returns_the_stored_row Sample.feature_names Sample.named
              Sample.service Sample.clock Session.empty db' Sample.five_days_ago stored
              Hids Hcall) as [(detail & r & Hget & _ & Hemail & _ & Hlevel & _) Hnone].
  assert (Hstored : (Ok stored, db')
                    = LeadService.score_lead Sample.feature_names Sample.service
                        Sample.clock Session.empty Sample.five_days_ago)
    by (symmetry; exact Hcall).
  vm_compute in Hstored. inversion Hstored; subst stored db'. clear Hstored.
  exists detail. split; [exact Hget|]. split; [exact Hemail|].
  split; [rewrite Hlevel; reflexivity|].
  apply Hnone. simpl. intros [H|[]]. discriminate.
Defined.

Section SampleOrder.

Variable column : Lead.t -> Q.

Lemma insert_desc_perm (lead : Lead.t) (l : list Lead.t) :
Permutation (lead :: l) (Sample.insert_desc column lead l).
Proof.
induction l as [|lead' l IH]; simpl; [apply Permutation_refl|].
destruct (gt (column lead') (column lead)).
- apply perm_trans with (lead' :: lead :: l); [apply perm_swap|].
  apply perm_skip. exact IH.
- apply Permutation_refl.
Qed.

Lemma sort_desc_perm (l : list Lead.t) : Permutation l (Sample.sort_desc column l).
Proof.
induction l as [|lead l IH]; simpl; [apply perm_nil|].
apply perm_trans with (lead :: Sample.sort_desc column l).
- apply perm_skip. exact IH.
- apply insert_desc_perm.
Qed.

Lemma sort_desc_sorted (l : list Lead.t) :
StronglySorted (descending column) (Sample.sort_desc column l).
Proof.
induction l as [|lead l IH]; simpl; [constructor|].
induction IH as [|lead' l' Hl' IH' Hall]; simpl.
- constructor; constructor.
- destruct (gt (column lead') (column lead)) eqn:E.
  + apply gt_true in E. constructor; [exact IH'|].
    apply (Permutation_Forall (insert_desc_perm lead l')).
    constructor; [unfold descending; lra | exact Hall].
  + apply gt_false in E. constructor; [constructor; assumption|].
    constructor; [exact E|].
    eapply Forall_impl; [|exact Hall]. unfold descending. intros a Ha. lra.
Qed.

End SampleOrder.

Section Listing.

Variable order_by_desc : (Lead.t -> Q) -> list Lead.t -> list Lead.t.

Hypothesis order_by_desc_perm :
forall column l, Permutation l (order_by_desc column l).
Hypothesis order_by_desc_sorted :
forall column l, StronglySorted (descending column) (order_by_desc column l).

Lemma StronglySorted_skipn {A : Type} (R : A -> A -> Prop) (n : nat) (l : list A) :
StronglySorted R l -> StronglySorted R (skipn n l).
Proof.
intro H. revert n. induction H as [|a l Hl IH Ha]; intros [|n]; simpl.
- constructor.
- constructor.
- constructor; assumption.
- apply IH.
Qed.

Lemma StronglySorted_firstn {A : Type} (R : A -> A -> Prop) (n : nat) (l : list A) :
StronglySorted R l -> StronglySorted R (firstn n l).
Proof.
intro H. revert n. induction H as [|a l Hl IH Ha]; intros [|n]; simpl.
- constructor.
- constructor.
- constructor.
- constructor; [apply IH | apply Forall_firstn; exact Ha].
Qed.

Lemma StronglySorted_map {A B : Type} (R : A -> A -> Prop) (S : B -> B -> Prop)
  (f : A -> B) (l : list A) :
(forall a b, R a b -> S (f a) (f b)) ->
StronglySorted R l -> StronglySorted S (map f l).
Proof.
intros Hf H. induction H as [|a l Hl IH Ha]; simpl; constructor; [exact IH|].
apply Forall_map. eapply Forall_impl; [|exact Ha]. intros b Hb. apply Hf. exact Hb.
Qed.

Lemma in_firstn {A : Type} (n : nat) (l : list A) (a : A) : In a (firstn n l) -> In a l.
Proof.
intro H. rewrite <- (firstn_skipn n l). apply in_or_app. left. exact H.
Qed.

Lemma in_skipn {A : Type} (n : nat) (l : list A) (a : A) : In a (skipn n l) -> In a l.
Proof.
intro H. rewrite <- (firstn_skipn n l). apply in_or_app. right. exact H.
Qed.

(** The rows [list_leads] pages through. *)
Lemma list_leads_shape (db : Session.t) (skip limit : nat) (sort_by : string)
  (intent_filter : option string) :
exists ordered,
  LeadService.list_leads order_by_desc db skip limit sort_by intent_filter
  = (map LeadService.list_item (firstn limit (skipn skip ordered)),
     List.length (matching intent_filter (Session.rows db)))
  /\ Permutation (matching intent_filter (Session.rows db)) ordered
  /\ ((sort_by = "score")%string -> StronglySorted (descending Lead.score) ordered).
Proof.
unfold LeadService.list_leads.
assert (Hq : match intent_filter with
             | Some intent =>
                 if (intent =? "")%string then Session.rows db
                 else LeadService.with_intent intent (Session.rows db)
             | None => Session.rows db
             end = matching intent_filter (Session.rows db)) by reflexivity.
rewrite Hq. set (query := matching intent_filter (Session.rows db)).
destruct (sort_by =? "score")%string eqn:Escore.
- exists (order_by_desc Lead.score query). split; [reflexivity|].
  split; [apply order_by_desc_perm | intros _; apply order_by_desc_sorted].
- destruct (sort_by =? "created_at")%string.
  + eexists. split; [reflexivity|]. split; [apply order_by_desc_perm|].
    intros ->. discriminate.
  + exists query. split; [reflexivity|]. split; [apply Permutation_refl|].
    intros ->. discriminate.
Qed.

End Listing.

(** X15.  [list_leads] returns as total the number of rows that match the
    intent filter (all rows without a filter or with an empty one) and a
    page of [min(limit, total - skip)] items, each made from a matching row;
    sorted by score, the page is in descending order of score.  The
    database's [ORDER BY ... DESC] is taken to return the rows it is given,
    in descending order of the column. *)
Theorem list_leads_page (order_by_desc : (Lead.t -> Q) -> list Lead.t -> list Lead.t)
    (db : Session.t) (skip limit : nat) (sort_by : string)
    (intent_filter : option string) :
  (forall column l, Permutation l (order_by_desc column l)) ->
  (forall column l, StronglySorted (descending column) (order_by_desc column l)) ->
  let listing := LeadService.list_leads order_by_desc db skip limit sort_by intent_filter in
  snd listing = List.length (matching intent_filter (Session.rows db))
  /\ List.length (fst listing) = Nat.min limit (snd listing - skip)
  /\ (forall item, In item (fst listing) ->
      exists lead,
        In lead (matching intent_filter (Session.rows db))
        /\ item = LeadService.list_item lead)
  /\ ((sort_by = "score")%string ->
      StronglySorted (descending LeadListItem.score) (fst listing)).
Proof.
  intros Hperm Hsorted listing. unfold listing.
  destruct (list_leads_shape order_by_desc Hperm Hsorted db skip limit sort_by intent_filter)
    as (ordered & -> & Hp & Hs).
  simpl. split; [reflexivity|]. split.
  - rewrite length_map, length_firstn, length_skipn, (Permutation_length Hp). reflexivity.
  - split.
    + intros item Hin. apply in_map_iff in Hin. destruct Hin as (lead & <- & Hin).
      exists lead. split; [|reflexivity].
      apply (Permutation_in _ (Permutation_sym Hp)).
      apply in_firstn in Hin. apply in_skipn in Hin. exact Hin.
    + intro Hscore. apply (StronglySorted_map (descending Lead.score)).
      * intros a b Hab. exact Hab.
      * apply StronglySorted_firstn. apply StronglySorted_skipn. apply Hs. exact Hscore.
Qed.

Lemma list_leads_page_witness :
  let listing := LeadService.list_leads Sample.sort_desc Sample.two_leads 0 1 "score" None in
  snd listing = 2%nat
  /\ List.length (fst listing) = 1%nat
  /\ map LeadListItem.email (fst listing) = [VStr "kim@example.com"]
  /\ StronglySorted (descending LeadListItem.score) (fst listing).
Proof.
  destruct (list_leads_page Sample.sort_desc Sample.two_leads 0 1 "score" None
              sort_desc_perm sort_desc_sorted) as (Htotal & Hlen & _ & Hsorted).
  split; [exact Htotal|]. split; [exact Hlen|]. split; [vm_compute; reflexivity|].
  apply Hsorted. reflexivity.
Defined.

(** *** Analytics *)

Section AnalyticsBounds.

Lemma tiers_partition (rows : list Lead.t) :
(List.length (LeadService.with_intent "High" rows)
 + List.length (LeadService.with_intent "Medium" rows)
 + List.length (LeadService.with_intent "Low" rows) <= List.length rows)%nat
/\ (Forall tiered rows ->
    (List.length (LeadService.with_intent "High" rows)
     + List.length (LeadService.with_intent "Medium" rows)
     + List.length (LeadService.with_intent "Low" rows) = List.length rows)%nat).
Proof.
unfold LeadService.with_intent. induction rows as [|lead rows [IHle IHeq]]; simpl.
- split; [lia | reflexivity].
- destruct (Lead.intent_level lead =? "High")%string eqn:EH;
  destruct (Lead.intent_level lead =? "Medium")%string eqn:EM;
  destruct (Lead.intent_level lead =? "Low")%string eqn:EL;
    try (apply String.eqb_eq in EH); try (apply String.eqb_eq in EM);
    try (apply String.eqb_eq in EL); try congruence; simpl.
  + split; [lia|]. intro H. inversion H; subst. specialize (IHeq H3). lia.
  + split; [lia|]. intro H. inversion H; subst. specialize (IHeq H3). lia.
  + split; [lia|]. intro H. inversion H; subst. specialize (IHeq H3). lia.
  + split; [lia|]. intro H. inversion H as [|? ? Ht Hrest]; subst. exfalso.
    apply String.eqb_neq in EH, EM, EL. destruct Ht as [Ht|[Ht|Ht]]; congruence.
Qed.

Lemma with_intent_le (intent : string) (rows : list Lead.t) :
(List.length (LeadService.with_intent intent rows) <= List.length rows)%nat.
Proof.
unfold LeadService.with_intent. induction rows as [|lead rows IH]; simpl; [lia|].
destruct (Lead.intent_level lead =? intent)%string; simpl; lia.
Qed.

Lemma count_true_le (column : Lead.t -> value) (rows : list Lead.t) :
(LeadService.count_true column rows <= List.length rows)%nat.
Proof.
unfold LeadService.count_true. induction rows as [|lead rows IH]; simpl; [lia|].
destruct (column lead) as [|[|]| |]; simpl; lia.
Qed.

Lemma of_nat_nonneg (n : nat) : 0 <= inject_Z (Z.of_nat n).
Proof.
change 0 with (inject_Z 0). rewrite <- Zle_Qle. lia.
Qed.

Lemma of_nat_le (n m : nat) :
(n <= m)%nat -> inject_Z (Z.of_nat n) <= inject_Z (Z.of_nat m).
Proof.
intro H. rewrite <- Zle_Qle. lia.
Qed.

Lemma of_nat_plus (n m : nat) :
inject_Z (Z.of_nat (n + m)) == inject_Z (Z.of_nat n) + inject_Z (Z.of_nat m).
Proof.
rewrite Nat2Z.inj_add, inject_Z_plus. reflexivity.
Qed.

Lemma of_nat_pos (n : nat) : (0 < n)%nat -> 0 < inject_Z (Z.of_nat n).
Proof.
intro H. change 0 with (inject_Z 0). rewrite <- Zlt_Qlt. lia.
Qed.

Lemma share_percent (n total : nat) :
(n <= total)%nat -> (0 < total)%nat ->
0 <= round1 (inject_Z (Z.of_nat n) / inject_Z (Z.of_nat total) * 100) <= 100.
Proof.
intros Hle Hpos. apply round1_percent.
pose proof (of_nat_nonneg n). pose proof (of_nat_le _ _ Hle). pose proof (of_nat_pos _ Hpos).
assert (0 <= inject_Z (Z.of_nat n) / inject_Z (Z.of_nat total) <= 1); [|lra].
split; [apply Qle_shift_div_l; lra | apply Qle_shift_div_r; lra].
Qed.

Lemma avg_between (column : Lead.t -> Q) (lo hi : Q) (rows : list Lead.t) :
rows <> [] ->
Forall (fun lead => lo <= column lead <= hi) rows ->
lo <= LeadService.avg column rows <= hi.
Proof.
intros Hne Hall. unfold LeadService.avg.
assert (Hsum : lo * inject_Z (Z.of_nat (List.length rows))
               <= fold_right (fun lead total => column lead + total) 0 rows
               <= hi * inject_Z (Z.of_nat (List.length rows))).
{ clear Hne. induction Hall as [|lead rows Hlead _ IH].
  - cbn [List.length fold_right]. change (inject_Z (Z.of_nat 0)) with 0. lra.
  - change (List.length (lead :: rows)) with (1 + List.length rows)%nat.
    rewrite of_nat_plus. change (inject_Z (Z.of_nat 1)) with 1.
    cbn [fold_right]. lra. }
assert (Hpos : 0 < inject_Z (Z.of_nat (List.length rows))).
{ apply of_nat_pos. destruct rows; [congruence | simpl; lia]. }
split; [apply Qle_shift_div_l; lra | apply Qle_shift_div_r; lra].
Qed.

Lemma forecast_between (h m l total : nat) :
(h + m + l <= total)%nat -> (0 < total)%nat ->
0 <= ((75 # 100) * inject_Z (Z.of_nat h) + (55 # 100) * inject_Z (Z.of_nat m)
      + (30 # 100) * inject_Z (Z.of_nat l)) / inject_Z (Z.of_nat total)
  <= 75 # 100.
Proof.
intros Hle Hpos.
pose proof (of_nat_nonneg h). pose proof (of_nat_nonneg m). pose proof (of_nat_nonneg l).
pose proof (of_nat_pos _ Hpos). pose proof (of_nat_le _ _ Hle) as Hsum.
rewrite !of_nat_plus in Hsum.
split; [apply Qle_shift_div_l; lra | apply Qle_shift_div_r; lra].
Qed.

Lemma forecast_floor (h m l total : nat) :
(h + m + l = total)%nat -> (0 < total)%nat ->
30 # 100 <= ((75 # 100) * inject_Z (Z.of_nat h) + (55 # 100) * inject_Z (Z.of_nat m)
             + (30 # 100) * inject_Z (Z.of_nat l)) / inject_Z (Z.of_nat total).
Proof.
intros Heq Hpos.
pose proof (of_nat_nonneg h). pose proof (of_nat_nonneg m). pose proof (of_nat_nonneg l).
pose proof (of_nat_pos _ Hpos).
assert (Hsum : inject_Z (Z.of_nat total)
               == inject_Z (Z.of_nat h) + inject_Z (Z.of_nat m) + inject_Z (Z.of_nat l)).
{ rewrite <- Heq, !of_nat_plus. reflexivity. }
apply Qle_shift_div_l; lra.
Qed.

End AnalyticsBounds.

(** X16.  When every stored score and confidence is within [0, 100], the
    analytics are within their ranges: the total is the number of rows; the
    three tier counts add up to at most the total, and to the total when
    every row has one of the three tiers; each source count is at most the
    total; the three percentages, the average score and the average
    confidence are within [0, 100]; the conversion forecast is within
    [0, 0.75], and at least 0.30 for a table, not empty, whose rows all have
    one of the three tiers. *)
Theorem analytics_within_bounds (db : Session.t) :
  Forall (fun lead => 0 <= Lead.score lead <= 100) (Session.rows db) ->
  Forall (fun lead => 0 <= Lead.confidence lead <= 100) (Session.rows db) ->
  let a := LeadService.get_analytics db in
  let tiers := (Analytics.high_intent_count a + Analytics.medium_intent_count a
                + Analytics.low_intent_count a)%nat in
  Analytics.total_leads a = List.length (Session.rows db)
  /\ (tiers <= Analytics.total_leads a)%nat
  /\ (Forall tiered (Session.rows db) -> tiers = Analytics.total_leads a)
  /\ Forall (fun source => (snd source <= Analytics.total_leads a)%nat)
            (Analytics.source_breakdown a)
  /\ 0 <= Analytics.high_intent_percentage a <= 100
  /\ 0 <= Analytics.medium_intent_percentage a <= 100
  /\ 0 <= Analytics.low_intent_percentage a <= 100
  /\ 0 <= Analytics.average_score a <= 100
  /\ 0 <= Analytics.average_confidence a <= 100
  /\ 0 <= Analytics.conversion_forecast a <= 75 # 100
  /\ (Session.rows db <> [] -> Forall tiered (Session.rows db) ->
      30 # 100 <= Analytics.conversion_forecast a).
Proof.
  intros Hscore Hconf. unfold LeadService.get_analytics.
  destruct (Session.rows db) as [|lead rows] eqn:Hrows.
  - cbn. repeat split; try lra; try lia; try constructor. intro H. congruence.
  - set (table := lead :: rows) in *.
    assert (Hne : table <> []) by (unfold table; congruence).
    assert (Hpos : (0 < List.length table)%nat) by (unfold table; simpl; lia).
    replace (List.length table =? 0)%nat with false
      by (symmetry; apply Nat.eqb_neq; lia).
    cbn zeta. cbn [Analytics.total_leads Analytics.high_intent_count
      Analytics.medium_intent_count Analytics.low_intent_count
      Analytics.source_breakdown Analytics.high_intent_percentage
      Analytics.medium_intent_percentage Analytics.low_intent_percentage
      Analytics.average_score Analytics.average_confidence
      Analytics.conversion_forecast].
    destruct (tiers_partition table) as [Hle Heq].
    split; [reflexivity|]. split; [exact Hle|]. split; [exact Heq|].
    split; [repeat (apply Forall_cons; [apply count_true_le|]); apply Forall_nil|].
    split; [apply share_percent; [apply with_intent_le | exact Hpos]|].
    split; [apply share_percent; [apply with_intent_le | exact Hpos]|].
    split; [apply share_percent; [apply with_intent_le | exact Hpos]|].
    split; [apply (round2_between _ 0 100 0 10000);
            [reflexivity | reflexivity | apply avg_between; assumption]|].
    split; [apply (round2_between _ 0 100 0 10000);
            [reflexivity | reflexivity | apply avg_between; assumption]|].
    split.
    + apply (round2_between _ 0 (75 # 100) 0 75); [reflexivity | reflexivity |].
      apply forecast_between; assumption.
    + intros _ Htier.
      apply (round2_between _ (30 # 100) (75 # 100) 30 75); [reflexivity | reflexivity |].
      split; [apply forecast_floor; [apply Heq; exact Htier | exact Hpos]
             | apply forecast_between; assumption].
Qed.

Lemma analytics_within_bounds_witness :
  Forall (fun lead => 0 <= Lead.score lead <= 100) (Session.rows Sample.two_leads)
  /\ Analytics.total_leads (LeadService.get_analytics Sample.two_leads) = 2%nat
  /\ 0 <= Analytics.conversion_forecast (LeadService.get_analytics Sample.two_leads)
       <= 75 # 100.
Proof.
  assert (Hscore : Forall (fun lead => 0 <= Lead.score lead <= 100)
                          (Session.rows Sample.two_leads)).
  { repeat constructor; vm_compute; discriminate. }
  assert (Hconf : Forall (fun lead => 0 <= Lead.confidence lead <= 100)
                         (Session.rows Sample.two_leads)).
  { repeat constructor; vm_compute; discriminate. }
  pose proof (analytics_within_bounds Sample.two_leads Hscore Hconf) as H.
  cbv zeta in H. destruct H as (Htotal & _ & _ & _ & _ & _ & _ & _ & _ & Hforecast & _).
  split; [exact Hscore|]. split; [exact Htotal | exact Hforecast].
Defined.

(** *** The engines of a service *)

Section Singleton.

Lemma get_scoring_engine_cached (fs : Config.files) (engine : ConfigDrivenScoringEngine.t) :
get_scoring_engine fs (Some engine) = (Ok engine, Some engine).
Proof.
reflexivity.
Qed.

Lemma service_with_cached_engine (fs : Config.files)
  (engine : ConfigDrivenScoringEngine.t) :
match fs (Config.config_path Config.settings) with
| Config.Missing =>
    LeadService.__init__ fs (Some engine) = (Raise FileNotFoundError, Some engine)
| Config.Malformed =>
    LeadService.__init__ fs (Some engine) = (Raise YAMLError, Some engine)
| Config.Parsed (Config.Mapping c) =>
    exists service,
      LeadService.__init__ fs (Some engine) = (Ok service, Some engine)
      /\ LeadService.scoring_engine service = engine
      /\ ExplanationEngine.config (LeadService.explanation_engine service) = c
      /\ NextActionEngine.config (LeadService.action_engine service) = c
| Config.Parsed _ =>
    LeadService.__init__ fs (Some engine) = (Raise AttributeError, Some engine)
end.
Proof.
unfold LeadService.__init__, ExplanationEngine.get_explanation_engine,
  NextActionEngine.get_action_engine, ExplanationEngine.__init__,
  NextActionEngine.__init__.
rewrite get_scoring_engine_cached.
destruct (fs (Config.config_path Config.settings)) as [| |[| | |c]]; try reflexivity.
eexists. split; [reflexivity|]. repeat split.
Qed.

End Singleton.

(** X17.  The scoring engine is built once.  When [get_scoring_engine]
    returns an engine, it is the one kept before or, with none kept, the one
    built from the file; it is kept, returned again whatever the file holds
    later, and is the scoring engine of every service built later, whose
    explanation and action engines hold the file's content of that later
    time; such a construction raises when the file is then missing,
    malformed or not a mapping.  When [get_scoring_engine] raises, nothing
    was kept and nothing is: the next construction builds the engine
    again. *)
Theorem scoring_engine_is_built_once (fs : Config.files)
    (_scoring_engine : option ConfigDrivenScoringEngine.t) :
  match get_scoring_engine fs _scoring_engine with
  | (Ok engine, kept) =>
      kept = Some engine
      /\ match _scoring_engine with
         | Some earlier => engine = earlier
         | None => ConfigDrivenScoringEngine.__init__ fs None = Ok engine
         end
      /\ (forall later : Config.files, get_scoring_engine later kept = (Ok engine, kept))
      /\ (forall later : Config.files,
            match later (Config.config_path Config.settings) with
            | Config.Missing =>
                LeadService.__init__ later kept = (Raise FileNotFoundError, kept)
            | Config.Malformed =>
                LeadService.__init__ later kept = (Raise YAMLError, kept)
            | Config.Parsed (Config.Mapping c) =>
                exists service,
                  LeadService.__init__ later kept = (Ok service, kept)
                  /\ LeadService.scoring_engine service = engine
                  /\ ExplanationEngine.config (LeadService.explanation_engine service) = c
                  /\ NextActionEngine.config (LeadService.action_engine service) = c
            | Config.Parsed _ =>
                LeadService.__init__ later kept = (Raise AttributeError, kept)
            end)
  | (Raise e, kept) =>
      _scoring_engine = None /\ kept = None
      /\ ConfigDrivenScoringEngine.__init__ fs None = Raise e
      /\ (forall later : Config.files,
            LeadService.__init__ later kept
            = match ConfigDrivenScoringEngine.__init__ later None with
              | Ok engine => LeadService.__init__ later (Some engine)
              | Raise e' => (Raise e', None)
              end)
  end.
Proof.
  destruct _scoring_engine as [earlier|].
  - rewrite get_scoring_engine_cached. split; [reflexivity|]. split; [reflexivity|].
    split; [intro later; reflexivity|]. intro later.
    apply service_with_cached_engine.
  - unfold get_scoring_engine at 1.
    destruct (ConfigDrivenScoringEngine.__init__ fs None) as [engine|e] eqn:Hinit.
    + split; [reflexivity|]. split; [reflexivity|].
      split; [intro later; reflexivity|]. intro later.
      apply service_with_cached_engine.
    + split; [reflexivity|]. split; [reflexivity|]. split; [reflexivity|].
      intro later. unfold LeadService.__init__, get_scoring_engine.
      destruct (ConfigDrivenScoringEngine.__init__ later None); reflexivity.
Qed.

(** The scoring engine built from the first file scores with that file's
    weights after the file was replaced by an empty mapping; the explanation
    engine of the same service reads the new file. *)
Example service_engines_disagree :
  exists service,
    LeadService.__init__ Sample.empty_files
      (snd (get_scoring_engine Sample.files None))
    = (Ok service, Some Sample.engine)
    /\ ConfigDrivenScoringEngine.config (LeadService.scoring_engine service)
       = Sample.config
    /\ ExplanationEngine.config (LeadService.explanation_engine service)
       = Sample.empty_config.
Proof.
  eexists. split; [reflexivity|]. split; reflexivity.
Qed.
